(** * automated_news_crawler: the crawl orchestrator, embedded and verified

    A shallow embedding of [src/main.py], [src/utils/scraper_utils.py],
    [src/utils/api_scraper.py] and [src/config.py].

    - Python dictionaries decoded from JSON are finite maps from strings to
      values ([gmap string pyval]); the session's [seen_names] set is a
      [gset pyval].
    - The external collaborators (the crawl4ai crawler, the newsdata.io HTTP
      endpoint, the Kafka producer, the CSV writer, [asyncio.sleep]) appear
      as events of a trace.  The crawler is an oracle: the reply to the
      [k]-th [crawler.arun] call of a session.
    - Code that calls the crawler lives in a small state-and-exception monad
      [M]: the state is the number of [arun] calls made so far, the output is
      the trace of events, and an exception cuts the computation short. *)

From stdpp Require Import gmap strings list fin_maps pretty.

(** ** Values and dictionaries *)

(** The JSON values the code inspects.  [models/mcnews.py] types every field
    of a news record as [str]; crawl4ai tags each extracted block with a
    boolean ["error"] flag; JSON [null] decodes to [None].  Numbers and nested
    containers are outside the extraction schema and are left out. *)
Inductive pyval :=
| PNone
| PBool (b : bool)
| PStr (s : string).

Global Instance pyval_eq_dec : EqDecision pyval.
Proof. solve_decision. Defined.

Global Instance pyval_countable : Countable pyval.
Proof.
  refine (inj_countable'
    (λ v, match v with
          | PNone => inl ()
          | PBool b => inr (inl b)
          | PStr s => inr (inr s)
          end)
    (λ x, match x with
          | inl _ => PNone
          | inr (inl b) => PBool b
          | inr (inr s) => PStr s
          end) _).
  by intros [].
Defined.

(** Python truthiness: [None], [False] and [''] are falsy. *)
Definition truthy (v : pyval) : bool :=
  match v with
  | PNone => false
  | PBool b => b
  | PStr s => negb (String.eqb s EmptyString)
  end.

Abbreviation pydict := (gmap string pyval).

(** [d.get(key)] and [d.get(key, dflt)]. *)
Definition dict_get (d : pydict) (key : string) : pyval :=
  default PNone (d !! key).
Definition dict_get_or (d : pydict) (key : string) (dflt : pyval) : pyval :=
  default dflt (d !! key).

(** An element of the decoded JSON array: a dictionary, or anything else. *)
Inductive item :=
| ItemDict (d : pydict)
| ItemOther.

(** The outcome of [json.loads(result.extracted_content)]. *)
Inductive extracted :=
| JsonDecodeError
| JDict (d : pydict)
| JList (l : list item)
| JScalar.

(** The fields of crawl4ai's [CrawlResult] that steer the control flow.
    [extracted_content] is [None] when the attribute is [None] or the empty
    string (both falsy); otherwise it holds what [json.loads] makes of it. *)
Record CrawlResult := {
  success : bool;
  cleaned_html : string;
  extracted_content : option extracted
}.

(** What one [crawler.arun] call does: it returns a result or raises. *)
Inductive reply :=
| Reply (r : CrawlResult)
| Throw (msg : string).

(** The newsdata.io exchange of [fetch_newsdata_api].  [HttpFails] stands for
    every exception inside its [try] block ([requests.get],
    [raise_for_status], [response.json], a body that is no object). *)
Inductive http_reply :=
| HttpFails
| HttpJson (status : option string) (results : option (list pydict)).

(** ** Events and outcomes *)

Inductive event :=
| EvProbe (url session_id : string) (r : reply)
| EvExtract (url css_selector session_id : string) (r : reply)
| EvSleep (secs : nat)
| EvKafka (news : list pydict) (topic : string)
| EvCsv (news : list pydict) (filename : string)
| EvApiGet (apikey : string) (r : http_reply).

Inductive exn :=
| AttributeError
| TypeError
| CrawlerError (msg : string).

(** [OutOfFuel] marks a run cut off by the recursion bound of the model of
    [while True]; [crawl_scraper_source_total] shows it never happens. *)
Inductive outcome (A : Type) :=
| Returns (a : A)
| Raises (e : exn)
| OutOfFuel.
Arguments Returns {A} a.
Arguments Raises {A} e.
Arguments OutOfFuel {A}.

(** ** The monad *)

Definition M (A : Type) : Type := nat → outcome A * list event * nat.

Definition ret {A} (a : A) : M A := λ n, (Returns a, [], n).

Definition bind {A B} (m : M A) (f : A → M B) : M B := λ n,
  match m n with
  | (Returns a, tr, n') =>
      let '(o, tr', n'') := f a n' in (o, tr ++ tr', n'')
  | (Raises e, tr, n') => (Raises e, tr, n')
  | (OutOfFuel, tr, n') => (OutOfFuel, tr, n')
  end.

Definition emit (e : event) : M unit := λ n, (Returns (), [e], n).
Definition lift {A} (o : outcome A) : M A := λ n, (o, [], n).

Notation "'let*' x ':=' m 'in' k" := (bind m (λ x, k))
  (at level 10, x pattern, m at level 100, k at level 200, only parsing).
Notation "m ';;' k" := (bind m (λ _, k))
  (at level 100, k at level 200, right associativity, only parsing).

(** ** src/config.py *)

Record source_config := {
  base_url : string;
  css_selector : string;
  api_url : string;
  type_ : string;
  model : string;
  gemini_key_env : string
}.

(** The double-quote character of the two CSS selectors. *)
Definition dquote : string := String (Ascii.ascii_of_nat 34) EmptyString.

Definition moneycontrol_config : source_config :=
  {| base_url := "https://www.moneycontrol.com/city";
     css_selector := "[class='topictabpane']";
     api_url := EmptyString;
     type_ := "scraper"; model := "mcnews";
     gemini_key_env := "GEMINI_API_KEY_1" |}.

Definition thehindu_config : source_config :=
  {| base_url := "https://www.thehindu.com/news/national";
     css_selector := "[class=" +:+ dquote +:+ "story-card" +:+ dquote +:+ "]";
     api_url := EmptyString;
     type_ := "scraper"; model := "thehindu";
     gemini_key_env := "GEMINI_API_KEY_2" |}.

Definition indianexpress_config : source_config :=
  {| base_url := "https://indianexpress.com/section/india";
     css_selector := "[class=" +:+ dquote +:+ "articles" +:+ dquote +:+ "]";
     api_url := EmptyString;
     type_ := "scraper"; model := "indianexpress";
     gemini_key_env := "GEMINI_API_KEY_3" |}.

(** The API entry has neither [base_url] nor [css_selector]; the code never
    reads them for it. *)
Definition newsdata_config : source_config :=
  {| base_url := EmptyString; css_selector := EmptyString;
     api_url := "https://newsdata.io/api/1/news";
     type_ := "api"; model := "newsdata";
     gemini_key_env := "GEMINI_API_KEY_3" |}.

Definition SOURCES : list (string * source_config) :=
  [ ("moneycontrol", moneycontrol_config);
    ("thehindu", thehindu_config);
    ("indianexpress", indianexpress_config);
    ("newsdata", newsdata_config) ].

Definition REQUIRED_KEYS : list string :=
  ["title"; "description"; "url"; "publishtime"; "provider"].

(** ** The collaborators outside the sources *)

(** Modelled from the spec: [utils/kafka_producer.py] is not among the
    sources.  Section 4.5: the publish is fire-and-forget, a publish failure
    is logged and does not abort the pagination loop.  The call is an event
    of the trace and always returns. *)
Definition send_news_to_kafka (news : list pydict) (topic : string) : M unit :=
  emit (EvKafka news topic).

(** Modelled from the spec: [save_news_to_csv] of [utils/data_utils.py] is not
    among the sources.  Section 6: the snapshot writer persists the list of
    records under a destination keyed by the source identifier.  The call is
    an event of the trace and always returns. *)
Definition save_news_to_csv (news : list pydict) (filename : string) : M unit :=
  emit (EvCsv news filename).

(** [await asyncio.sleep(secs)] *)
Definition sleep (secs : nat) : M unit := emit (EvSleep secs).

(** [os.getenv(name)] is a lookup in the process environment; [not value]
    holds for [None] and for the empty string. *)
Definition falsy_env (value : option string) : bool :=
  match value with
  | None => true
  | Some v => String.eqb v EmptyString
  end.

Definition is_nil {A} (l : list A) : bool :=
  match l with [] => true | _ => false end.

(** ** src/utils/scraper_utils.py *)

(** [needle in hay] on strings. *)
Fixpoint contains (needle hay : string) : bool :=
  String.prefix needle hay ||
  match hay with
  | EmptyString => false
  | String _ rest => contains needle rest
  end.

(** [f"{base_url}/page-{page_number}/"] *)
Definition page_url (base_url : string) (page_number : nat) : string :=
  base_url +:+ "/page-" +:+ pretty page_number +:+ "/".

Section Scraper.

(** [utils/data_utils.py] is not among the sources: its two helpers are
    parameters of the development. *)
Variable is_complete_news : pydict → list string → bool.
Variable is_duplicate_news : pyval → gset pyval → bool.

(** The crawler of one session: the reply to its [k]-th [arun] call. *)
Variable crawler : nat → reply.

(** One [await crawler.arun(...)]: the call is recorded with its reply, the
    call counter advances, and a raising call raises. *)
Definition arun (mk : reply → event) : M CrawlResult := λ n,
  match crawler n with
  | Reply r => (Returns r, [mk (crawler n)], S n)
  | Throw msg => (Raises (CrawlerError msg), [mk (crawler n)], S n)
  end.

Definition check_no_results (url session_id : string) : M bool :=
  let* result := arun (EvProbe url session_id) in
  if success result then
    if contains "No Results Found" (cleaned_html result) then ret true
    else ret false
  else ret false.

(** The [for idx, news in enumerate(extracted_data)] loop.  [seen_names] is
    the caller's set, updated in place; [complete_news] accumulates.
    [news_title[:50]] of the duplicate message raises [TypeError] when the
    title is no string. *)
Fixpoint process_news (required_keys : list string) (extracted_data : list item)
    (seen_names : gset pyval) (complete_news : list pydict)
    : outcome (list pydict * gset pyval) :=
  match extracted_data with
  | [] => Returns (complete_news, seen_names)
  | ItemOther :: rest =>
      process_news required_keys rest seen_names complete_news
  | ItemDict news :: rest =>
      if truthy (dict_get news "error") then
        process_news required_keys rest seen_names complete_news
      else
        let news := delete "error" news in
        if negb (is_complete_news news required_keys) then
          process_news required_keys rest seen_names complete_news
        else
          let news_title := dict_get_or news "title" (PStr EmptyString) in
          if negb (truthy news_title) then
            process_news required_keys rest seen_names complete_news
          else if is_duplicate_news news_title seen_names then
            match news_title with
            | PStr _ => process_news required_keys rest seen_names complete_news
            | _ => Raises TypeError
            end
          else
            process_news required_keys rest
              ({[news_title]} ∪ seen_names) (complete_news ++ [news])
  end.

(** Lines 201-252: the debug output ([extracted_data[0].keys()] raises
    [AttributeError] when the first element is no dictionary), the item loop
    and the final test on [complete_news]. *)
Definition process_extracted (required_keys : list string)
    (extracted_data : list item) (seen_names : gset pyval)
    : outcome (list pydict * bool * gset pyval) :=
  match extracted_data with
  | ItemOther :: _ => Raises AttributeError
  | _ =>
      match process_news required_keys extracted_data seen_names [] with
      | Returns (complete_news, seen_names') =>
          match complete_news with
          | [] => Returns ([], false, seen_names')
          | _ => Returns (complete_news, false, seen_names')
          end
      | Raises e => Raises e
      | OutOfFuel => OutOfFuel
      end
  end.

(** Lines 167-199: from the crawl result to the list of raw items, [None]
    standing for each [return [], False]. *)
Definition parse_extracted (result : CrawlResult) : option (list item) :=
  if success result then
    match extracted_content result with
    | None => None
    | Some JsonDecodeError => None
    | Some (JDict d) =>
        if truthy (dict_get d "error") then None else Some [ItemDict d]
    | Some JScalar => None
    | Some (JList []) => None
    | Some (JList l) => Some l
    end
  else None.

Definition fetch_and_process_page (page_number : nat)
    (base_url css_selector session_id : string)
    (required_keys : list string) (seen_names : gset pyval)
    : M (list pydict * bool * gset pyval) :=
  let url := page_url base_url page_number in
  let* no_results := check_no_results url session_id in
  if no_results then ret ([], true, seen_names)
  else
    let* result := arun (EvExtract url css_selector session_id) in
    match parse_extracted result with
    | None => ret ([], false, seen_names)
    | Some extracted_data =>
        lift (process_extracted required_keys extracted_data seen_names)
    end.

(** ** src/main.py: one paginated source *)

Variable environ : gmap string string.

(** [for attempt in range(3)]: [last] holds [news, no_results_found] as the
    previous iteration left them. *)
Fixpoint retry_loop (attempts : nat) (page_number : nat)
    (source_config : source_config) (session_id : string)
    (seen_names : gset pyval) (last : list pydict * bool)
    : M (list pydict * bool * gset pyval) :=
  match attempts with
  | 0 => ret (last, seen_names)
  | S attempts' =>
      let* (news, no_results_found, seen_names') :=
        fetch_and_process_page page_number (base_url source_config)
          (css_selector source_config) session_id REQUIRED_KEYS seen_names in
      if negb (is_nil news) || no_results_found then
        ret (news, no_results_found, seen_names')
      else
        sleep 5 ;;
        retry_loop attempts' page_number source_config session_id
          seen_names' (news, no_results_found)
  end.

(** [while True]: one unit of [fuel] per iteration. *)
Fixpoint crawl_pages (fuel : nat) (source_config : source_config)
    (session_id kafka_topic : string) (page_number : nat)
    (all_news : list pydict) (seen_names : gset pyval)
    : M (list pydict) :=
  match fuel with
  | 0 => lift OutOfFuel
  | S fuel' =>
      let* (news, no_results_found, seen_names') :=
        retry_loop 3 page_number source_config session_id seen_names
          ([], false) in
      if no_results_found then ret all_news
      else if is_nil news then ret all_news
      else
        send_news_to_kafka news kafka_topic ;;
        let all_news := all_news ++ news in
        if 20 <? page_number then ret all_news
        else
          sleep 2 ;;
          crawl_pages fuel' source_config session_id kafka_topic
            (page_number + 1) all_news seen_names'
  end.

Definition crawl_scraper_source (source_name : string)
    (source_config : source_config) : M (list pydict) :=
  let api_key := environ !! gemini_key_env source_config in
  if falsy_env api_key then ret []
  else
    let session_id := source_name +:+ "_session" in
    let kafka_topic := default "news-events" (environ !! "KAFKA_TOPIC") in
    let* all_news :=
      crawl_pages 21 source_config session_id kafka_topic 1 [] ∅ in
    (if is_nil all_news then ret ()
     else save_news_to_csv all_news (source_name +:+ "_news.csv")) ;;
    ret all_news.

End Scraper.

(** ** src/utils/api_scraper.py *)

Section Api.

(** The newsdata.io endpoint: its answer to a request with a given key. *)
Variable http : string → http_reply.
Variable environ : gmap string string.

Definition fetch_newsdata_api (api_key : string) : M (list pydict) :=
  emit (EvApiGet api_key (http api_key)) ;;
  match http api_key with
  | HttpFails => ret []
  | HttpJson status results =>
      if bool_decide (status = Some "success") then ret (default [] results)
      else ret []
  end.

Definition newsdata_record (item : pydict) : pydict :=
  <["provider" := dict_get_or item "source_id" (PStr "newsdata")]>
  (<["publishtime" := dict_get_or item "pubDate" (PStr EmptyString)]>
  (<["url" := dict_get_or item "link" (PStr EmptyString)]>
  (<["description" := dict_get_or item "description" (PStr EmptyString)]>
  (<["title" := dict_get_or item "title" (PStr EmptyString)]> ∅)))).

(** [for item in raw_results: ... formatted_news.append(news)] *)
Definition process_newsdata_with_gemini (raw_results : list pydict)
    (gemini_key : string) : list pydict :=
  if is_nil raw_results then []
  else
    foldl (λ formatted_news item, formatted_news ++ [newsdata_record item])
      [] raw_results.

(** ** src/main.py: the one-shot source *)

Definition crawl_api_source (source_name : string)
    (source_config : source_config) : M (list pydict) :=
  let api_key := environ !! "NEWSDATA_API_KEY" in
  let gemini_key := environ !! gemini_key_env source_config in
  if falsy_env api_key then ret []
  else if falsy_env gemini_key then ret []
  else
    let* raw_results := fetch_newsdata_api (default EmptyString api_key) in
    let news :=
      process_newsdata_with_gemini raw_results (default EmptyString gemini_key) in
    let kafka_topic := default "news-events" (environ !! "KAFKA_TOPIC") in
    (if is_nil news then ret ()
     else
       send_news_to_kafka news kafka_topic ;;
       save_news_to_csv news (source_name +:+ "_news.csv")) ;;
    ret news.

End Api.

(** ** src/main.py: the orchestrator *)

Inductive report_line :=
| Error (source_name : string) (e : exn)
| Completed (source_name : string) (count : nat).

Record summary := {
  lines : list report_line;
  total_news : nat;
  traces : list (string * list event)
}.

Section Main.

Variable is_complete_news : pydict → list string → bool.
Variable is_duplicate_news : pyval → gset pyval → bool.
(** Each scraper task opens its own [AsyncWebCrawler]. *)
Variable crawlers : string → nat → reply.
Variable http : string → http_reply.
Variable environ : gmap string string.

(** The coroutine [main] creates for one entry of [SOURCES], if any. *)
Definition make_task (source_name : string) (source_config : source_config)
    : option (M (list pydict)) :=
  if String.eqb (type_ source_config) "scraper" then
    Some (crawl_scraper_source is_complete_news is_duplicate_news
            (crawlers source_name) environ source_name source_config)
  else if String.eqb (type_ source_config) "api" then
    Some (crawl_api_source http environ source_name source_config)
  else None.

(** [for source_name, source_config in SOURCES.items()] *)
Definition build_tasks (sources : list (string * source_config))
    : list (string * M (list pydict)) :=
  foldl (λ tasks src,
           match make_task src.1 src.2 with
           | Some task => tasks ++ [(src.1, task)]
           | None => tasks
           end) [] sources.

(** [asyncio.gather(..., return_exceptions=True)]: every task runs to its
    end on its own state; an exception is the task's result. *)
Definition gather (tasks : list (string * M (list pydict)))
    : list (outcome (list pydict) * list event) :=
  map (λ task, let '(result, trace, _) := task.2 0 in (result, trace)) tasks.

(** [for (source_name, _), result in zip(tasks, results)].  A run cut off
    by the recursion bound prints nothing. *)
Definition report (tasks : list (string * M (list pydict)))
    (results : list (outcome (list pydict) * list event))
    : list report_line * nat :=
  foldl (λ acc tr,
           let '(lines, total_news) := acc in
           match (tr.2).1 with
           | Raises e => (lines ++ [Error (tr.1).1 e], total_news)
           | Returns result =>
               (lines ++ [Completed (tr.1).1 (length result)],
                total_news + length result)
           | OutOfFuel => (lines, total_news)
           end) ([], 0) (zip tasks results).

Definition main (sources : list (string * source_config)) : summary :=
  let tasks := build_tasks sources in
  let results := gather tasks in
  let '(lines, total_news) := report tasks results in
  {| lines := lines; total_news := total_news;
     traces := zip (map fst tasks) (map snd results) |}.

End Main.

(** ** Instances of the two helper parameters, for concrete runs *)

(** Modelled from the spec: [is_duplicate_news] of [utils/data_utils.py] is
    not among the sources.  Section 4.3: a record is a duplicate if its title
    exactly matches a title already in [seenTitles] of the session. *)
Definition is_duplicate_news_exact (title : pyval) (seen_names : gset pyval) : bool :=
  bool_decide (title ∈ seen_names).

(** Modelled from the spec: [is_complete_news] of [utils/data_utils.py] is not
    among the sources.  Section 4.3: a record missing one or more of the
    required fields is rejected; the caller reports as missing the keys that
    are [not in news] (scraper_utils.py, line 223).  This instance asks that
    every required key is a key of the record and does not look at the
    values. *)
Definition is_complete_news_keys (news : pydict) (required_keys : list string) : bool :=
  forallb (λ key, bool_decide (is_Some (news !! key))) required_keys.

(** Modelled from the spec: the same helper read with the words of the
    required-field contract of section 4.3, a record is accepted only if it
    carries non-empty values for the required fields. *)
Definition is_complete_news_nonempty (news : pydict) (required_keys : list string) : bool :=
  forallb (λ key, truthy (dict_get news key)) required_keys.

(** ** Observations on records and traces *)

(** [news.get('title', '')] *)
Definition title_of (news : pydict) : pyval :=
  dict_get_or news "title" (PStr EmptyString).

(** The required-field contract of the specification: every one of the five
    fields is present with a non-empty value. *)
Definition satisfies_contract (news : pydict) : bool :=
  forallb (λ key, match news !! key with
                  | Some v => truthy v
                  | None => false
                  end) REQUIRED_KEYS.

(** The records handed to the event stream, and to the snapshot writer. *)
Definition kafka_news (e : event) : list pydict :=
  match e with EvKafka news _ => news | _ => [] end.
Definition csv_news (e : event) : list pydict :=
  match e with EvCsv news _ => news | _ => [] end.
Definition forwarded (tr : list event) : list pydict := tr ≫= kafka_news.
Definition snapshot (tr : list event) : list pydict := tr ≫= csv_news.

(** The raw items an extraction call delivered to the item loop. *)
Definition delivered (e : event) : list item :=
  match e with
  | EvExtract _ _ _ (Reply r) => default [] (parse_extracted r)
  | _ => []
  end.

(** The raw item survives the error-flag test, the required-key check and the
    empty-title test of the item loop. *)
Definition passes_validator (is_complete_news : pydict → list string → bool)
    (required_keys : list string) (it : item) : bool :=
  match it with
  | ItemDict d =>
      negb (truthy (dict_get d "error")) &&
      is_complete_news (delete "error" d) required_keys &&
      truthy (title_of (delete "error" d))
  | ItemOther => false
  end.

(** What the item loop has established of a record it appends. *)
Definition checked (is_complete_news : pydict → list string → bool)
    (required_keys : list string) (news : pydict) : Prop :=
  news !! "error" = None ∧
  is_complete_news news required_keys = true ∧
  truthy (title_of news) = true.

Definition item_title (it : item) : pyval :=
  match it with
  | ItemDict d => title_of (delete "error" d)
  | ItemOther => PNone
  end.

(** A probe whose page shows the no-results marker. *)
Definition terminal_reply (r : reply) : bool :=
  match r with
  | Reply r => success r && contains "No Results Found" (cleaned_html r)
  | Throw _ => false
  end.
Definition terminal_probe (e : event) : bool :=
  match e with
  | EvProbe _ _ r => terminal_reply r
  | _ => false
  end.

(** Calls of the crawler for one URL: the probe opens every fetch attempt. *)
Definition is_probe_of (url : string) (e : event) : bool :=
  match e with
  | EvProbe u _ _ => bool_decide (u = url)
  | _ => false
  end.
Definition is_extract_of (url : string) (e : event) : bool :=
  match e with
  | EvExtract u _ _ _ => bool_decide (u = url)
  | _ => false
  end.
Definition count_events (p : event → bool) (tr : list event) : nat :=
  length (List.filter p tr).
Definition fetch_attempts (url : string) (tr : list event) : nat :=
  count_events (is_probe_of url) tr.

Definition is_sleep (secs : nat) (e : event) : bool :=
  match e with
  | EvSleep s => bool_decide (s = secs)
  | _ => false
  end.

(** No probe of the trace shows the no-results marker. *)
Definition no_terminal (tr : list event) : Prop :=
  Forall (λ e, terminal_probe e = false) tr.


(** The events of one page's retry loop. *)
Definition page_event (url : string) (e : event) : bool :=
  is_probe_of url e || is_extract_of url e || is_sleep 5 e.

(** Between two consecutive probes of a trace lies a five-second sleep:
    [waiting] says that a probe has been seen and no sleep since. *)
Fixpoint paced_from (waiting : bool) (tr : list event) : bool :=
  match tr with
  | [] => true
  | EvProbe _ _ _ :: rest => negb waiting && paced_from true rest
  | EvSleep 5 :: rest => paced_from false rest
  | _ :: rest => paced_from waiting rest
  end.
Definition paced (tr : list event) : bool := paced_from false tr.

(** The unit of work of one entry of [SOURCES] run on its own: its result and
    its trace, or [None] for an unknown source type. *)
Definition unit_of_work (is_complete_news : pydict → list string → bool)
    (is_duplicate_news : pyval → gset pyval → bool)
    (crawlers : string → nat → reply) (http : string → http_reply)
    (environ : gmap string string) (src : string * source_config)
    : option (outcome (list pydict) * list event) :=
  (λ task : M (list pydict), (task 0).1) <$>
    make_task is_complete_news is_duplicate_news crawlers http environ
      src.1 src.2.

Definition completed_count
    (run : option (outcome (list pydict) * list event)) : nat :=
  match run with
  | Some (Returns news, _) => length news
  | _ => 0
  end.

Definition line_of (source_name : string)
    (run : option (outcome (list pydict) * list event)) : option report_line :=
  match run with
  | Some (Returns news, _) => Some (Completed source_name (length news))
  | Some (Raises e, _) => Some (Error source_name e)
  | _ => None
  end.

(** The source has no credential to run with: its Gemini key is not set, or
    it is the API source and the newsdata.io key is not set. *)
Definition missing_credential (environ : gmap string string)
    (cfg : source_config) : Prop :=
  environ !! gemini_key_env cfg = None ∨
  (type_ cfg = "api" ∧ environ !! "NEWSDATA_API_KEY" = None).

(** One fetch attempt of a page of a source, as the retry loop makes it. *)
Definition page_attempt (is_complete_news : pydict → list string → bool)
    (is_duplicate_news : pyval → gset pyval → bool) (crawler : nat → reply)
    (page_number : nat) (cfg : source_config) (session_id : string)
    : gset pyval → M (list pydict * bool * gset pyval) :=
  fetch_and_process_page is_complete_news is_duplicate_news crawler
    page_number (base_url cfg) (css_selector cfg) session_id REQUIRED_KEYS.

(** ** Concrete inputs *)

Definition example_environ : gmap string string :=
  {[ "GEMINI_API_KEY_1" := "gm-key-1"; "GEMINI_API_KEY_2" := "gm-key-2";
     "GEMINI_API_KEY_3" := "gm-key-3"; "NEWSDATA_API_KEY" := "nd-key" ]}.

(** A block as the extraction engine returns it: the five fields and the
    [error] tag. *)
Definition article (title : string) : pydict :=
  {[ "title" := PStr title; "description" := PStr "summary";
     "url" := PStr "https://example.org/story";
     "publishtime" := PStr "2025-01-01"; "provider" := PStr "desk";
     "error" := PBool false ]}.

Definition page_without_marker : reply :=
  Reply {| success := true; cleaned_html := "<div>Top stories</div>";
           extracted_content := None |}.
Definition page_with_marker : reply :=
  Reply {| success := true; cleaned_html := "<p>No Results Found</p>";
           extracted_content := None |}.
Definition extraction (items : list item) : reply :=
  Reply {| success := true; cleaned_html := EmptyString;
           extracted_content := Some (JList items) |}.
Definition extraction_failed : reply :=
  Reply {| success := false; cleaned_html := EmptyString;
           extracted_content := None |}.

(** Every page has one article of its own: no fetch is ever empty. *)
Definition crawler_fresh (k : nat) : reply :=
  if Nat.even k then page_without_marker
  else extraction [ItemDict (article ("headline " +:+ pretty k))].

(** The scenario of section 8: page 1 has two articles and a repeat of the
    first, page 2 shows the no-results marker. *)
Definition crawler_scenario (k : nat) : reply :=
  match k with
  | 0 => page_without_marker
  | 1 => extraction [ItemDict (article "Rates held"); ItemDict (article "Monsoon arrives");
                     ItemDict (article "Rates held")]
  | _ => page_with_marker
  end.

(** The session of moneycontrol in that scenario: the records of page 1, the
    trace up to the probe of page 2, and that probe. *)
Definition scenario_news : list pydict :=
  [delete "error" (article "Rates held");
   delete "error" (article "Monsoon arrives")].
Definition scenario_before : list event :=
  [EvProbe (page_url (base_url moneycontrol_config) 1)
     "moneycontrol_session" (crawler_scenario 0);
   EvExtract (page_url (base_url moneycontrol_config) 1)
     (css_selector moneycontrol_config) "moneycontrol_session"
     (crawler_scenario 1);
   EvKafka scenario_news "news-events";
   EvSleep 2].
Definition scenario_probe : event :=
  EvProbe (page_url (base_url moneycontrol_config) 2)
    "moneycontrol_session" page_with_marker.

(** Every page shows the same article: from page 2 on, every raw record is a
    duplicate. *)
Definition crawler_stale (k : nat) : reply :=
  if Nat.even k then page_without_marker
  else extraction [ItemDict (article "Rates held")].

(** Two failed extractions, then a page with one article. *)
Definition crawler_flaky (k : nat) : reply :=
  match k with
  | 0 | 2 | 4 => page_without_marker
  | 1 | 3 => extraction_failed
  | 5 => extraction [ItemDict (article "Rates held")]
  | _ => page_with_marker
  end.

(** A page whose only raw record has all five keys and an empty title. *)
Definition untitled : pydict := <["title" := PStr EmptyString]> (article "x").
Definition crawler_untitled (k : nat) : reply :=
  match k with
  | 0 => page_without_marker
  | 1 => extraction [ItemDict untitled; ItemDict (article "Rates held")]
  | _ => page_with_marker
  end.

(** Every call of the crawler fails without raising. *)
Definition crawler_failing (k : nat) : reply := extraction_failed.

(** The crawler breaks down on its first call. *)
Definition crawler_down (k : nat) : reply := Throw "browser closed".

(** The crawler of moneycontrol is down, the other two see the scenario. *)
Definition crawlers_one_down (source_name : string) : nat → reply :=
  if String.eqb source_name "moneycontrol" then crawler_down
  else crawler_scenario.

(** The process environment without the first Gemini key. *)
Definition environ_without_key_1 : gmap string string :=
  delete "GEMINI_API_KEY_1" example_environ.

(** A newsdata.io answer whose single item has a title and a link only. *)
Definition bare_item : pydict :=
  {[ "title" := PStr "Budget passed"; "link" := PStr "https://example.org/budget" ]}.
Definition full_item : pydict :=
  {[ "title" := PStr "Budget passed"; "description" := PStr "The house voted.";
     "link" := PStr "https://example.org/budget";
     "pubDate" := PStr "2025-02-01 10:00:00"; "source_id" := PStr "thewire" ]}.
(** What the transform makes of [bare_item]. *)
Definition bare_record : pydict :=
  {[ "title" := PStr "Budget passed"; "description" := PStr EmptyString;
     "url" := PStr "https://example.org/budget";
     "publishtime" := PStr EmptyString; "provider" := PStr "newsdata" ]}.
Definition http_bare (api_key : string) : http_reply :=
  HttpJson (Some "success") (Some [bare_item]).
Definition http_full (api_key : string) : http_reply :=
  HttpJson (Some "success") (Some [full_item; bare_item]).

(** ** src/models/mcnews.py *)

(** A model is represented by the names of its fields. *)
Inductive schema_class :=
| News | HinduNews | ExpressNews | NewsdataNews | DetailedNews.

(** The fields of a model, all of type [str] and all required. *)
Definition model_fields (schema : schema_class) : list string :=
  match schema with
  | News | HinduNews | ExpressNews | NewsdataNews =>
      ["title"; "description"; "publishtime"; "url"; "provider"]
  | DetailedNews =>
      ["Title"; "shortdescription"; "detaileddescription"; "datetime";
       "author"]
  end.

(** ** src/utils/scraper_utils.py: the extraction strategy *)

Record llm_strategy := {
  provider : string;
  api_token : string;
  schema : list string;
  extraction_type : string;
  input_format : string
}.

Definition model_map : gmap string schema_class :=
  {[ "mcnews" := News; "thehindu" := HinduNews;
     "indianexpress" := ExpressNews; "newsdata" := NewsdataNews ]}.

Definition get_llm_strategy_for_source (model_name api_key : string)
    : llm_strategy :=
  let schema_class := default News (model_map !! model_name) in
  {| provider := "gemini/gemini-2.5-flash";
     api_token := api_key;
     schema := model_fields schema_class;
     extraction_type := "schema";
     input_format := "html" |}.

(** ** Further observations on items, events and traces *)

(** The record the item loop would append for a raw item. *)
Definition item_record (it : item) : option pydict :=
  match it with
  | ItemDict d => Some (delete "error" d)
  | ItemOther => None
  end.

(** The title is a string, as the duplicate message needs it. *)
Definition is_str (v : pyval) : bool :=
  match v with PStr _ => true | _ => false end.

Definition is_kafka (e : event) : bool :=
  match e with EvKafka _ _ => true | _ => false end.
Definition is_csv (e : event) : bool :=
  match e with EvCsv _ _ => true | _ => false end.

(** What an event of the session of a paginated source looks like when the
    session is at page [lo] or later: crawler calls carry the session
    identifier and the URL of a page between [lo] and 21 (or of [lo] itself),
    sleeps last 5 or 2 seconds, a publish goes to the topic with a non-empty
    batch, the snapshot goes to the source's file with a non-empty list. *)
Definition session_event (name : string) (cfg : source_config)
    (environ : gmap string string) (lo : nat) (e : event) : Prop :=
  match e with
  | EvProbe u s _ =>
      s = name +:+ "_session" ∧
      ∃ p, lo ≤ p ≤ Nat.max lo 21 ∧ u = page_url (base_url cfg) p
  | EvExtract u c s _ =>
      s = name +:+ "_session" ∧ c = css_selector cfg ∧
      ∃ p, lo ≤ p ≤ Nat.max lo 21 ∧ u = page_url (base_url cfg) p
  | EvSleep secs => secs = 5 ∨ secs = 2
  | EvKafka news topic =>
      topic = default "news-events" (environ !! "KAFKA_TOPIC") ∧ news ≠ []
  | EvCsv news filename => filename = name +:+ "_news.csv" ∧ news ≠ []
  | EvApiGet _ _ => False
  end.

Definition is_api_get (e : event) : bool :=
  match e with EvApiGet _ _ => true | _ => false end.

(** An event of the one-shot source: the request, the publish or the
    snapshot. *)
Definition api_event (e : event) : bool :=
  match e with
  | EvApiGet _ _ | EvKafka _ _ | EvCsv _ _ => true
  | _ => false
  end.

(** What [fetch_newsdata_api] makes of an answer: the results of a
    successful one, the empty list otherwise. *)
Definition api_results (answer : http_reply) : list pydict :=
  match answer with
  | HttpFails => []
  | HttpJson status results =>
      if bool_decide (status = Some "success") then default [] results
      else []
  end.

(** The seconds a trace spends in [asyncio.sleep]. *)
Definition sleep_secs (e : event) : nat :=
  match e with EvSleep secs => secs | _ => 0 end.
Definition slept (tr : list event) : nat := sum_list (sleep_secs <$> tr).

(** The source a line of the summary is about. *)
Definition line_source (l : report_line) : string :=
  match l with Error name _ | Completed name _ => name end.

(** ** Further concrete inputs *)

(** The first element of the extracted list is a string, not a record. *)
Definition crawler_stray (k : nat) : reply :=
  match k with
  | 0 => page_without_marker
  | 1 => extraction [ItemOther; ItemDict (article "Rates held")]
  | _ => page_with_marker
  end.

(** The extraction returns a single object instead of a list. *)
Definition extraction_object (d : pydict) : reply :=
  Reply {| success := true; cleaned_html := EmptyString;
           extracted_content := Some (JDict d) |}.
Definition crawler_object (k : nat) : reply :=
  if Nat.even k then page_without_marker
  else extraction_object (article "Rates held").

(** The whole trace of the session of moneycontrol in the scenario. *)
Definition scenario_trace : list event :=
  scenario_before ++ scenario_probe
    :: [EvCsv scenario_news "moneycontrol_news.csv"].

(** Page 1 has one article, then the browser breaks down. *)
Definition crawler_crash (k : nat) : reply :=
  match k with
  | 0 => page_without_marker
  | 1 => extraction [ItemDict (article "Rates held")]
  | _ => Throw "browser closed"
  end.
Definition crash_trace : list event :=
  [EvProbe (page_url (base_url moneycontrol_config) 1)
     "moneycontrol_session" (crawler_crash 0);
   EvExtract (page_url (base_url moneycontrol_config) 1)
     (css_selector moneycontrol_config) "moneycontrol_session"
     (crawler_crash 1);
   EvKafka [delete "error" (article "Rates held")] "news-events";
   EvSleep 2;
   EvProbe (page_url (base_url moneycontrol_config) 2)
     "moneycontrol_session" (crawler_crash 2)].

Definition http_down (api_key : string) : http_reply := HttpFails.
(** The endpoint answers with the same item twice. *)
Definition http_twice (api_key : string) : http_reply :=
  HttpJson (Some "success") (Some [bare_item; bare_item]).

(** A configuration entry of a type [main] does not know. *)
Definition rss_config : source_config :=
  {| base_url := "https://example.org/feed"; css_selector := EmptyString;
     api_url := EmptyString; type_ := "rss"; model := "mcnews";
     gemini_key_env := "GEMINI_API_KEY_1" |}.

(** * Verification *)

(** ** The monad *)

Lemma bind_inv {A B} (m : M A) (f : A → M B) n o tr n' :
  bind m f n = (o, tr, n') →
  (∃ a tr1 n1 tr2,
      m n = (Returns a, tr1, n1) ∧ f a n1 = (o, tr2, n') ∧ tr = tr1 ++ tr2)
  ∨ (∃ e, m n = (Raises e, tr, n') ∧ o = Raises e)
  ∨ (m n = (OutOfFuel, tr, n') ∧ o = OutOfFuel).
Proof.
  unfold bind. destruct (m n) as [[[a|e|] tr1] n1].
  - destruct (f a n1) as [[o2 tr2] n2] eqn:Hf. intros [= <- <- <-].
    left. by exists a, tr1, n1, tr2.
  - intros [= <- <- <-]. right; left. by exists e.
  - intros [= <- <- <-]. by right; right.
Qed.

Lemma run_eta {A} (r : outcome A * list event * nat) : r = (r.1.1, r.1.2, r.2).
Proof. by destruct r as [[??]?]. Qed.

Lemma bind_returns {A B} (m : M A) (f : A → M B) n a tr1 n1 :
  m n = (Returns a, tr1, n1) →
  bind m f n = (let '(o, tr2, n2) := f a n1 in (o, tr1 ++ tr2, n2)).
Proof. unfold bind. by intros ->. Qed.

(** ** The item loop *)

Lemma title_of_delete_error (d : pydict) :
  title_of (delete "error" d) = title_of d.
Proof. unfold title_of, dict_get_or. by rewrite lookup_delete_ne. Qed.

Section ItemLoop.

Variable is_complete_news : pydict → list string → bool.
Variable is_duplicate_news : pyval → gset pyval → bool.

Local Abbreviation checked := (checked is_complete_news).

Lemma process_news_returns keys items seen acc res seen' :
  process_news is_complete_news is_duplicate_news keys items seen acc
    = Returns (res, seen') →
  ∃ new,
    res = acc ++ new ∧
    seen' = list_to_set (title_of <$> new) ∪ seen ∧
    Forall (checked keys) new ∧
    Forall (λ news, ∃ d, ItemDict d ∈ items ∧ news = delete "error" d) new.
Proof.
  revert seen acc. induction items as [|[d|] items IH]; intros seen acc; simpl.
  - intros [= <- <-]. exists []. rewrite app_nil_r. split_and!; [done| |done..].
    set_solver.
  - assert (∀ res0, (∃ new, res0 = acc ++ new
        ∧ seen' = list_to_set (title_of <$> new) ∪ seen
        ∧ Forall (checked keys) new
        ∧ Forall (λ news, ∃ d, ItemDict d ∈ items ∧ news = delete "error" d) new) →
      ∃ new, res0 = acc ++ new
        ∧ seen' = list_to_set (title_of <$> new) ∪ seen
        ∧ Forall (checked keys) new
        ∧ Forall (λ news, ∃ d0, ItemDict d0 ∈ ItemDict d :: items
                                ∧ news = delete "error" d0) new) as Hweak.
    { intros res0 (new & ? & ? & ? & Hin). exists new. split_and!; [done..|].
      eapply Forall_impl; [exact Hin|]. intros x (d0 & ? & ?).
      exists d0. split; [by right|done]. }
    destruct (truthy (dict_get d "error")) eqn:Herr; [by intros ?%IH%Hweak|].
    destruct (is_complete_news (delete "error" d) keys) eqn:Hc; simpl;
      [|by intros ?%IH%Hweak].
    fold (title_of (delete "error" d)).
    destruct (truthy (title_of (delete "error" d))) eqn:Ht; simpl;
      [|by intros ?%IH%Hweak].
    destruct (is_duplicate_news (title_of (delete "error" d)) seen) eqn:Hd.
    + destruct (title_of (delete "error" d)); [done|done|by intros ?%IH%Hweak].
    + intros (new & -> & -> & Hck & Hin)%IH.
      exists (delete "error" d :: new). split_and!.
      * by rewrite <-app_assoc.
      * rewrite fmap_cons, list_to_set_cons. set_solver.
      * constructor; [|done]. split_and!; [apply lookup_delete_eq|done..].
      * constructor; [exists d; split; [by left|done]|].
        eapply Forall_impl; [exact Hin|]. intros x (d0 & ? & ?).
        exists d0. split; [by right|done].
  - intros (new & ? & ? & ? & Hin)%IH. exists new. split_and!; [done..|].
    eapply Forall_impl; [exact Hin|]. intros x (d0 & ? & ?).
    exists d0. split; [by right|done].
Qed.

Lemma process_news_not_cut keys items seen acc :
  process_news is_complete_news is_duplicate_news keys items seen acc
    ≠ OutOfFuel.
Proof.
  revert seen acc. induction items as [|[d|] items IH]; intros seen acc; simpl;
    [done| |done].
  repeat case_match; done.
Qed.

(** The helper answers whether the title is in the set. *)
Hypothesis is_duplicate_news_spec :
  ∀ title seen, is_duplicate_news title seen = true ↔ title ∈ seen.

Lemma process_news_dedup keys items seen acc new seen' :
  process_news is_complete_news is_duplicate_news keys items seen acc
    = Returns (acc ++ new, seen') →
  NoDup (title_of <$> new) ∧
  (∀ t, t ∈ title_of <$> new → t ∉ seen) ∧
  (∀ it, it ∈ items → passes_validator is_complete_news keys it = true →
         item_title it ∈ seen').
Proof.
  revert seen acc new.
  induction items as [|[d|] items IH]; intros seen acc new; simpl.
  - intros [= Hnew <-]. assert (new = []) as ->.
    { apply (app_inv_head acc). by rewrite app_nil_r. }
    split_and!; [constructor|set_solver|set_solver].
  - destruct (truthy (dict_get d "error")) eqn:Herr.
    { intros (? & ? & Hp)%IH. split_and!; [done..|].
      intros it [->|?]%elem_of_cons; [|by auto].
      simpl. by rewrite Herr. }
    destruct (is_complete_news (delete "error" d) keys) eqn:Hc; simpl.
    2:{ intros (? & ? & Hp)%IH. split_and!; [done..|].
        intros it [->|?]%elem_of_cons; [|by auto].
        simpl. by rewrite Herr, Hc. }
    fold (title_of (delete "error" d)).
    destruct (truthy (title_of (delete "error" d))) eqn:Ht; simpl.
    2:{ intros (? & ? & Hp)%IH. split_and!; [done..|].
        intros it [->|?]%elem_of_cons; [|by auto].
        simpl. by rewrite Herr, Hc, Ht. }
    destruct (is_duplicate_news (title_of (delete "error" d)) seen) eqn:Hd.
    + intros Hrun.
      assert (process_news is_complete_news is_duplicate_news keys items
                seen acc = Returns (acc ++ new, seen')) as Hrun'.
      { by destruct (title_of (delete "error" d)). }
      pose proof Hrun' as (? & ? & Hp)%IH. split_and!; [done..|].
      intros it [->|?]%elem_of_cons; [|by auto]. intros _. simpl.
      apply process_news_returns in Hrun' as (? & _ & -> & _).
      apply is_duplicate_news_spec in Hd. set_solver.
    + intros Hrun. pose proof Hrun as (new' & Hnew & Hseen & _)%process_news_returns.
      rewrite <-app_assoc in Hnew. apply app_inv_head in Hnew as ->.
      rewrite (app_assoc acc [_] new') in Hrun.
      apply IH in Hrun as (Hnd & Hfresh & Hp).
      assert (¬ is_duplicate_news (title_of (delete "error" d)) seen = true)
        as Hnotin by (by rewrite Hd).
      rewrite is_duplicate_news_spec in Hnotin.
      split_and!.
      * simpl. constructor; [|done]. intros Hin%Hfresh. set_solver.
      * intros t [->|Hin%Hfresh]%elem_of_cons; [done|set_solver].
      * intros it [->|?]%elem_of_cons; [|by auto]. intros _. simpl.
        rewrite Hseen. set_solver.
  - intros (? & ? & Hp)%IH. split_and!; [done..|].
    intros it [->|?]%elem_of_cons; [done|by auto].
Qed.

End ItemLoop.

(** ** One page fetch *)

Section Fetch.

Variable is_complete_news : pydict → list string → bool.
Variable is_duplicate_news : pyval → gset pyval → bool.
Variable crawler : nat → reply.

Local Abbreviation fetch :=
  (fetch_and_process_page is_complete_news is_duplicate_news crawler).
Local Abbreviation process_extracted' :=
  (process_extracted is_complete_news is_duplicate_news).

(** The run of one fetch, call by call. *)
Lemma fetch_unfold p base css sid keys seen n :
  fetch p base css sid keys seen n =
    let probe := EvProbe (page_url base p) sid (crawler n) in
    let extract := EvExtract (page_url base p) css sid (crawler (S n)) in
    match crawler n with
    | Throw msg => (Raises (CrawlerError msg), [probe], S n)
    | Reply r =>
        if terminal_reply (Reply r) then (Returns ([], true, seen), [probe], S n)
        else
          match crawler (S n) with
          | Throw msg => (Raises (CrawlerError msg), [probe; extract], S (S n))
          | Reply r2 =>
              (match parse_extracted r2 with
               | None => Returns ([], false, seen)
               | Some items => process_extracted' keys items seen
               end, [probe; extract], S (S n))
          end
    end.
Proof.
  unfold fetch_and_process_page, check_no_results, arun, bind, ret, lift.
  simpl. destruct (crawler n) as [r|msg] eqn:Hn; [|done].
  simpl. destruct (success r); simpl.
  - destruct (contains _ _); simpl; [done|].
    destruct (crawler (S n)) as [r2|msg] eqn:Hn2; [|done].
    by destruct (parse_extracted r2).
  - destruct (crawler (S n)) as [r2|msg] eqn:Hn2; [|done].
    by destruct (parse_extracted r2).
Qed.

Lemma process_extracted_returns keys items seen news flag seen' :
  process_extracted' keys items seen = Returns (news, flag, seen') →
  flag = false ∧
  process_news is_complete_news is_duplicate_news keys items seen []
    = Returns (news, seen').
Proof.
  unfold process_extracted.
  destruct (process_news _ _ _ _ _ _) as [[cn sn]| |] eqn:Hp.
  - destruct items as [|[d|] items]; [| |done].
    + destruct cn; by intros [= <- <- <-].
    + destruct cn; by intros [= <- <- <-].
  - by destruct items as [|[|] ?].
  - by destruct items as [|[|] ?].
Qed.

Lemma process_extracted_not_cut keys items seen :
  process_extracted' keys items seen ≠ OutOfFuel.
Proof.
  unfold process_extracted.
  pose proof (process_news_not_cut is_complete_news is_duplicate_news
                keys items seen []) as Hnc.
  destruct (process_news _ _ _ _ _ _) as [[cn sn]| |]; [| |done].
  - destruct items as [|[|] ?]; destruct cn; done.
  - by destruct items as [|[|] ?].
Qed.

(** What a fetch that returns has done. *)
Lemma fetch_returns p base css sid keys seen n news flag seen' tr n' :
  fetch p base css sid keys seen n = (Returns (news, flag, seen'), tr, n') →
  (flag = true ∧ news = [] ∧ seen' = seen ∧ n' = S n ∧
   tr = [EvProbe (page_url base p) sid (crawler n)] ∧
   terminal_reply (crawler n) = true)
  ∨
  (flag = false ∧ n' = S (S n) ∧
   tr = [EvProbe (page_url base p) sid (crawler n);
         EvExtract (page_url base p) css sid (crawler (S n))] ∧
   terminal_reply (crawler n) = false ∧
   ((news = [] ∧ seen' = seen ∧
     delivered (EvExtract (page_url base p) css sid (crawler (S n))) = [])
    ∨
    (∃ items,
       delivered (EvExtract (page_url base p) css sid (crawler (S n))) = items ∧
       process_news is_complete_news is_duplicate_news keys items seen []
         = Returns (news, seen')))).
Proof.
  rewrite fetch_unfold. cbv zeta.
  destruct (crawler n) as [r|msg] eqn:Hn; [|done].
  destruct (terminal_reply (Reply r)) eqn:Ht.
  { intros ?; simplify_eq. by left. }
  destruct (crawler (S n)) as [r2|msg] eqn:Hn2; [|done].
  intros [= Ho <- <-]. right.
  destruct (parse_extracted r2) as [items|] eqn:Hparse.
  - apply process_extracted_returns in Ho as [-> Ho].
    split_and!; [done..|]. right. exists items.
    simpl. by rewrite Hparse.
  - injection Ho as <- <- <-. split_and!; [done..|]. left.
    simpl. by rewrite Hparse.
Qed.

(** Whatever a fetch does, it makes one probe call and at most one
    extraction call, both for the page's URL, and nothing else. *)
Lemma fetch_trace p base css sid keys seen n o tr n' :
  fetch p base css sid keys seen n = (o, tr, n') →
  o ≠ OutOfFuel ∧
  (tr = [EvProbe (page_url base p) sid (crawler n)] ∧ n' = S n
   ∨ tr = [EvProbe (page_url base p) sid (crawler n);
           EvExtract (page_url base p) css sid (crawler (S n))] ∧
     n' = S (S n) ∧ terminal_reply (crawler n) = false).
Proof.
  rewrite fetch_unfold. cbv zeta.
  destruct (crawler n) as [r|msg] eqn:Hn.
  2:{ intros [= <- <- <-]. split; [done|by left]. }
  destruct (terminal_reply (Reply r)) eqn:Ht.
  { intros [= <- <- <-]. split; [done|by left]. }
  destruct (crawler (S n)) as [r2|msg] eqn:Hn2.
  2:{ intros [= <- <- <-]. split; [done|by right]. }
  intros [= <- <- <-]. split; [|by right].
  destruct (parse_extracted r2); [apply process_extracted_not_cut|done].
Qed.

(** An empty batch leaves [seen_names] as it was. *)
Lemma fetch_empty_seen p base css sid keys seen n flag seen' tr n' :
  fetch p base css sid keys seen n = (Returns ([], flag, seen'), tr, n') →
  seen' = seen.
Proof.
  intros [(_ & _ & -> & _)|(_ & _ & _ & _ & [(_ & -> & _)|(items & _ & Hp)])]%fetch_returns;
    [done..|].
  apply process_news_returns in Hp as (new & Hnew & -> & _).
  simpl in Hnew. subst new. set_solver.
Qed.

End Fetch.

(** ** The retry loop *)

Section Retry.

Variable is_complete_news : pydict → list string → bool.
Variable is_duplicate_news : pyval → gset pyval → bool.
Variable crawler : nat → reply.

Local Abbreviation attempt p cfg sid :=
  (fetch_and_process_page is_complete_news is_duplicate_news crawler
     p (base_url cfg) (css_selector cfg) sid REQUIRED_KEYS).
Local Abbreviation retry :=
  (retry_loop is_complete_news is_duplicate_news crawler).

(** One iteration of [for attempt in range(3)]. *)
Lemma retry_loop_step k p cfg sid seen last n news flag seen1 t1 n1 :
  attempt p cfg sid seen n = (Returns (news, flag, seen1), t1, n1) →
  retry (S k) p cfg sid seen last n =
    if negb (is_nil news) || flag then (Returns (news, flag, seen1), t1, n1)
    else
      let '(o, t2, n2) := retry k p cfg sid seen1 (news, flag) n1 in
      (o, t1 ++ EvSleep 5 :: t2, n2).
Proof.
  intros Hatt. simpl. rewrite (bind_returns _ _ _ _ _ _ Hatt).
  destruct (negb (is_nil news) || flag); simpl.
  - unfold ret. by rewrite app_nil_r.
  - unfold bind at 1, sleep, emit.
    by destruct (retry k p cfg sid seen1 (news, flag) n1) as [[o t2] n2].
Qed.

Lemma retry_loop_raises k p cfg sid seen last n e t1 n1 :
  attempt p cfg sid seen n = (Raises e, t1, n1) →
  retry (S k) p cfg sid seen last n = (Raises e, t1, n1).
Proof. intros Hatt. simpl. unfold bind. by rewrite Hatt. Qed.

(** The decision table of the loop, attempt by attempt: it returns the
    first result that has news or the no-results flag, waits five seconds
    after each attempt that has neither, and gives up after the third. *)
Lemma retry_loop_table p cfg sid seen n r1 f1 s1 t1 n1 :
  attempt p cfg sid seen n = (Returns (r1, f1, s1), t1, n1) →
  (negb (is_nil r1) || f1 = true →
     retry 3 p cfg sid seen ([], false) n = (Returns (r1, f1, s1), t1, n1))
  ∧ (negb (is_nil r1) || f1 = false →
     ∀ r2 f2 s2 t2 n2,
       attempt p cfg sid s1 n1 = (Returns (r2, f2, s2), t2, n2) →
       (negb (is_nil r2) || f2 = true →
          retry 3 p cfg sid seen ([], false) n
            = (Returns (r2, f2, s2), t1 ++ EvSleep 5 :: t2, n2))
       ∧ (negb (is_nil r2) || f2 = false →
          ∀ r3 f3 s3 t3 n3,
            attempt p cfg sid s2 n2 = (Returns (r3, f3, s3), t3, n3) →
            (negb (is_nil r3) || f3 = true →
               retry 3 p cfg sid seen ([], false) n
                 = (Returns (r3, f3, s3),
                    t1 ++ EvSleep 5 :: t2 ++ EvSleep 5 :: t3, n3))
            ∧ (negb (is_nil r3) || f3 = false →
               retry 3 p cfg sid seen ([], false) n
                 = (Returns (r3, f3, s3),
                    t1 ++ EvSleep 5 :: t2 ++ EvSleep 5 :: t3 ++ [EvSleep 5],
                    n3)))).
Proof.
  intros H1. rewrite (retry_loop_step _ _ _ _ _ _ _ _ _ _ _ _ H1).
  split; [by intros ->|]. intros ->.
  intros r2 f2 s2 t2 n2 H2.
  rewrite (retry_loop_step _ _ _ _ _ _ _ _ _ _ _ _ H2).
  split; [by intros ->|]. intros ->.
  intros r3 f3 s3 t3 n3 H3.
  rewrite (retry_loop_step _ _ _ _ _ _ _ _ _ _ _ _ H3).
  split; [by intros ->|]. by intros ->.
Qed.

Lemma attempt_events url css sid r1 r2 t1 :
  t1 = [EvProbe url sid r1] ∨ t1 = [EvProbe url sid r1; EvExtract url css sid r2] →
  fetch_attempts url t1 = 1 ∧
  Forall (λ e, page_event url e = true) t1 ∧
  paced t1 = true ∧
  ∀ rest, paced (t1 ++ EvSleep 5 :: rest) = paced rest.
Proof.
  assert (page_event url (EvProbe url sid r1) = true) as Hp.
  { unfold page_event. simpl. by rewrite bool_decide_eq_true_2. }
  assert (page_event url (EvExtract url css sid r2) = true) as He.
  { unfold page_event. simpl. by rewrite bool_decide_eq_true_2. }
  unfold fetch_attempts, count_events.
  intros [->| ->]; simpl; rewrite bool_decide_eq_true_2 by done;
    (split_and!; [done|by repeat constructor|done|done]).
Qed.

Lemma attempt_shape p cfg sid seen n o t1 n1 :
  attempt p cfg sid seen n = (o, t1, n1) →
  t1 = [EvProbe (page_url (base_url cfg) p) sid (crawler n)]
  ∨ t1 = [EvProbe (page_url (base_url cfg) p) sid (crawler n);
          EvExtract (page_url (base_url cfg) p) (css_selector cfg) sid
            (crawler (S n))].
Proof. intros [_ [[-> _]|(-> & _ & _)]]%fetch_trace; auto. Qed.

Lemma retry_loop_trace k p cfg sid seen last n o tr n' :
  retry k p cfg sid seen last n = (o, tr, n') →
  o ≠ OutOfFuel ∧
  fetch_attempts (page_url (base_url cfg) p) tr ≤ k ∧
  paced tr = true ∧
  Forall (λ e, page_event (page_url (base_url cfg) p) e = true) tr.
Proof.
  revert seen last n o tr n'. induction k as [|k IH]; intros seen last n o tr n'.
  { intros [= <- <- <-]. split_and!; [done|by cbv|done|constructor]. }
  destruct (attempt p cfg sid seen n) as [[[[[r1 f1] s1]|e|] t1] n1] eqn:Hatt.
  - pose proof Hatt as (Hc1 & Hp1 & Hpaced & Hpace)%attempt_shape%attempt_events.
    rewrite (retry_loop_step _ _ _ _ _ _ _ _ _ _ _ _ Hatt).
    destruct (negb (is_nil r1) || f1).
    + intros [= <- <- <-]. split_and!; [done|lia|done|done].
    + destruct (retry k p cfg sid s1 (r1, f1) n1) as [[o2 t2] n2] eqn:Hrec.
      intros [= <- <- <-]. apply IH in Hrec as (? & ? & ? & ?).
      split_and!; [done| |by rewrite Hpace|].
      * unfold fetch_attempts, count_events in *.
        rewrite List.filter_app, length_app. simpl. lia.
      * apply Forall_app. split; [done|]. by constructor.
  - pose proof Hatt as (Hc1 & Hp1 & Hpaced & Hpace)%attempt_shape%attempt_events.
    rewrite (retry_loop_raises _ _ _ _ _ _ _ _ _ _ Hatt).
    intros [= <- <- <-]. split_and!; [done|lia|done|done].
  - by apply fetch_trace in Hatt as [? _].
Qed.

Lemma page_event_quiet url e :
  page_event url e = true → kafka_news e = [] ∧ csv_news e = [].
Proof. by destruct e. Qed.

Lemma retry_loop_quiet k p cfg sid seen last n o tr n' :
  retry k p cfg sid seen last n = (o, tr, n') →
  forwarded tr = [] ∧ snapshot tr = [].
Proof.
  intros (_ & _ & _ & Hev)%retry_loop_trace. unfold forwarded, snapshot.
  induction Hev as [|e tr He _ [IH1 IH2]]; [done|].
  apply page_event_quiet in He as [He1 He2].
  by rewrite !bind_cons, He1, He2, IH1, IH2.
Qed.

(** What an attempt that returns has established. *)
Lemma attempt_returns p cfg sid seen n news flag s1 t1 n1 :
  attempt p cfg sid seen n = (Returns (news, flag, s1), t1, n1) →
  s1 = list_to_set (title_of <$> news) ∪ seen ∧
  Forall (checked is_complete_news REQUIRED_KEYS) news ∧
  (flag = true →
     news = [] ∧ ∃ e, t1 = [e] ∧ terminal_probe e = true) ∧
  (flag = false → no_terminal t1).
Proof.
  intros [(-> & -> & -> & _ & -> & Ht)
         |(-> & _ & -> & Ht & [(-> & -> & _)|(items & _ & Hp)])]%fetch_returns.
  - split_and!; [set_solver|constructor| |done].
    intros _. split; [done|]. by eexists.
  - split_and!; [set_solver|constructor|done|]. intros _. by repeat constructor.
  - apply process_news_returns in Hp as (new & Hnew & -> & Hck & _).
    simpl in Hnew. subst new.
    split_and!; [done|done|done|]. intros _. by repeat constructor.
Qed.

Lemma attempt_raises p cfg sid seen n e t1 n1 :
  attempt p cfg sid seen n = (Raises e, t1, n1) → no_terminal t1.
Proof.
  intros Hatt. pose proof Hatt as [_ [[-> _]|(-> & _ & Ht)]]%fetch_trace.
  - revert Hatt. rewrite fetch_unfold. cbv zeta.
    destruct (crawler n) as [r|msg] eqn:Hn; [|by repeat constructor].
    destruct (terminal_reply (Reply r)) eqn:Ht; [done|].
    intros _. by repeat constructor.
  - by repeat constructor.
Qed.

Lemma retry_loop_returns k p cfg sid seen last n news flag seen' tr n' :
  retry (S k) p cfg sid seen last n = (Returns (news, flag, seen'), tr, n') →
  seen' = list_to_set (title_of <$> news) ∪ seen ∧
  Forall (checked is_complete_news REQUIRED_KEYS) news ∧
  (flag = true →
     news = [] ∧
     ∃ tr0 e, tr = tr0 ++ [e] ∧ terminal_probe e = true ∧ no_terminal tr0) ∧
  (flag = false → no_terminal tr).
Proof.
  revert seen last n tr. induction k as [|k IH]; intros seen last n tr.
  - destruct (attempt p cfg sid seen n) as [[[[[r1 f1] s1]|e|] t1] n1] eqn:Hatt.
    + rewrite (retry_loop_step _ _ _ _ _ _ _ _ _ _ _ _ Hatt).
      pose proof Hatt as (Hs & Hck & Ht & Hnt)%attempt_returns.
      destruct (negb (is_nil r1) || f1) eqn:Hcond.
      * intros [= <- <- <- <- <-]. split_and!; [done..| |done].
        intros [-> (e & -> & ?)]%Ht. split; [done|]. exists [], e.
        split_and!; [done|done|constructor].
      * simpl. intros [= <- <- <- <- <-].
        apply orb_false_iff in Hcond as [_ ->].
        split_and!; [done..|]. intros _. apply Forall_app. split; [by apply Hnt|].
        by repeat constructor.
    + rewrite (retry_loop_raises _ _ _ _ _ _ _ _ _ _ Hatt). done.
    + by apply fetch_trace in Hatt as [? _].
  - destruct (attempt p cfg sid seen n) as [[[[[r1 f1] s1]|e|] t1] n1] eqn:Hatt.
    + rewrite (retry_loop_step _ _ _ _ _ _ _ _ _ _ _ _ Hatt).
      pose proof Hatt as (Hs & Hck & Ht & Hnt)%attempt_returns.
      destruct (negb (is_nil r1) || f1) eqn:Hcond.
      * intros [= <- <- <- <- <-]. split_and!; [done..| |done].
        intros [-> (e & -> & ?)]%Ht. split; [done|]. exists [], e.
        split_and!; [done|done|constructor].
      * destruct (retry (S k) p cfg sid s1 (r1, f1) n1) as [[o2 t2] n2] eqn:Hrec.
        intros [= -> <- <-]. apply IH in Hrec as (Hs2 & Hck2 & Ht2 & Hnt2).
        apply orb_false_iff in Hcond as [Hnil ->].
        assert (r1 = []) as -> by (by destruct r1).
        assert (s1 = seen) as -> by set_solver.
        split_and!; [done|done| |].
        -- intros [-> (tr0 & e & -> & ? & ?)]%Ht2. split; [done|].
           exists (t1 ++ EvSleep 5 :: tr0), e. split_and!; [|done|].
           ++ by rewrite <-app_assoc.
           ++ apply Forall_app. split; [by apply Hnt|]. by constructor.
        -- intros Hf. apply Forall_app. split; [by apply Hnt|].
           constructor; [done|by apply Hnt2].
    + rewrite (retry_loop_raises _ _ _ _ _ _ _ _ _ _ Hatt). done.
    + by apply fetch_trace in Hatt as [? _].
Qed.

Lemma retry_loop_raises_quiet k p cfg sid seen last n e tr n' :
  retry k p cfg sid seen last n = (Raises e, tr, n') → no_terminal tr.
Proof.
  revert seen last n tr. induction k as [|k IH]; intros seen last n tr; [done|].
  destruct (attempt p cfg sid seen n) as [[[[[r1 f1] s1]|e1|] t1] n1] eqn:Hatt.
  - rewrite (retry_loop_step _ _ _ _ _ _ _ _ _ _ _ _ Hatt).
    pose proof Hatt as (Hs & Hck & Ht & Hnt)%attempt_returns.
    destruct (negb (is_nil r1) || f1) eqn:Hcond; [done|].
    destruct (retry k p cfg sid s1 (r1, f1) n1) as [[o2 t2] n2] eqn:Hrec.
    intros [= -> <- <-]. apply IH in Hrec.
    apply orb_false_iff in Hcond as [_ ->].
    apply Forall_app. split; [by apply Hnt|]. by constructor.
  - rewrite (retry_loop_raises _ _ _ _ _ _ _ _ _ _ Hatt).
    intros [= <- <- <-]. by eapply attempt_raises.
  - by apply fetch_trace in Hatt as [? _].
Qed.

(** With a helper that answers set membership, the batch of a page carries
    fresh, pairwise distinct titles, and every raw item that passes the
    validator has its title in [seen_names] afterwards. *)
Hypothesis is_duplicate_news_spec :
  ∀ title seen, is_duplicate_news title seen = true ↔ title ∈ seen.






End Retry.

(** ** The pagination loop *)

Lemma forwarded_app tr1 tr2 : forwarded (tr1 ++ tr2) = forwarded tr1 ++ forwarded tr2.
Proof. apply bind_app. Qed.

Lemma forwarded_cons e tr : forwarded (e :: tr) = kafka_news e ++ forwarded tr.
Proof. done. Qed.

Lemma snapshot_app tr1 tr2 : snapshot (tr1 ++ tr2) = snapshot tr1 ++ snapshot tr2.
Proof. apply bind_app. Qed.

Section Pagination.

Variable is_complete_news : pydict → list string → bool.
Variable is_duplicate_news : pyval → gset pyval → bool.
Variable crawler : nat → reply.
Variable environ : gmap string string.

Local Abbreviation retry :=
  (retry_loop is_complete_news is_duplicate_news crawler).
Local Abbreviation pages :=
  (crawl_pages is_complete_news is_duplicate_news crawler).

(** One iteration of [while True]. *)
Lemma crawl_pages_step fuel cfg sid topic p all_news seen n news flag s1 t1 n1 :
  retry 3 p cfg sid seen ([], false) n = (Returns (news, flag, s1), t1, n1) →
  pages (S fuel) cfg sid topic p all_news seen n =
    if flag then (Returns all_news, t1, n1)
    else if is_nil news then (Returns all_news, t1, n1)
    else if 20 <? p then
      (Returns (all_news ++ news), t1 ++ [EvKafka news topic], n1)
    else
      let '(o, t2, n2) :=
        pages fuel cfg sid topic (p + 1) (all_news ++ news) s1 n1 in
      (o, t1 ++ EvKafka news topic :: EvSleep 2 :: t2, n2).
Proof.
  intros Hr. cbn [crawl_pages]. rewrite (bind_returns _ _ _ _ _ _ Hr).
  destruct flag; [by unfold ret; rewrite app_nil_r|].
  destruct (is_nil news); [by unfold ret; rewrite app_nil_r|].
  unfold bind at 1, send_news_to_kafka, emit.
  destruct (20 <? p); [done|].
  unfold bind at 1, sleep, emit.
  by destruct (pages fuel cfg sid topic (p + 1) (all_news ++ news) s1 n1)
    as [[o t2] n2].
Qed.

Lemma crawl_pages_raises fuel cfg sid topic p all_news seen n e t1 n1 :
  retry 3 p cfg sid seen ([], false) n = (Raises e, t1, n1) →
  pages (S fuel) cfg sid topic p all_news seen n = (Raises e, t1, n1).
Proof. intros Hr. cbn [crawl_pages]. unfold bind. by rewrite Hr. Qed.

(** The loop ends by itself: with a unit of fuel for every page up to the
    twenty-first, no run is cut off. *)
Lemma crawl_pages_total fuel cfg sid topic p all_news seen n o tr n' :
  21 < fuel + p → 0 < fuel →
  pages fuel cfg sid topic p all_news seen n = (o, tr, n') →
  o ≠ OutOfFuel.
Proof.
  revert p all_news seen n o tr n'.
  induction fuel as [|fuel IH]; intros p all_news seen n o tr n' Hle Hpos; [lia|].
  destruct (retry 3 p cfg sid seen ([], false) n)
    as [[[[[news flag] s1]|e|] t1] n1] eqn:Hr.
  - rewrite (crawl_pages_step _ _ _ _ _ _ _ _ _ _ _ _ _ Hr).
    destruct flag; [by intros [= <- <- <-]|].
    destruct (is_nil news); [by intros [= <- <- <-]|].
    destruct (20 <? p) eqn:Hp; [by intros [= <- <- <-]|].
    apply Nat.ltb_ge in Hp.
    destruct (pages fuel cfg sid topic (p + 1) (all_news ++ news) s1 n1)
      as [[o2 t2] n2] eqn:Hrec.
    intros [= <- <- <-]. eapply IH; [| |exact Hrec]; lia.
  - rewrite (crawl_pages_raises _ _ _ _ _ _ _ _ _ _ _ Hr). by intros [= <- <- <-].
  - by apply retry_loop_trace in Hr as [? _].
Qed.

(** What the loop forwards, what it returns, and where a terminal probe
    can stand in its trace. *)
Lemma crawl_pages_forwarded fuel cfg sid topic p all_news seen n o tr n' :
  pages fuel cfg sid topic p all_news seen n = (o, tr, n') →
  Forall (checked is_complete_news REQUIRED_KEYS) (forwarded tr) ∧
  snapshot tr = [] ∧
  (∀ res, o = Returns res → res = all_news ++ forwarded tr) ∧
  (no_terminal tr ∨
   ∃ tr0 e, tr = tr0 ++ [e] ∧ terminal_probe e = true ∧ no_terminal tr0 ∧
            o = Returns (all_news ++ forwarded tr0)).
Proof.
  revert p all_news seen n o tr n'.
  induction fuel as [|fuel IH]; intros p all_news seen n o tr n'.
  { intros [= <- <- <-]. split_and!; [constructor|done|done|left; constructor]. }
  destruct (retry 3 p cfg sid seen ([], false) n)
    as [[[[[news flag] s1]|e|] t1] n1] eqn:Hr.
  - rewrite (crawl_pages_step _ _ _ _ _ _ _ _ _ _ _ _ _ Hr).
    pose proof Hr as [Hfw Hsn]%retry_loop_quiet.
    pose proof Hr as (Hs & Hck & Ht & Hnt)%retry_loop_returns.
    destruct flag.
    { intros [= <- <- <-]. rewrite Hfw, Hsn, app_nil_r.
      split_and!; [constructor|done|by intros ? [= <-]|].
      right. destruct Ht as [_ (tr0 & e & -> & ? & ?)]; [done|].
      exists tr0, e. split_and!; [done..|].
      rewrite forwarded_app in Hfw. apply app_eq_nil in Hfw as [-> _].
      by rewrite app_nil_r. }
    specialize (Hnt eq_refl).
    destruct (is_nil news) eqn:Hnil.
    { intros [= <- <- <-]. rewrite Hfw, Hsn, app_nil_r.
      split_and!; [constructor|done|by intros ? [= <-]|by left]. }
    destruct (20 <? p).
    { intros [= <- <- <-]. rewrite forwarded_app, snapshot_app, Hfw, Hsn.
      unfold forwarded at 1, snapshot at 1. simpl. rewrite !app_nil_r.
      split_and!; [done|done|by intros ? [= <-]|].
      left. apply Forall_app. split; [done|]. by repeat constructor. }
    destruct (pages fuel cfg sid topic (p + 1) (all_news ++ news) s1 n1)
      as [[o2 t2] n2] eqn:Hrec.
    intros [= <- <- <-]. apply IH in Hrec as (Hck2 & Hsn2 & Hres2 & Hterm2).
    assert (forwarded (t1 ++ EvKafka news topic :: EvSleep 2 :: t2)
            = news ++ forwarded t2) as Hfw'.
    { rewrite forwarded_app, Hfw. unfold forwarded. by rewrite !bind_cons. }
    assert (snapshot (t1 ++ EvKafka news topic :: EvSleep 2 :: t2) = [])
      as Hsn'.
    { rewrite snapshot_app, Hsn. unfold snapshot in *. by rewrite !bind_cons, Hsn2. }
    rewrite Hfw', Hsn'. split_and!.
    + by apply Forall_app.
    + done.
    + intros res ->%Hres2. by rewrite <-app_assoc.
    + destruct Hterm2 as [Hnt2|(tr0 & e & -> & He & Hnt0 & ->)].
      * left. apply Forall_app. split; [done|]. by repeat constructor.
      * right. exists (t1 ++ EvKafka news topic :: EvSleep 2 :: tr0), e.
        split_and!; [|done| |].
        -- by rewrite <-app_assoc.
        -- apply Forall_app. split; [done|]. by repeat constructor.
        -- rewrite forwarded_app, Hfw. unfold forwarded.
           by rewrite !bind_cons, <-app_assoc.
  - rewrite (crawl_pages_raises _ _ _ _ _ _ _ _ _ _ _ Hr).
    pose proof Hr as [Hfw Hsn]%retry_loop_quiet.
    intros [= <- <- <-]. rewrite Hfw, Hsn.
    split_and!; [constructor|done|done|]. left.
    by eapply retry_loop_raises_quiet.
  - by apply retry_loop_trace in Hr as [? _].
Qed.

Hypothesis is_duplicate_news_spec :
  ∀ title seen, is_duplicate_news title seen = true ↔ title ∈ seen.


End Pagination.

(** ** One paginated source *)

Section Source.

Variable is_complete_news : pydict → list string → bool.
Variable is_duplicate_news : pyval → gset pyval → bool.
Variable crawler : nat → reply.
Variable environ : gmap string string.

Local Abbreviation pages :=
  (crawl_pages is_complete_news is_duplicate_news crawler).
Local Abbreviation source :=
  (crawl_scraper_source is_complete_news is_duplicate_news crawler environ).

Lemma crawl_scraper_source_skip name cfg n :
  falsy_env (environ !! gemini_key_env cfg) = true →
  source name cfg n = (Returns [], [], n).
Proof. intros H. unfold crawl_scraper_source. by rewrite H. Qed.

(** With a credential, the source runs the pagination loop from page 1 and
    writes the snapshot if anything was collected. *)
Lemma crawl_scraper_source_run name cfg n o tr n' :
  falsy_env (environ !! gemini_key_env cfg) = false →
  source name cfg n = (o, tr, n') →
  ∃ oc trc,
    pages 21 cfg (name +:+ "_session")
      (default "news-events" (environ !! "KAFKA_TOPIC")) 1 [] ∅ n
      = (oc, trc, n') ∧
    ((∃ all_news, oc = Returns all_news ∧ o = Returns all_news ∧
        tr = trc ++ (if is_nil all_news then []
                     else [EvCsv all_news (name +:+ "_news.csv")]))
     ∨ (∃ e, oc = Raises e ∧ o = Raises e ∧ tr = trc)).
Proof.
  intros Hkey. unfold crawl_scraper_source. rewrite Hkey.
  destruct (pages 21 cfg (name +:+ "_session")
              (default "news-events" (environ !! "KAFKA_TOPIC")) 1 [] ∅ n)
    as [[[all_news|e|] trc] nc] eqn:Hp.
  - rewrite (bind_returns _ _ _ _ _ _ Hp).
    unfold bind, ret, save_news_to_csv, emit.
    destruct (is_nil all_news) eqn:Hnil; intros [= <- <- <-];
      exists (Returns all_news), trc; (split; [done|]); left;
      exists all_news; by rewrite Hnil.
  - unfold bind. rewrite Hp. intros [= <- <- <-].
    exists (Raises e), trc. split; [done|]. right. by exists e.
  - by eapply crawl_pages_total in Hp; [|lia..].
Qed.

Lemma crawl_scraper_source_total name cfg n o tr n' :
  source name cfg n = (o, tr, n') → o ≠ OutOfFuel.
Proof.
  destruct (falsy_env (environ !! gemini_key_env cfg)) eqn:Hkey.
  - rewrite crawl_scraper_source_skip by done. by intros [= <- <- <-].
  - intros (oc & trc & _ & [(? & _ & -> & _)|(? & _ & -> & _)])%crawl_scraper_source_run;
      done.
Qed.

(** The sink of a source: what went to the event stream and what went to
    the snapshot. *)
Lemma crawl_scraper_source_sink name cfg n o tr n' :
  source name cfg n = (o, tr, n') →
  Forall (checked is_complete_news REQUIRED_KEYS) (forwarded tr) ∧
  (∀ all_news, o = Returns all_news →
     forwarded tr = all_news ∧ snapshot tr = all_news) ∧
  (∀ e, o = Raises e → snapshot tr = []).
Proof.
  destruct (falsy_env (environ !! gemini_key_env cfg)) eqn:Hkey.
  { rewrite crawl_scraper_source_skip by done. intros [= <- <- <-].
    split_and!; [constructor|by intros ? [= <-]|done]. }
  intros (oc & trc & Hp & Hcase)%crawl_scraper_source_run; [|done].
  apply crawl_pages_forwarded in Hp as (Hck & Hsn & Hres & _).
  destruct Hcase as [(all_news & -> & -> & ->)|(e & -> & -> & ->)].
  - specialize (Hres _ eq_refl). simpl in Hres.
    rewrite forwarded_app, snapshot_app, Hsn.
    destruct (is_nil all_news) eqn:Hnil.
    + destruct all_news; [|done]. rewrite app_nil_r.
      split_and!; [done| |done]. intros ? [= <-]. by rewrite <-Hres.
    + unfold forwarded at 2, snapshot. simpl. rewrite !app_nil_r.
      split_and!; [done| |done]. intros ? [= <-]. by rewrite <-Hres.
  - split_and!; [done|done|]. by intros.
Qed.

End Source.

(** ** The one-shot source *)

Lemma process_newsdata_with_gemini_map raw_results gemini_key :
  process_newsdata_with_gemini raw_results gemini_key
    = newsdata_record <$> raw_results.
Proof.
  unfold process_newsdata_with_gemini.
  assert (∀ acc, foldl (λ formatted_news item,
                          formatted_news ++ [newsdata_record item]) acc raw_results
                 = acc ++ (newsdata_record <$> raw_results)) as Hfold.
  { induction raw_results as [|item raw IH]; intros acc; simpl.
    - by rewrite app_nil_r.
    - by rewrite IH, <-app_assoc. }
  destruct raw_results; [done|]. by rewrite Hfold.
Qed.

Lemma newsdata_record_keys item key :
  key ∈ REQUIRED_KEYS → is_Some (newsdata_record item !! key).
Proof.
  unfold REQUIRED_KEYS, newsdata_record. rewrite !elem_of_cons, elem_of_nil.
  intros [->|[->|[->|[->|[->|[]]]]]]; by simplify_map_eq.
Qed.

Section OneShot.

Variable http : string → http_reply.
Variable environ : gmap string string.

Lemma crawl_api_source_skip name cfg n :
  falsy_env (environ !! "NEWSDATA_API_KEY") = true
  ∨ falsy_env (environ !! gemini_key_env cfg) = true →
  crawl_api_source http environ name cfg n = (Returns [], [], n).
Proof.
  unfold crawl_api_source. intros [H|H].
  - by rewrite H.
  - destruct (falsy_env (environ !! "NEWSDATA_API_KEY")); [done|].
    by rewrite H.
Qed.

(** With both credentials: one request, then the transform, and the sink if
    anything came back. *)
Lemma crawl_api_source_run name cfg n :
  falsy_env (environ !! "NEWSDATA_API_KEY") = false →
  falsy_env (environ !! gemini_key_env cfg) = false →
  ∃ raw_results,
    let api_key := default EmptyString (environ !! "NEWSDATA_API_KEY") in
    let news := newsdata_record <$> raw_results in
    crawl_api_source http environ name cfg n =
      (Returns news,
       EvApiGet api_key (http api_key) ::
         (if is_nil news then []
          else [EvKafka news (default "news-events" (environ !! "KAFKA_TOPIC"));
                EvCsv news (name +:+ "_news.csv")]),
       n).
Proof.
  intros H1 H2. unfold crawl_api_source. rewrite H1, H2.
  set (api_key := default EmptyString (environ !! "NEWSDATA_API_KEY")).
  assert (∃ raw_results, fetch_newsdata_api http api_key n
            = (Returns raw_results, [EvApiGet api_key (http api_key)], n))
    as [raw Hraw].
  { unfold fetch_newsdata_api, bind, emit, ret.
    destruct (http api_key) as [|status results]; [by eexists|].
    destruct (bool_decide _); by eexists. }
  exists raw. rewrite (bind_returns _ _ _ _ _ _ Hraw).
  rewrite process_newsdata_with_gemini_map.
  unfold bind, ret, send_news_to_kafka, save_news_to_csv, emit.
  by destruct (is_nil (newsdata_record <$> raw)).
Qed.

End OneShot.

(** * The claims *)

(** ** C1: the required-field contract at the sink *)

(** C1, counterexample.  The one-shot path forwards what the transform
    produced without validating it: for a newsdata.io item that has a title
    and a link only, the record sent to the event stream and written to the
    snapshot has an empty description and an empty publication time, so it does
    not satisfy the required-field contract. *)
Lemma api_record_breaks_contract :
  crawl_api_source http_bare example_environ "newsdata" newsdata_config 0
    = (Returns [bare_record],
       [EvApiGet "nd-key" (http_bare "nd-key");
        EvKafka [bare_record] "news-events";
        EvCsv [bare_record] "newsdata_news.csv"], 0) ∧
  bare_record !! "description" = Some (PStr EmptyString) ∧
  bare_record !! "publishtime" = Some (PStr EmptyString) ∧
  satisfies_contract bare_record = false.
Proof. split_and!; vm_compute; reflexivity. Qed.

(** C1, amended.  On the paginated path every record that reaches the event
    stream or the snapshot has passed the required-key check of
    [is_complete_news] against the five required keys, has no [error] key and
    has a non-empty title; if that check accepts only records whose required
    fields are all non-empty, the record satisfies the whole contract.  On the
    one-shot path every record that reaches the sink has all five fields
    present (their values may be empty). *)
Theorem published_records_checked
    (is_complete_news : pydict → list string → bool)
    (is_duplicate_news : pyval → gset pyval → bool)
    (crawler : nat → reply) (http : string → http_reply)
    (environ : gmap string string) (name : string) (cfg : source_config)
    (n : nat) :
  (∀ o tr n',
     crawl_scraper_source is_complete_news is_duplicate_news crawler environ
       name cfg n = (o, tr, n') →
     Forall (checked is_complete_news REQUIRED_KEYS) (forwarded tr ++ snapshot tr) ∧
     ((∀ d keys, is_complete_news d keys = true →
                 Forall (λ key, truthy (dict_get d key) = true) keys) →
      Forall (λ news, satisfies_contract news = true)
        (forwarded tr ++ snapshot tr))) ∧
  (∀ o tr n',
     crawl_api_source http environ name cfg n = (o, tr, n') →
     Forall (λ news, ∀ key, key ∈ REQUIRED_KEYS → is_Some (news !! key))
       (forwarded tr ++ snapshot tr)).
Proof.
  split.
  - intros o tr n' Hrun.
    assert (Forall (checked is_complete_news REQUIRED_KEYS)
              (forwarded tr ++ snapshot tr)) as Hck.
    { pose proof Hrun as ?%crawl_scraper_source_total.
      apply crawl_scraper_source_sink in Hrun as (Hck & Hret & Hraise).
      apply Forall_app. split; [done|].
      destruct o as [all_news|e|]; [| |done].
      - destruct (Hret _ eq_refl) as [<- ->]. done.
      - rewrite (Hraise _ eq_refl). constructor. }
    split; [done|]. intros Hhelper.
    eapply Forall_impl; [exact Hck|]. intros news (_ & Hc & _).
    apply Hhelper in Hc. unfold satisfies_contract.
    apply forallb_forall. intros key Hin.
    rewrite Forall_forall in Hc. specialize (Hc key).
    rewrite list_elem_of_In in Hc. specialize (Hc Hin).
    unfold dict_get in Hc. by destruct (news !! key).
  - intros o tr n'.
    destruct (falsy_env (environ !! "NEWSDATA_API_KEY")) eqn:H1.
    { rewrite crawl_api_source_skip by auto. intros [= <- <- <-]. constructor. }
    destruct (falsy_env (environ !! gemini_key_env cfg)) eqn:H2.
    { rewrite crawl_api_source_skip by auto. intros [= <- <- <-]. constructor. }
    destruct (crawl_api_source_run http environ name cfg n H1 H2) as [raw ->].
    intros [= <- <- <-].
    assert (Forall (λ news, ∀ key, key ∈ REQUIRED_KEYS → is_Some (news !! key))
              (newsdata_record <$> raw)) as Hall.
    { apply Forall_fmap, Forall_true. intros item key. apply newsdata_record_keys. }
    rewrite forwarded_cons. unfold snapshot. rewrite bind_cons. simpl.
    destruct (is_nil (newsdata_record <$> raw)); simpl; [constructor|].
    rewrite !app_nil_r. by apply Forall_app.
Qed.

Lemma published_records_checked_witness :
  Forall (checked is_complete_news_keys REQUIRED_KEYS)
    (forwarded (crawl_scraper_source is_complete_news_keys is_duplicate_news_exact
                  crawler_scenario example_environ "moneycontrol"
                  moneycontrol_config 0).1.2) ∧
  Forall (λ news, satisfies_contract news = true)
    (forwarded (crawl_scraper_source is_complete_news_nonempty
                  is_duplicate_news_exact crawler_scenario example_environ
                  "moneycontrol" moneycontrol_config 0).1.2) ∧
  Forall (λ news, ∀ key, key ∈ REQUIRED_KEYS → is_Some (news !! key))
    (forwarded (crawl_api_source http_bare example_environ "newsdata"
                  newsdata_config 0).1.2).
Proof.
  split_and!.
  - destruct (published_records_checked is_complete_news_keys
                is_duplicate_news_exact crawler_scenario http_bare
                example_environ "moneycontrol" moneycontrol_config 0)
      as [Hs _].
    destruct (Hs _ _ _ (run_eta _)) as [Hck _].
    by apply Forall_app in Hck as [? _].
  - destruct (published_records_checked is_complete_news_nonempty
                is_duplicate_news_exact crawler_scenario http_bare
                example_environ "moneycontrol" moneycontrol_config 0)
      as [Hn _].
    destruct (Hn _ _ _ (run_eta _)) as [_ Hfull].
    apply Forall_app in Hfull as [? _]; [done|].
    intros d keys Hd. unfold is_complete_news_nonempty in Hd.
    apply Forall_forall. intros key Hkey%list_elem_of_In.
    revert key Hkey. by apply forallb_forall.
  - destruct (published_records_checked is_complete_news_keys
                is_duplicate_news_exact crawler_scenario http_bare
                example_environ "newsdata" newsdata_config 0)
      as [_ Ha].
    pose proof (Ha _ _ _ (run_eta _)) as Hall.
    by apply Forall_app in Hall as [? _].
Defined.

(** ** The orchestrator *)

Section Orchestrator.

Variable is_complete_news : pydict → list string → bool.
Variable is_duplicate_news : pyval → gset pyval → bool.
Variable crawlers : string → nat → reply.
Variable http : string → http_reply.
Variable environ : gmap string string.

Local Abbreviation task_of :=
  (make_task is_complete_news is_duplicate_news crawlers http environ).
Local Abbreviation work :=
  (unit_of_work is_complete_news is_duplicate_news crawlers http environ).
Local Abbreviation main' :=
  (main is_complete_news is_duplicate_news crawlers http environ).

Lemma build_tasks_spec sources :
  build_tasks is_complete_news is_duplicate_news crawlers http environ sources
    = omap (λ src, (λ task, (src.1, task)) <$> task_of src.1 src.2) sources.
Proof.
  unfold build_tasks.
  assert (∀ acc,
    foldl (λ tasks src, match task_of src.1 src.2 with
                        | Some task => tasks ++ [(src.1, task)]
                        | None => tasks
                        end) acc sources
    = acc ++ omap (λ src, (λ task, (src.1, task)) <$> task_of src.1 src.2)
               sources) as Hgen.
  { induction sources as [|src sources IH]; intros acc; simpl.
    - by rewrite app_nil_r.
    - rewrite IH. destruct (task_of src.1 src.2); simpl; [|done].
      by rewrite <-app_assoc. }
  by rewrite Hgen.
Qed.

Lemma report_spec tasks :
  report tasks (gather tasks) =
    (omap (λ task, line_of task.1 (Some (task.2 0).1)) tasks,
     sum_list ((λ task, completed_count (Some (task.2 0).1)) <$> tasks)).
Proof.
  unfold report.
  assert (∀ ls total,
    foldl (λ acc tr,
             let '(lines, total_news) := acc in
             match (tr.2).1 with
             | Raises e => (lines ++ [Error (tr.1).1 e], total_news)
             | Returns result =>
                 (lines ++ [Completed (tr.1).1 (length result)],
                  total_news + length result)
             | OutOfFuel => (lines, total_news)
             end) (ls, total) (zip tasks (gather tasks))
    = (ls ++ omap (λ task, line_of task.1 (Some (task.2 0).1)) tasks,
       total + sum_list ((λ task, completed_count (Some (task.2 0).1))
                           <$> tasks))) as Hgen.
  { induction tasks as [|[name task] tasks IH]; intros ls total; simpl.
    - by rewrite app_nil_r, Nat.add_0_r.
    - destruct (task 0) as [[[news|e|] tr] n']; simpl; rewrite IH; simpl.
      + by rewrite <-app_assoc, Nat.add_assoc.
      + by rewrite <-app_assoc.
      + done. }
  by rewrite Hgen.
Qed.

(** The summary, source by source. *)
Lemma main_spec sources :
  lines (main' sources) = omap (λ src, line_of src.1 (work src)) sources ∧
  total_news (main' sources)
    = sum_list ((λ src, completed_count (work src)) <$> sources) ∧
  traces (main' sources)
    = omap (λ src, (λ run, (src.1, run.2)) <$> work src) sources.
Proof.
  unfold main. rewrite report_spec, build_tasks_spec.
  cbn [lines total_news traces]. unfold unit_of_work, gather.
  induction sources as [|src sources (IH1 & IH2 & IH3)]; [done|].
  cbn [omap list_omap fmap list_fmap].
  destruct (task_of src.1 src.2) as [task|];
    cbn [fmap option_fmap option_map omap list_omap list_fmap sum_list
         sum_list_with zip zip_with map fst snd];
    [|done].
  rewrite IH2. split_and!; [|done|].
  - destruct (line_of src.1 (Some (task 0).1)); by rewrite IH1.
  - simpl in IH3. rewrite IH3. by destruct (task 0) as [[o tr] n'].
Qed.

(** No unit of work is cut off by the model's recursion bound. *)
Lemma unit_of_work_total src o tr : work src = Some (o, tr) → o ≠ OutOfFuel.
Proof.
  unfold unit_of_work, make_task.
  destruct (String.eqb (type_ src.2) "scraper").
  { simpl. destruct (crawl_scraper_source _ _ _ _ _ _ 0) as [[o' tr'] n'] eqn:Hrun.
    intros [= <- <-]. by eapply crawl_scraper_source_total. }
  destruct (String.eqb (type_ src.2) "api"); [|done]. simpl.
  destruct (falsy_env (environ !! "NEWSDATA_API_KEY")) eqn:H1.
  { rewrite crawl_api_source_skip by auto. by intros [= <- <-]. }
  destruct (falsy_env (environ !! gemini_key_env src.2)) eqn:H2.
  { rewrite crawl_api_source_skip by auto. by intros [= <- <-]. }
  destruct (crawl_api_source_run http environ src.1 src.2 0 H1 H2) as [raw ->].
  by intros [= <- <-].
Qed.

(** Every source with a unit of work has its line and its trace in the
    summary, whatever the other sources did. *)
Lemma main_reports sources src o tr :
  src ∈ sources → work src = Some (o, tr) →
  (src.1, tr) ∈ traces (main' sources) ∧
  match o with
  | Returns news => Completed src.1 (length news) ∈ lines (main' sources)
  | Raises e => Error src.1 e ∈ lines (main' sources)
  | OutOfFuel => False
  end.
Proof.
  intros Hin Hwork. destruct (main_spec sources) as (-> & _ & ->). split.
  - apply list_elem_of_omap. exists src. by rewrite Hwork.
  - pose proof (unit_of_work_total _ _ _ Hwork).
    destruct o as [news|e|]; [| |done];
      apply list_elem_of_omap; exists src; by rewrite Hwork.
Qed.

End Orchestrator.

(** ** C7: fault isolation *)

(** C7.  When the unit of work of one configured source ends with an
    unhandled exception, the summary still reports that failure and carries
    the line and the trace of every other source that completed, each as its
    own unit of work produced them; the total is the sum of the record counts
    of the sources that completed, a failed or unknown source counting 0. *)
Theorem fault_isolation
    (is_complete_news : pydict → list string → bool)
    (is_duplicate_news : pyval → gset pyval → bool)
    (crawlers : string → nat → reply) (http : string → http_reply)
    (environ : gmap string string)
    (sources : list (string * source_config))
    (bad : string * source_config) (e : exn) (trace_bad : list event) :
  bad ∈ sources →
  unit_of_work is_complete_news is_duplicate_news crawlers http environ bad
    = Some (Raises e, trace_bad) →
  Error bad.1 e
    ∈ lines (main is_complete_news is_duplicate_news crawlers http environ
               sources) ∧
  (∀ src news tr,
     src ∈ sources →
     unit_of_work is_complete_news is_duplicate_news crawlers http environ src
       = Some (Returns news, tr) →
     Completed src.1 (length news)
       ∈ lines (main is_complete_news is_duplicate_news crawlers http environ
                  sources) ∧
     (src.1, tr)
       ∈ traces (main is_complete_news is_duplicate_news crawlers http environ
                   sources)) ∧
  total_news (main is_complete_news is_duplicate_news crawlers http environ
                sources)
    = sum_list
        ((λ src, completed_count
                   (unit_of_work is_complete_news is_duplicate_news crawlers
                      http environ src)) <$> sources).
Proof.
  intros Hbad Hraise. split_and!.
  - by destruct (main_reports is_complete_news is_duplicate_news crawlers http
                   environ sources bad _ _ Hbad Hraise).
  - intros src news tr Hin Hwork.
    by destruct (main_reports is_complete_news is_duplicate_news crawlers http
                   environ sources src _ _ Hin Hwork).
  - apply main_spec.
Qed.

Lemma fault_isolation_witness :
  Error "moneycontrol" (CrawlerError "browser closed")
    ∈ lines (main is_complete_news_keys is_duplicate_news_exact
               crawlers_one_down http_full example_environ SOURCES) ∧
  Completed "thehindu" 2
    ∈ lines (main is_complete_news_keys is_duplicate_news_exact
               crawlers_one_down http_full example_environ SOURCES) ∧
  total_news (main is_complete_news_keys is_duplicate_news_exact
                crawlers_one_down http_full example_environ SOURCES) = 6.
Proof.
  destruct (fault_isolation is_complete_news_keys is_duplicate_news_exact
              crawlers_one_down http_full example_environ SOURCES
              ("moneycontrol", moneycontrol_config)
              (CrawlerError "browser closed")
              [EvProbe (page_url (base_url moneycontrol_config) 1)
                 "moneycontrol_session" (Throw "browser closed")])
    as (Herr & Hothers & Htotal).
  - apply list_elem_of_In. simpl. auto.
  - vm_compute. reflexivity.
  - split_and!; [exact Herr| |].
    + assert (unit_of_work is_complete_news_keys is_duplicate_news_exact
                crawlers_one_down http_full example_environ
                ("thehindu", thehindu_config)
              = Some (Returns scenario_news,
                      (crawl_scraper_source is_complete_news_keys
                         is_duplicate_news_exact crawler_scenario example_environ
                         "thehindu" thehindu_config 0).1.2)) as Hwork.
      { vm_compute. reflexivity. }
      apply Hothers in Hwork as [Hline _]; [exact Hline|].
      apply list_elem_of_In. simpl. auto.
    + rewrite Htotal. vm_compute. reflexivity.
Defined.

(** ** C8: a source without its credential *)

(** C8.  A scraper source whose Gemini key is not in the environment, and an
    API source whose newsdata.io key or Gemini key is not in the environment,
    return the empty list with an empty trace: no crawler call, no request, no
    publish, no snapshot.  In the summary of a run such a source has the empty
    trace and the line with count 0, and every other source that completed has
    the line and the trace of its own unit of work. *)
Theorem missing_credential_skips_source
    (is_complete_news : pydict → list string → bool)
    (is_duplicate_news : pyval → gset pyval → bool)
    (crawlers : string → nat → reply) (http : string → http_reply)
    (environ : gmap string string)
    (sources : list (string * source_config))
    (src : string * source_config) :
  src ∈ sources →
  type_ src.2 = "scraper" ∨ type_ src.2 = "api" →
  missing_credential environ src.2 →
  (∀ n, type_ src.2 = "scraper" →
        crawl_scraper_source is_complete_news is_duplicate_news
          (crawlers src.1) environ src.1 src.2 n = (Returns [], [], n)) ∧
  (∀ n, type_ src.2 = "api" →
        crawl_api_source http environ src.1 src.2 n = (Returns [], [], n)) ∧
  (src.1, [])
    ∈ traces (main is_complete_news is_duplicate_news crawlers http environ
                sources) ∧
  Completed src.1 0
    ∈ lines (main is_complete_news is_duplicate_news crawlers http environ
               sources) ∧
  (∀ other news tr,
     other ∈ sources →
     unit_of_work is_complete_news is_duplicate_news crawlers http environ
       other = Some (Returns news, tr) →
     Completed other.1 (length news)
       ∈ lines (main is_complete_news is_duplicate_news crawlers http environ
                  sources) ∧
     (other.1, tr)
       ∈ traces (main is_complete_news is_duplicate_news crawlers http environ
                   sources)).
Proof.
  intros Hin Htype Hmiss.
  assert (∀ n, type_ src.2 = "scraper" →
            crawl_scraper_source is_complete_news is_duplicate_news
              (crawlers src.1) environ src.1 src.2 n = (Returns [], [], n))
    as Hscraper.
  { intros n Hty. apply crawl_scraper_source_skip.
    destruct Hmiss as [->|[Hapi _]]; [done|]. by rewrite Hty in Hapi. }
  assert (∀ n, type_ src.2 = "api" →
            crawl_api_source http environ src.1 src.2 n = (Returns [], [], n))
    as Hapi.
  { intros n Hty. apply crawl_api_source_skip.
    destruct Hmiss as [->|[_ ->]]; auto. }
  assert (unit_of_work is_complete_news is_duplicate_news crawlers http environ
            src = Some (Returns [], [])) as Hwork.
  { unfold unit_of_work, make_task. destruct Htype as [Hty|Hty].
    - rewrite Hty. simpl. by rewrite Hscraper.
    - rewrite Hty. simpl. by rewrite Hapi. }
  split_and!; [done|done| | |].
  - by destruct (main_reports is_complete_news is_duplicate_news crawlers http
                   environ sources src _ _ Hin Hwork).
  - by destruct (main_reports is_complete_news is_duplicate_news crawlers http
                   environ sources src _ _ Hin Hwork).
  - intros other news tr Hother Hw.
    by destruct (main_reports is_complete_news is_duplicate_news crawlers http
                   environ sources other _ _ Hother Hw).
Qed.

Lemma missing_credential_skips_source_witness :
  crawl_scraper_source is_complete_news_keys is_duplicate_news_exact
    crawler_scenario environ_without_key_1 "moneycontrol" moneycontrol_config 0
    = (Returns [], [], 0) ∧
  ("moneycontrol", [])
    ∈ traces (main is_complete_news_keys is_duplicate_news_exact
                (λ _, crawler_scenario) http_full environ_without_key_1
                SOURCES) ∧
  Completed "moneycontrol" 0
    ∈ lines (main is_complete_news_keys is_duplicate_news_exact
               (λ _, crawler_scenario) http_full environ_without_key_1
               SOURCES).
Proof.
  destruct (missing_credential_skips_source is_complete_news_keys
              is_duplicate_news_exact (λ _, crawler_scenario) http_full
              environ_without_key_1 SOURCES
              ("moneycontrol", moneycontrol_config))
    as (Hscraper & _ & Htrace & Hline & _).
  - apply list_elem_of_In. simpl. auto.
  - left. reflexivity.
  - left. vm_compute. reflexivity.
  - split_and!; [|exact Htrace|exact Hline]. apply Hscraper. reflexivity.
Defined.

(** ** C9: the one-shot transform *)

(** C9.  The transform of the one-shot path produces one record per raw item,
    in the same order; the record at position [i] has exactly the five common
    fields, with [title] and [description] taken from the item's keys of the
    same name, [url] from [link], [publishtime] from [pubDate] and [provider]
    from [source_id] (the empty string, and the provider's name for
    [provider], standing in for a key the item lacks). *)
Theorem newsdata_transform_pointwise (raw_results : list pydict)
    (gemini_key : string) (i : nat) (item : pydict) :
  raw_results !! i = Some item →
  length (process_newsdata_with_gemini raw_results gemini_key)
    = length raw_results ∧
  ∃ news,
    process_newsdata_with_gemini raw_results gemini_key !! i = Some news ∧
    news !! "title" = Some (dict_get_or item "title" (PStr EmptyString)) ∧
    news !! "description"
      = Some (dict_get_or item "description" (PStr EmptyString)) ∧
    news !! "url" = Some (dict_get_or item "link" (PStr EmptyString)) ∧
    news !! "publishtime" = Some (dict_get_or item "pubDate" (PStr EmptyString)) ∧
    news !! "provider" = Some (dict_get_or item "source_id" (PStr "newsdata")) ∧
    dom news = list_to_set REQUIRED_KEYS.
Proof.
  intros Hi. rewrite process_newsdata_with_gemini_map, length_fmap.
  split; [done|]. exists (newsdata_record item).
  rewrite list_lookup_fmap, Hi. unfold newsdata_record.
  split_and!; [done|by simplify_map_eq..|].
  rewrite !dom_insert_L, dom_empty_L. unfold REQUIRED_KEYS. simpl. set_solver.
Qed.

Lemma newsdata_transform_pointwise_witness :
  ∃ news,
    process_newsdata_with_gemini [full_item; bare_item] "gm-key-3" !! 0
      = Some news ∧
    news !! "url" = Some (PStr "https://example.org/budget") ∧
    news !! "publishtime" = Some (PStr "2025-02-01 10:00:00") ∧
    news !! "provider" = Some (PStr "thewire").
Proof.
  destruct (newsdata_transform_pointwise [full_item; bare_item] "gm-key-3" 0
              full_item eq_refl)
    as (_ & news & Hnews & _ & _ & Hurl & Htime & Hprov & _).
  exists news. split_and!; [exact Hnews|exact Hurl|exact Htime|exact Hprov].
Defined.

(** ** C10: a record with an empty title *)

(** C10.  When a page fetch returns, a raw record of the page's batch that
    passes the required-key check and whose [title] is the empty string is
    not in the valid batch, no record of the valid batch has an empty title,
    and the empty title is not added to [seen_names]. *)
Theorem empty_title_rejected
    (is_complete_news : pydict → list string → bool)
    (is_duplicate_news : pyval → gset pyval → bool)
    (crawler : nat → reply) (page_number : nat)
    (base_url css_selector session_id : string)
    (seen_names seen_names' : gset pyval) (n n' : nat)
    (news : list pydict) (no_results_found : bool) (tr : list event)
    (e : event) (d : pydict) :
  fetch_and_process_page is_complete_news is_duplicate_news crawler
    page_number base_url css_selector session_id REQUIRED_KEYS seen_names n
    = (Returns (news, no_results_found, seen_names'), tr, n') →
  e ∈ tr → ItemDict d ∈ delivered e →
  is_complete_news (delete "error" d) REQUIRED_KEYS = true →
  d !! "title" = Some (PStr EmptyString) →
  (delete "error" d ∉ news) ∧
  (∀ r, r ∈ news → title_of r ≠ PStr EmptyString) ∧
  (PStr EmptyString ∉ seen_names → PStr EmptyString ∉ seen_names').
Proof.
  intros Hrun _ _ _ Htitle.
  assert (seen_names' = list_to_set (title_of <$> news) ∪ seen_names
          ∧ Forall (checked is_complete_news REQUIRED_KEYS) news) as [-> Hck].
  { apply fetch_returns in Hrun
      as [(_ & -> & -> & _)|(_ & _ & _ & _ & [(-> & -> & _)|(items & _ & Hp)])].
    - split; [set_solver|constructor].
    - split; [set_solver|constructor].
    - by apply process_news_returns in Hp as (new & -> & -> & ? & _). }
  assert (∀ r, r ∈ news → title_of r ≠ PStr EmptyString) as Hne.
  { intros r Hr Heq. rewrite Forall_forall in Hck.
    destruct (Hck r Hr) as (_ & _ & Ht). by rewrite Heq in Ht. }
  split_and!; [|done|].
  - intros Hin%Hne. apply Hin. rewrite title_of_delete_error.
    unfold title_of, dict_get_or. by rewrite Htitle.
  - intros Hseen [(r & Heq & Hr)%elem_of_list_to_set%list_elem_of_fmap|?]%elem_of_union;
      [|done].
    by apply (Hne r).
Qed.

Lemma empty_title_rejected_witness :
  (delete "error" untitled ∉ [delete "error" (article "Rates held")]) ∧
  PStr EmptyString ∉ ({[PStr "Rates held"]} : gset pyval).
Proof.
  pose proof (empty_title_rejected is_complete_news_keys is_duplicate_news_exact
                crawler_untitled 1 (base_url moneycontrol_config)
                (css_selector moneycontrol_config) "moneycontrol_session"
                ∅ {[PStr "Rates held"]} 0 2
                [delete "error" (article "Rates held")] false
                [EvProbe (page_url (base_url moneycontrol_config) 1)
                   "moneycontrol_session" (crawler_untitled 0);
                 EvExtract (page_url (base_url moneycontrol_config) 1)
                   (css_selector moneycontrol_config) "moneycontrol_session"
                   (crawler_untitled 1)]
                (EvExtract (page_url (base_url moneycontrol_config) 1)
                   (css_selector moneycontrol_config) "moneycontrol_session"
                   (crawler_untitled 1))
                untitled) as Hrej.
  destruct Hrej as (Hbatch & _ & Hseen).
  - vm_compute. reflexivity.
  - apply list_elem_of_In. simpl. auto.
  - apply list_elem_of_In. simpl. auto.
  - vm_compute. reflexivity.
  - vm_compute. reflexivity.
  - split; [exact Hbatch|]. apply Hseen. apply not_elem_of_empty.
Defined.

(** ** C4 and C5: the retry controller *)

Section RetryBound.

Variable is_complete_news : pydict → list string → bool.
Variable is_duplicate_news : pyval → gset pyval → bool.
Variable crawler : nat → reply.

Local Abbreviation attempt p cfg sid :=
  (fetch_and_process_page is_complete_news is_duplicate_news crawler
     p (base_url cfg) (css_selector cfg) sid REQUIRED_KEYS).
Local Abbreviation retry :=
  (retry_loop is_complete_news is_duplicate_news crawler).
Local Abbreviation pages :=
  (crawl_pages is_complete_news is_duplicate_news crawler).

(** A loop that ends with neither news nor the flag has used every
    attempt. *)
Lemma retry_loop_exhausted k p cfg sid seen last n news flag s tr n' :
  retry (S k) p cfg sid seen last n = (Returns (news, flag, s), tr, n') →
  negb (is_nil news) || flag = false →
  fetch_attempts (page_url (base_url cfg) p) tr = S k.
Proof.
  revert seen last n tr. induction k as [|k IH]; intros seen last n tr.
  - destruct (attempt p cfg sid seen n) as [[[[[r1 f1] s1]|e|] t1] n1] eqn:Hatt.
    + rewrite (retry_loop_step _ _ _ _ _ _ _ _ _ _ _ _ _ _ _ Hatt).
      pose proof Hatt as (Hc1 & _)%attempt_shape%attempt_events.
      destruct (negb (is_nil r1) || f1) eqn:Hcond.
      * intros [= <- <- <- <- <-]. congruence.
      * simpl. intros [= <- <- <- <- <-] _.
        unfold fetch_attempts, count_events in *.
        rewrite List.filter_app, length_app, Hc1. done.
    + by rewrite (retry_loop_raises _ _ _ _ _ _ _ _ _ _ _ _ _ Hatt).
    + by apply fetch_trace in Hatt as [? _].
  - destruct (attempt p cfg sid seen n) as [[[[[r1 f1] s1]|e|] t1] n1] eqn:Hatt.
    + rewrite (retry_loop_step _ _ _ _ _ _ _ _ _ _ _ _ _ _ _ Hatt).
      pose proof Hatt as (Hc1 & _)%attempt_shape%attempt_events.
      destruct (negb (is_nil r1) || f1) eqn:Hcond.
      * intros [= <- <- <- <- <-]. congruence.
      * destruct (retry (S k) p cfg sid s1 (r1, f1) n1) as [[o2 t2] n2] eqn:Hrec.
        intros [= -> <- <-] Htrans. eapply IH in Hrec; [|done].
        unfold fetch_attempts, count_events in *.
        rewrite List.filter_app, length_app, Hc1. simpl. by rewrite Hrec.
    + by rewrite (retry_loop_raises _ _ _ _ _ _ _ _ _ _ _ _ _ Hatt).
    + by apply fetch_trace in Hatt as [? _].
Qed.

(** Every round of the loop opens with the probe of the page. *)
Lemma retry_loop_opens k p cfg sid seen last n o tr n' :
  retry (S k) p cfg sid seen last n = (o, tr, n') →
  ∃ rest, tr = EvProbe (page_url (base_url cfg) p) sid (crawler n) :: rest.
Proof.
  destruct (attempt p cfg sid seen n) as [[[[[r1 f1] s1]|e|] t1] n1] eqn:Hatt.
  - rewrite (retry_loop_step _ _ _ _ _ _ _ _ _ _ _ _ _ _ _ Hatt).
    apply attempt_shape in Hatt.
    destruct (negb (is_nil r1) || f1).
    + intros [= <- <- <-]. destruct Hatt as [-> | ->]; by eexists.
    + destruct (retry k p cfg sid s1 (r1, f1) n1) as [[o2 t2] n2].
      intros [= <- <- <-]. destruct Hatt as [-> | ->]; by eexists.
  - rewrite (retry_loop_raises _ _ _ _ _ _ _ _ _ _ _ _ _ Hatt).
    apply attempt_shape in Hatt.
    intros [= <- <- <-]. destruct Hatt as [-> | ->]; by eexists.
  - by apply fetch_trace in Hatt as [? _].
Qed.

(** The trace of an iteration of [while True] starts with the trace of its
    retry loop. *)
Lemma crawl_pages_prefix fuel cfg sid topic p all_news seen n o tr n' o1 t1 n1 :
  pages (S fuel) cfg sid topic p all_news seen n = (o, tr, n') →
  retry 3 p cfg sid seen ([], false) n = (o1, t1, n1) →
  ∃ rest, tr = t1 ++ rest.
Proof.
  intros Hp Hr. destruct o1 as [[[news flag] s1]|e|].
  - rewrite (crawl_pages_step _ _ _ _ _ _ _ _ _ _ _ _ _ _ _ _ Hr) in Hp.
    destruct flag; [exists []; rewrite app_nil_r; congruence|].
    destruct (is_nil news); [exists []; rewrite app_nil_r; congruence|].
    destruct (20 <? p); [eexists; by injection Hp as <- <- <-|].
    destruct (pages fuel cfg sid topic (p + 1) (all_news ++ news) s1 n1)
      as [[o2 t2] n2].
    eexists. by injection Hp as <- <- <-.
  - rewrite (crawl_pages_raises _ _ _ _ _ _ _ _ _ _ _ _ _ _ Hr) in Hp.
    exists []. rewrite app_nil_r. congruence.
  - by apply retry_loop_trace in Hr as [? _].
Qed.

End RetryBound.

(** C4.  The retry loop of a page makes at most 3 fetch attempts and a
    five-second sleep separates consecutive attempts.  It returns the result
    of the first attempt that has news or the no-results flag, and makes no
    attempt after it.  If it ends with neither, exactly 3 attempts were made
    and the pagination loop stops there, returning what it had collected
    without any further event. *)
Theorem retry_bound
    (is_complete_news : pydict → list string → bool)
    (is_duplicate_news : pyval → gset pyval → bool)
    (crawler : nat → reply) (page_number : nat) (cfg : source_config)
    (session_id : string) (seen_names : gset pyval) (n : nat)
    (o : outcome (list pydict * bool * gset pyval)) (tr : list event) (n' : nat) :
  retry_loop is_complete_news is_duplicate_news crawler 3 page_number cfg
    session_id seen_names ([], false) n = (o, tr, n') →
  fetch_attempts (page_url (base_url cfg) page_number) tr ≤ 3 ∧
  paced tr = true ∧
  (∀ r1 f1 s1 t1 n1,
     page_attempt is_complete_news is_duplicate_news crawler page_number cfg
       session_id seen_names n = (Returns (r1, f1, s1), t1, n1) →
     (negb (is_nil r1) || f1 = true →
        (o, tr, n') = (Returns (r1, f1, s1), t1, n1))
     ∧ (negb (is_nil r1) || f1 = false →
        ∀ r2 f2 s2 t2 n2,
          page_attempt is_complete_news is_duplicate_news crawler page_number
            cfg session_id s1 n1 = (Returns (r2, f2, s2), t2, n2) →
          (negb (is_nil r2) || f2 = true →
             (o, tr, n') = (Returns (r2, f2, s2), t1 ++ EvSleep 5 :: t2, n2))
          ∧ (negb (is_nil r2) || f2 = false →
             ∀ r3 f3 s3 t3 n3,
               page_attempt is_complete_news is_duplicate_news crawler
                 page_number cfg session_id s2 n2
                 = (Returns (r3, f3, s3), t3, n3) →
               (negb (is_nil r3) || f3 = true →
                  (o, tr, n') =
                    (Returns (r3, f3, s3),
                     t1 ++ EvSleep 5 :: t2 ++ EvSleep 5 :: t3, n3))
               ∧ (negb (is_nil r3) || f3 = false →
                  (o, tr, n') =
                    (Returns (r3, f3, s3),
                     t1 ++ EvSleep 5 :: t2 ++ EvSleep 5 :: t3 ++ [EvSleep 5],
                     n3))))) ∧
  (∀ s, o = Returns ([], false, s) →
     fetch_attempts (page_url (base_url cfg) page_number) tr = 3 ∧
     ∀ fuel topic all_news,
       crawl_pages is_complete_news is_duplicate_news crawler (S fuel) cfg
         session_id topic page_number all_news seen_names n
         = (Returns all_news, tr, n')).
Proof.
  intros Hrun. split_and!.
  - by apply retry_loop_trace in Hrun as (_ & ? & _).
  - by apply retry_loop_trace in Hrun as (_ & _ & ? & _).
  - unfold page_attempt. intros r1 f1 s1 t1 n1 H1. rewrite <-Hrun.
    destruct (retry_loop_table is_complete_news is_duplicate_news crawler
                page_number cfg session_id seen_names n _ _ _ _ _ H1)
      as [Ha Hb].
    split; [by intros ->%Ha|]. intros Hc1 r2 f2 s2 t2 n2 H2.
    destruct (Hb Hc1 _ _ _ _ _ H2) as [Ha2 Hb2].
    split; [by intros ->%Ha2|]. intros Hc2 r3 f3 s3 t3 n3 H3.
    destruct (Hb2 Hc2 _ _ _ _ _ H3) as [Ha3 Hb3].
    split; [by intros ->%Ha3|]. by intros ->%Hb3.
  - intros s ->. split.
    + by eapply retry_loop_exhausted in Hrun.
    + intros fuel topic all_news.
      by rewrite (crawl_pages_step _ _ _ _ _ _ _ _ _ _ _ _ _ _ _ _ Hrun).
Qed.

Lemma retry_bound_witness :
  fetch_attempts (page_url (base_url moneycontrol_config) 1)
    (retry_loop is_complete_news_keys is_duplicate_news_exact crawler_failing
       3 1 moneycontrol_config "moneycontrol_session" ∅ ([], false) 0).1.2
    = 3 ∧
  paced
    (retry_loop is_complete_news_keys is_duplicate_news_exact crawler_failing
       3 1 moneycontrol_config "moneycontrol_session" ∅ ([], false) 0).1.2
    = true ∧
  crawl_pages is_complete_news_keys is_duplicate_news_exact crawler_failing 21
    moneycontrol_config "moneycontrol_session" "news-events" 1 [] ∅ 0
    = (Returns [],
       (retry_loop is_complete_news_keys is_duplicate_news_exact
          crawler_failing 3 1 moneycontrol_config "moneycontrol_session" ∅
          ([], false) 0).1.2, 6).
Proof.
  destruct (retry_bound is_complete_news_keys is_duplicate_news_exact
              crawler_failing 1 moneycontrol_config "moneycontrol_session"
              ∅ 0 (Returns ([], false, ∅))
              (retry_loop is_complete_news_keys is_duplicate_news_exact
                 crawler_failing 3 1 moneycontrol_config
                 "moneycontrol_session" ∅ ([], false) 0).1.2
              6) as (_ & Hpaced & _ & Hexh).
  - vm_compute. reflexivity.
  - destruct (Hexh ∅ eq_refl) as [Hthree Hstop].
    split_and!; [exact Hthree|exact Hpaced|apply Hstop].
Defined.

(** C5, counterexample.  With a crawler that shows the same article on every
    page, the only raw record of page 2 is a duplicate: the fetch of page 2
    returns items and its valid batch is empty.  The session then fetches
    page 2 three times, probe and extraction call each time, before it
    stops. *)
Lemma rejected_batch_is_refetched :
  fetch_and_process_page is_complete_news_keys is_duplicate_news_exact
    crawler_stale 2 (base_url moneycontrol_config)
    (css_selector moneycontrol_config) "moneycontrol_session" REQUIRED_KEYS
    {[PStr "Rates held"]} 2
    = (Returns ([], false, {[PStr "Rates held"]}),
       [EvProbe (page_url (base_url moneycontrol_config) 2)
          "moneycontrol_session" page_without_marker;
        EvExtract (page_url (base_url moneycontrol_config) 2)
          (css_selector moneycontrol_config) "moneycontrol_session"
          (extraction [ItemDict (article "Rates held")])], 4) ∧
  fetch_attempts (page_url (base_url moneycontrol_config) 2)
    (crawl_scraper_source is_complete_news_keys is_duplicate_news_exact
       crawler_stale example_environ "moneycontrol" moneycontrol_config 0).1.2
    = 3 ∧
  count_events (is_extract_of (page_url (base_url moneycontrol_config) 2))
    (crawl_scraper_source is_complete_news_keys is_duplicate_news_exact
       crawler_stale example_environ "moneycontrol" moneycontrol_config 0).1.2
    = 3.
Proof. split_and!; vm_compute; reflexivity. Qed.

(** C5, amended.  When a fetch of a page returns items and every raw record
    is rejected, the attempt counts as an empty one: after a five-second
    sleep the page is fetched again, and if the second and the third attempt
    end with an empty valid batch as well, the pagination loop stops there
    after exactly 3 fetch attempts of that page, returning what it had
    collected. *)
Theorem rejected_batch_retried
    (is_complete_news : pydict → list string → bool)
    (is_duplicate_news : pyval → gset pyval → bool)
    (crawler : nat → reply) (page_number : nat) (cfg : source_config)
    (session_id topic : string) (all_news : list pydict)
    (seen_names s1 : gset pyval) (fuel n n1 n' : nat)
    (t1 tr : list event) (o : outcome (list pydict)) :
  fetch_and_process_page is_complete_news is_duplicate_news crawler
    page_number (base_url cfg) (css_selector cfg) session_id REQUIRED_KEYS
    seen_names n = (Returns ([], false, s1), t1, n1) →
  delivered (EvExtract (page_url (base_url cfg) page_number)
               (css_selector cfg) session_id (crawler (S n))) ≠ [] →
  crawl_pages is_complete_news is_duplicate_news crawler (S fuel) cfg
    session_id topic page_number all_news seen_names n = (o, tr, n') →
  (∃ rest,
     tr = t1 ++ EvSleep 5 ::
          EvProbe (page_url (base_url cfg) page_number) session_id (crawler n1)
          :: rest) ∧
  (∀ s2 t2 n2 s3 t3 n3,
     fetch_and_process_page is_complete_news is_duplicate_news crawler
       page_number (base_url cfg) (css_selector cfg) session_id REQUIRED_KEYS
       s1 n1 = (Returns ([], false, s2), t2, n2) →
     fetch_and_process_page is_complete_news is_duplicate_news crawler
       page_number (base_url cfg) (css_selector cfg) session_id REQUIRED_KEYS
       s2 n2 = (Returns ([], false, s3), t3, n3) →
     o = Returns all_news ∧
     tr = t1 ++ EvSleep 5 :: t2 ++ EvSleep 5 :: t3 ++ [EvSleep 5] ∧
     fetch_attempts (page_url (base_url cfg) page_number) tr = 3).
Proof.
  intros H1 _ Hp. split.
  - destruct (retry_loop is_complete_news is_duplicate_news crawler 3
                page_number cfg session_id seen_names ([], false) n)
      as [[o1 tr1] m1] eqn:Hr.
    destruct (crawl_pages_prefix _ _ _ _ _ _ _ _ _ _ _ _ _ _ _ _ _ Hp Hr)
      as [rest ->].
    rewrite (retry_loop_step _ _ _ _ _ _ _ _ _ _ _ _ _ _ _ H1) in Hr.
    cbn [is_nil negb orb] in Hr.
    destruct (retry_loop is_complete_news is_duplicate_news crawler 2
                page_number cfg session_id s1 ([], false) n1)
      as [[o2 tr2] m2] eqn:Hr2.
    apply retry_loop_opens in Hr2 as [rest2 ->].
    injection Hr as <- <- <-. exists (rest2 ++ rest).
    by rewrite <-!app_assoc.
  - intros s2 t2 n2 s3 t3 n3 H2 H3.
    destruct (retry_loop_table is_complete_news is_duplicate_news crawler
                page_number cfg session_id seen_names n _ _ _ _ _ H1)
      as [_ Hb].
    destruct (Hb eq_refl _ _ _ _ _ H2) as [_ Hb2].
    destruct (Hb2 eq_refl _ _ _ _ _ H3) as [_ Hb3].
    specialize (Hb3 eq_refl).
    pose proof (retry_loop_exhausted _ _ _ _ _ _ _ _ _ _ _ _ _ _ _ Hb3 eq_refl)
      as Hcount.
    rewrite (crawl_pages_step _ _ _ _ _ _ _ _ _ _ _ _ _ _ _ _ Hb3) in Hp.
    cbn [is_nil] in Hp. by injection Hp as <- <- <-.
Qed.

Lemma rejected_batch_retried_witness :
  ∃ rest,
    (crawl_scraper_source is_complete_news_keys is_duplicate_news_exact
       crawler_stale example_environ "moneycontrol" moneycontrol_config 0).1.2
    = [EvProbe (page_url (base_url moneycontrol_config) 1)
         "moneycontrol_session" page_without_marker;
       EvExtract (page_url (base_url moneycontrol_config) 1)
         (css_selector moneycontrol_config) "moneycontrol_session"
         (extraction [ItemDict (article "Rates held")]);
       EvKafka [delete "error" (article "Rates held")] "news-events";
       EvSleep 2;
       EvProbe (page_url (base_url moneycontrol_config) 2)
         "moneycontrol_session" page_without_marker;
       EvExtract (page_url (base_url moneycontrol_config) 2)
         (css_selector moneycontrol_config) "moneycontrol_session"
         (extraction [ItemDict (article "Rates held")]);
       EvSleep 5;
       EvProbe (page_url (base_url moneycontrol_config) 2)
         "moneycontrol_session" page_without_marker] ++ rest.
Proof.
  destruct (rejected_batch_retried is_complete_news_keys is_duplicate_news_exact
              crawler_stale 2 moneycontrol_config "moneycontrol_session"
              "news-events" [delete "error" (article "Rates held")]
              {[PStr "Rates held"]} {[PStr "Rates held"]} 19 2 4 8
              [EvProbe (page_url (base_url moneycontrol_config) 2)
                 "moneycontrol_session" page_without_marker;
               EvExtract (page_url (base_url moneycontrol_config) 2)
                 (css_selector moneycontrol_config) "moneycontrol_session"
                 (extraction [ItemDict (article "Rates held")])]
              (crawl_pages is_complete_news_keys is_duplicate_news_exact
                 crawler_stale 20 moneycontrol_config "moneycontrol_session"
                 "news-events" 2 [delete "error" (article "Rates held")]
                 {[PStr "Rates held"]} 2).1.2
              (Returns [delete "error" (article "Rates held")]))
    as [[rest Hrest] _].
  - vm_compute. reflexivity.
  - vm_compute. discriminate.
  - vm_compute. reflexivity.
  - exists (rest ++ [EvCsv [delete "error" (article "Rates held")]
                       "moneycontrol_news.csv"]).
    revert Hrest. vm_compute. intros [= <-]. reflexivity.
Defined.

(** ** C6: the terminal marker *)

Lemma first_terminal_unique tr0 e0 rest l1 e l2 :
  tr0 ++ e0 :: rest = l1 ++ e :: l2 →
  no_terminal tr0 → no_terminal rest → terminal_probe e = true →
  l1 = tr0 ∧ e = e0 ∧ l2 = rest.
Proof.
  revert l1. induction tr0 as [|x tr0 IH]; intros l1 Heq Hnt0 Hrest He.
  - destruct l1 as [|y l1]; simpl in Heq.
    + by injection Heq as <- <-.
    + injection Heq as <- ->. apply Forall_app in Hrest as [_ Hrest].
      apply Forall_cons in Hrest as [Hfalse _]. congruence.
  - apply Forall_cons in Hnt0 as [Hx Hnt0].
    destruct l1 as [|y l1]; simpl in Heq.
    + injection Heq as -> _. congruence.
    + injection Heq as <- Heq.
      by destruct (IH l1 Heq Hnt0 Hrest He) as (-> & -> & ->).
Qed.

(** C6.  In the session of a paginated source, a probe that finds the
    no-results marker is the first such probe of the trace and the last call
    of the crawler: after it comes no extraction call, no further probe, no
    sleep and no publish, only the snapshot of what the earlier pages had
    forwarded (when that is not empty), and the source returns exactly
    that. *)
Theorem terminal_marker_ends_session
    (is_complete_news : pydict → list string → bool)
    (is_duplicate_news : pyval → gset pyval → bool)
    (crawler : nat → reply) (environ : gmap string string)
    (name : string) (cfg : source_config) (n n' : nat)
    (o : outcome (list pydict)) (tr l1 l2 : list event) (e : event) :
  crawl_scraper_source is_complete_news is_duplicate_news crawler environ
    name cfg n = (o, tr, n') →
  tr = l1 ++ e :: l2 →
  terminal_probe e = true →
  no_terminal l1 ∧
  o = Returns (forwarded l1) ∧
  l2 = (if is_nil (forwarded l1) then []
        else [EvCsv (forwarded l1) (name +:+ "_news.csv")]).
Proof.
  intros Hrun -> He.
  destruct (falsy_env (environ !! gemini_key_env cfg)) eqn:Hkey.
  { rewrite crawl_scraper_source_skip in Hrun by done.
    injection Hrun as _ Hnil _. by destruct l1. }
  apply crawl_scraper_source_run in Hrun as (oc & trc & Hp & Hcase); [|done].
  apply crawl_pages_forwarded in Hp as (_ & _ & _ & Hterm).
  assert (∀ all_news : list pydict,
            no_terminal (if is_nil all_news then []
                         else [EvCsv all_news (name +:+ "_news.csv")])) as Hcsv.
  { intros all_news. destruct (is_nil all_news); by repeat constructor. }
  assert (∀ l, no_terminal l → l1 ++ e :: l2 = l → False) as Habsurd.
  { intros l Hl <-. apply Forall_app in Hl as [_ Hl].
    apply Forall_cons in Hl as [Hfalse _]. congruence. }
  destruct Hcase as [(all_news & -> & -> & Htr)|(ex & -> & -> & Htr)].
  - destruct Hterm as [Hnt|(tr0 & e0 & -> & He0 & Hnt0 & Ho)].
    + exfalso. eapply Habsurd; [|exact Htr]. apply Forall_app. split; [done|apply Hcsv].
    + simpl in Ho. injection Ho as ->.
      rewrite <-app_assoc in Htr. simpl in Htr. symmetry in Htr.
      by destruct (first_terminal_unique _ _ _ _ _ _ Htr Hnt0 (Hcsv _) He)
        as (-> & -> & ->).
  - destruct Hterm as [Hnt|(tr0 & e0 & _ & _ & _ & Ho)]; [|done].
    exfalso. by eapply Habsurd.
Qed.

Lemma terminal_marker_ends_session_witness :
  no_terminal scenario_before ∧
  Returns scenario_news = Returns (forwarded scenario_before) ∧
  [EvCsv scenario_news "moneycontrol_news.csv"]
    = (if is_nil (forwarded scenario_before) then []
       else [EvCsv (forwarded scenario_before)
               ("moneycontrol" +:+ "_news.csv")]).
Proof.
  apply (terminal_marker_ends_session is_complete_news_keys
           is_duplicate_news_exact crawler_scenario example_environ
           "moneycontrol" moneycontrol_config 0 3 (Returns scenario_news)
           (scenario_before ++ scenario_probe
              :: [EvCsv scenario_news "moneycontrol_news.csv"])
           scenario_before [EvCsv scenario_news "moneycontrol_news.csv"]
           scenario_probe).
  - vm_compute. reflexivity.
  - reflexivity.
  - vm_compute. reflexivity.
Defined.

(** ** C2: deduplication within a session *)





(** ** C3: the page cap *)

(** Whenever page 20 yields a valid batch, the loop goes on to probe
    page 21. *)
Lemma page_20_is_not_last
    (is_complete_news : pydict → list string → bool)
    (is_duplicate_news : pyval → gset pyval → bool)
    (crawler : nat → reply) (cfg : source_config) (session_id topic : string)
    (all_news news : list pydict) (seen_names s1 : gset pyval)
    (fuel n n1 n' : nat) (t1 tr : list event) (o : outcome (list pydict)) :
  retry_loop is_complete_news is_duplicate_news crawler 3 20 cfg session_id
    seen_names ([], false) n = (Returns (news, false, s1), t1, n1) →
  news ≠ [] →
  crawl_pages is_complete_news is_duplicate_news crawler (S (S fuel)) cfg
    session_id topic 20 all_news seen_names n = (o, tr, n') →
  ∃ rest,
    tr = t1 ++ EvKafka news topic :: EvSleep 2 ::
         EvProbe (page_url (base_url cfg) 21) session_id (crawler n1) :: rest.
Proof.
  intros Hr Hnews Hp.
  rewrite (crawl_pages_step _ _ _ _ _ _ _ _ _ _ _ _ _ _ _ _ Hr) in Hp.
  destruct news as [|r news]; [done|]. cbn [is_nil Nat.ltb Nat.leb] in Hp.
  change (20 + 1) with 21 in Hp.
  destruct (crawl_pages is_complete_news is_duplicate_news crawler (S fuel)
              cfg session_id topic 21 (all_news ++ r :: news) s1 n1)
    as [[o2 t2] n2] eqn:Hp2.
  injection Hp as <- <- <-.
  destruct (retry_loop is_complete_news is_duplicate_news crawler 3 21 cfg
              session_id s1 ([], false) n1) as [[o3 t3] n3] eqn:Hr3.
  destruct (crawl_pages_prefix _ _ _ _ _ _ _ _ _ _ _ _ _ _ _ _ _ Hp2 Hr3)
    as [rest ->].
  apply retry_loop_opens in Hr3 as [rest3 ->]. by eexists.
Qed.

(** C3, the code at the failing input.  With a crawler whose every page
    fetch yields one new valid record, the session of moneycontrol never
    retries and never sees the marker, and it does not stop after page 20:
    it probes and extracts page 21 as well, forwards 21 batches and returns
    21 records; page 22 is not fetched. *)
Theorem page_cap_fetches_page_21 :
  fetch_attempts (page_url (base_url moneycontrol_config) 21)
    (crawl_scraper_source is_complete_news_keys is_duplicate_news_exact
       crawler_fresh example_environ "moneycontrol" moneycontrol_config 0).1.2
    = 1 ∧
  count_events (is_extract_of (page_url (base_url moneycontrol_config) 21))
    (crawl_scraper_source is_complete_news_keys is_duplicate_news_exact
       crawler_fresh example_environ "moneycontrol" moneycontrol_config 0).1.2
    = 1 ∧
  fetch_attempts (page_url (base_url moneycontrol_config) 22)
    (crawl_scraper_source is_complete_news_keys is_duplicate_news_exact
       crawler_fresh example_environ "moneycontrol" moneycontrol_config 0).1.2
    = 0 ∧
  count_events (is_sleep 5)
    (crawl_scraper_source is_complete_news_keys is_duplicate_news_exact
       crawler_fresh example_environ "moneycontrol" moneycontrol_config 0).1.2
    = 0 ∧
  count_events terminal_probe
    (crawl_scraper_source is_complete_news_keys is_duplicate_news_exact
       crawler_fresh example_environ "moneycontrol" moneycontrol_config 0).1.2
    = 0 ∧
  length (forwarded
    (crawl_scraper_source is_complete_news_keys is_duplicate_news_exact
       crawler_fresh example_environ "moneycontrol" moneycontrol_config 0).1.2)
    = 21.
Proof. split_and!; vm_compute; reflexivity. Qed.

(** * Further properties of the code *)

(** Closes an equation between closed terms by evaluation. *)
Ltac by_eval :=
  lazymatch goal with |- @eq ?T _ ?r => vm_cast_no_check (@eq_refl T r) end.

(** ** The item loop and the page fetch *)

Section ItemLoopExtra.

Variable is_complete_news : pydict → list string → bool.
Variable is_duplicate_news : pyval → gset pyval → bool.

Local Abbreviation loop := (process_news is_complete_news is_duplicate_news).

Lemma process_news_skip keys it rest seen acc :
  passes_validator is_complete_news keys it = false →
  loop keys (it :: rest) seen acc = loop keys rest seen acc.
Proof.
  destruct it as [d|]; [|done]. simpl.
  destruct (truthy (dict_get d "error")); [done|].
  destruct (is_complete_news (delete "error" d) keys); [|done]. simpl.
  fold (title_of (delete "error" d)).
  by destruct (truthy (title_of (delete "error" d))).
Qed.

Lemma process_news_app keys l1 l2 seen acc :
  loop keys (l1 ++ l2) seen acc =
    match loop keys l1 seen acc with
    | Returns (acc', seen') => loop keys l2 seen' acc'
    | Raises e => Raises e
    | OutOfFuel => OutOfFuel
    end.
Proof.
  revert seen acc. induction l1 as [|[d|] l1 IH]; intros seen acc; simpl; [done| |done].
  destruct (truthy (dict_get d "error")); [done|].
  destruct (is_complete_news (delete "error" d) keys); simpl; [|done].
  fold (title_of (delete "error" d)).
  destruct (truthy (title_of (delete "error" d))); simpl; [|done].
  destruct (is_duplicate_news (title_of (delete "error" d)) seen); [|done].
  by destruct (title_of (delete "error" d)).
Qed.

End ItemLoopExtra.

(** X1.  A raw item that the validator rejects (not a dictionary, flagged
    with an error, incomplete, or with an empty title) has no effect on the
    item loop: the batch and [seen_names] are those of the list without
    it. *)
Theorem rejected_item_has_no_effect
    (is_complete_news : pydict → list string → bool)
    (is_duplicate_news : pyval → gset pyval → bool)
    (keys : list string) (before after : list item) (it : item)
    (seen_names : gset pyval) (complete_news : list pydict) :
  passes_validator is_complete_news keys it = false →
  process_news is_complete_news is_duplicate_news keys
    (before ++ it :: after) seen_names complete_news
  = process_news is_complete_news is_duplicate_news keys
      (before ++ after) seen_names complete_news.
Proof.
  intros Hrej. rewrite !process_news_app.
  destruct (process_news _ _ _ before _ _) as [[acc' seen']| |]; [|done..].
  by apply process_news_skip.
Qed.

Lemma rejected_item_has_no_effect_witness :
  process_news is_complete_news_keys is_duplicate_news_exact REQUIRED_KEYS
    ([ItemDict (article "Rates held")] ++ ItemDict untitled
       :: [ItemDict (article "Monsoon arrives")]) ∅ []
  = process_news is_complete_news_keys is_duplicate_news_exact REQUIRED_KEYS
      ([ItemDict (article "Rates held")]
         ++ [ItemDict (article "Monsoon arrives")]) ∅ [].
Proof.
  apply rejected_item_has_no_effect. by_eval.
Defined.

Section ItemLoopMore.

Variable is_complete_news : pydict → list string → bool.
Variable is_duplicate_news : pyval → gset pyval → bool.

Local Abbreviation loop := (process_news is_complete_news is_duplicate_news).

Lemma passes_validator_true keys d :
  passes_validator is_complete_news keys (ItemDict d) = true →
  truthy (dict_get d "error") = false ∧
  is_complete_news (delete "error" d) keys = true ∧
  truthy (title_of (delete "error" d)) = true.
Proof.
  simpl. intros [[Herr ?]%andb_true_iff ?]%andb_true_iff.
  apply negb_true_iff in Herr. done.
Qed.

Lemma process_news_sublist keys items seen acc res seen' :
  loop keys items seen acc = Returns (res, seen') →
  ∃ new, res = acc ++ new ∧ new `sublist_of` omap item_record items.
Proof.
  revert seen acc. induction items as [|it items IH]; intros seen acc.
  - intros [= <- <-]. exists []. by rewrite app_nil_r.
  - destruct (passes_validator is_complete_news keys it) eqn:Hpass.
    2:{ rewrite process_news_skip by done.
        intros (new & -> & Hsub)%IH. exists new. split; [done|].
        destruct it as [d|]; simpl; [by apply sublist_cons|done]. }
    destruct it as [d|]; [|done].
    apply passes_validator_true in Hpass as (Herr & Hc & Ht).
    simpl. rewrite Herr, Hc. simpl.
    fold (title_of (delete "error" d)). rewrite Ht. simpl.
    destruct (is_duplicate_news (title_of (delete "error" d)) seen).
    + destruct (title_of (delete "error" d)); [done|done|].
      intros (new & -> & Hsub)%IH. exists new. split; [done|].
      by apply sublist_cons.
    + intros (new & -> & Hsub)%IH. exists (delete "error" d :: new).
      split; [by rewrite <-app_assoc|]. by apply sublist_skip.
Qed.

Lemma process_news_all_seen keys items seen acc :
  (∀ title s, title ∈ s → is_duplicate_news title s = true) →
  (∀ it, it ∈ items → passes_validator is_complete_news keys it = true →
         item_title it ∈ seen ∧ is_str (item_title it) = true) →
  loop keys items seen acc = Returns (acc, seen).
Proof.
  intros Hdup. induction items as [|it items IH]; intros Hall; [done|].
  destruct (passes_validator is_complete_news keys it) eqn:Hpass.
  2:{ rewrite process_news_skip by done. apply IH.
      intros it' Hin. apply Hall. by right. }
  destruct (Hall it) as [Hin Hstr]; [by left|done|].
  destruct it as [d|]; [|done].
  apply passes_validator_true in Hpass as (Herr & Hc & Ht).
  simpl in Hin, Hstr. simpl. rewrite Herr, Hc. simpl.
  fold (title_of (delete "error" d)). rewrite Ht. simpl.
  rewrite (Hdup _ _ Hin).
  destruct (title_of (delete "error" d)); [done|done|].
  apply IH. intros it' Hin'. apply Hall. by right.
Qed.

Lemma process_news_raises keys items seen acc e :
  loop keys items seen acc = Raises e →
  e = TypeError ∧
  ∃ d, ItemDict d ∈ items ∧
       passes_validator is_complete_news keys (ItemDict d) = true ∧
       is_str (item_title (ItemDict d)) = false.
Proof.
  revert seen acc. induction items as [|it items IH]; intros seen acc; [done|].
  destruct (passes_validator is_complete_news keys it) eqn:Hpass.
  2:{ rewrite process_news_skip by done.
      intros (-> & d & Hin & ?)%IH. split; [done|]. exists d. split; [by right|done]. }
  destruct it as [d|]; [|done].
  pose proof Hpass as (Herr & Hc & Ht)%passes_validator_true.
  simpl. rewrite Herr, Hc. simpl.
  fold (title_of (delete "error" d)). rewrite Ht. simpl.
  destruct (is_duplicate_news (title_of (delete "error" d)) seen).
  - destruct (title_of (delete "error" d)) eqn:Htitle.
    + intros [= <-]. split; [done|]. exists d. split_and!; [by left|done|].
      simpl. by rewrite Htitle.
    + intros [= <-]. split; [done|]. exists d. split_and!; [by left|done|].
      simpl. by rewrite Htitle.
    + intros (-> & d' & Hin & ?)%IH. split; [done|]. exists d'.
      split; [by right|done].
  - intros (-> & d' & Hin & ?)%IH. split; [done|]. exists d'.
    split; [by right|done].
Qed.

End ItemLoopMore.

(** X2.  The valid batch of a page keeps the arrival order and invents
    nothing: it is a subsequence of the raw dictionaries of the page, each
    with its [error] key removed. *)
Theorem valid_batch_is_subsequence
    (is_complete_news : pydict → list string → bool)
    (is_duplicate_news : pyval → gset pyval → bool)
    (keys : list string) (items : list item)
    (seen_names seen_names' : gset pyval) (news : list pydict) :
  process_news is_complete_news is_duplicate_news keys items seen_names []
    = Returns (news, seen_names') →
  news `sublist_of` omap item_record items ∧ length news ≤ length items.
Proof.
  intros (new & Hnew & Hsub)%process_news_sublist. simpl in Hnew. subst new.
  split; [done|]. apply sublist_length in Hsub.
  etrans; [exact Hsub|]. clear.
  induction items as [|[d|] items IH];
    cbn [omap list_omap item_record length]; lia.
Qed.

Lemma valid_batch_is_subsequence_witness :
  [delete "error" (article "Rates held");
   delete "error" (article "Monsoon arrives")]
    `sublist_of` omap item_record
                   [ItemDict (article "Rates held");
                    ItemDict (article "Monsoon arrives");
                    ItemDict (article "Rates held")] ∧
  length [delete "error" (article "Rates held");
          delete "error" (article "Monsoon arrives")]
    ≤ length [ItemDict (article "Rates held");
              ItemDict (article "Monsoon arrives");
              ItemDict (article "Rates held")].
Proof.
  apply (valid_batch_is_subsequence is_complete_news_keys
           is_duplicate_news_exact REQUIRED_KEYS _ ∅
           {[PStr "Monsoon arrives"; PStr "Rates held"]}).
  by_eval.
Defined.

(** X3.  Deduplication is idempotent: once a batch was processed, processing
    the same raw items again with the resulting [seen_names] accepts nothing
    and leaves the set as it is (titles being strings, and the helper
    answering set membership). *)
Theorem dedup_is_idempotent
    (is_complete_news : pydict → list string → bool)
    (is_duplicate_news : pyval → gset pyval → bool)
    (keys : list string) (items : list item)
    (seen_names seen_names' : gset pyval) (news : list pydict) :
  (∀ title seen, is_duplicate_news title seen = true ↔ title ∈ seen) →
  (∀ it, it ∈ items → is_str (item_title it) = true) →
  process_news is_complete_news is_duplicate_news keys items seen_names []
    = Returns (news, seen_names') →
  process_news is_complete_news is_duplicate_news keys items seen_names' []
    = Returns ([], seen_names').
Proof.
  intros Hdup Hstr Hrun.
  apply (process_news_dedup _ _ Hdup _ _ _ [] news) in Hrun as (_ & _ & Hcov).
  apply process_news_all_seen.
  - intros title s. apply Hdup.
  - intros it Hin Hpass. split; [by apply Hcov|by apply Hstr].
Qed.

Lemma dedup_is_idempotent_witness :
  process_news is_complete_news_keys is_duplicate_news_exact REQUIRED_KEYS
    [ItemDict (article "Rates held"); ItemDict (article "Monsoon arrives");
     ItemDict (article "Rates held")]
    {[PStr "Monsoon arrives"; PStr "Rates held"]} []
  = Returns ([], {[PStr "Monsoon arrives"; PStr "Rates held"]}).
Proof.
  apply (dedup_is_idempotent is_complete_news_keys is_duplicate_news_exact
           REQUIRED_KEYS _ ∅ _
           [delete "error" (article "Rates held");
            delete "error" (article "Monsoon arrives")]).
  - intros title seen. apply bool_decide_eq_true.
  - intros it Hin. repeat (apply elem_of_cons in Hin as [->|Hin]; [by_eval|]).
    by apply elem_of_nil in Hin.
  - by_eval.
Defined.

(** X4.  A page fetch raises only in three ways: the crawler itself raised
    (at the probe or at the extraction call), the extracted list starts with
    an element that is no dictionary ([AttributeError] of the debug output),
    or a raw record that passes the validator has a title that is no string
    ([TypeError] of the duplicate message). *)
Theorem fetch_raises_only_if
    (is_complete_news : pydict → list string → bool)
    (is_duplicate_news : pyval → gset pyval → bool)
    (crawler : nat → reply) (page_number : nat)
    (base_url css_selector session_id : string) (keys : list string)
    (seen_names : gset pyval) (n n' : nat) (e : exn) (tr : list event) :
  fetch_and_process_page is_complete_news is_duplicate_news crawler
    page_number base_url css_selector session_id keys seen_names n
    = (Raises e, tr, n') →
  (∃ msg, e = CrawlerError msg ∧
          (crawler n = Throw msg ∨ crawler (S n) = Throw msg)) ∨
  (e = AttributeError ∧
   ∃ rest, delivered (EvExtract (page_url base_url page_number) css_selector
                        session_id (crawler (S n))) = ItemOther :: rest) ∨
  (e = TypeError ∧
   ∃ d, ItemDict d ∈ delivered (EvExtract (page_url base_url page_number)
                                  css_selector session_id (crawler (S n))) ∧
        passes_validator is_complete_news keys (ItemDict d) = true ∧
        is_str (item_title (ItemDict d)) = false).
Proof.
  rewrite fetch_unfold. cbv zeta.
  destruct (crawler n) as [r|msg] eqn:Hn.
  2:{ intros [= <- _ _]. left. exists msg. auto. }
  destruct (terminal_reply (Reply r)); [done|].
  destruct (crawler (S n)) as [r2|msg] eqn:Hn2.
  2:{ intros [= <- _ _]. left. exists msg. auto. }
  simpl. destruct (parse_extracted r2) as [items|]; [|done].
  intros [= Hp _ _]. right. unfold process_extracted in Hp.
  destruct items as [|[d|] items].
  - done.
  - right. simpl.
    destruct (process_news _ _ _ (ItemDict d :: items) _ _)
      as [[cn sn]|e'|] eqn:Hloop; [by destruct cn| |done].
    injection Hp as ->. by apply process_news_raises in Hloop.
  - left. injection Hp as <-. split; [done|]. by exists items.
Qed.

Lemma fetch_raises_only_if_witness :
  (∃ msg, CrawlerError "browser closed" = CrawlerError msg ∧
          (crawler_down 0 = Throw msg ∨ crawler_down 1 = Throw msg)) ∨
  (CrawlerError "browser closed" = AttributeError ∧
   ∃ rest, delivered (EvExtract (page_url "https://example.org" 1) "div"
                        "s" (crawler_down 1)) = ItemOther :: rest) ∨
  (CrawlerError "browser closed" = TypeError ∧
   ∃ d, ItemDict d ∈ delivered (EvExtract (page_url "https://example.org" 1)
                                  "div" "s" (crawler_down 1)) ∧
        passes_validator is_complete_news_keys REQUIRED_KEYS (ItemDict d) = true ∧
        is_str (item_title (ItemDict d)) = false).
Proof.
  apply (fetch_raises_only_if is_complete_news_keys is_duplicate_news_exact
           crawler_down 1 "https://example.org" "div" "s" REQUIRED_KEYS ∅ 0 1
           (CrawlerError "browser closed")
           [EvProbe (page_url "https://example.org" 1) "s"
              (Throw "browser closed")]).
  by_eval.
Defined.

(** X5.  A list whose first element is no dictionary makes the page fetch
    raise [AttributeError], although the item loop would skip that element:
    the retry loop does not retry, it ends with the exception. *)
Theorem first_item_not_dict_raises
    (is_complete_news : pydict → list string → bool)
    (is_duplicate_news : pyval → gset pyval → bool)
    (crawler : nat → reply) (page_number : nat) (cfg : source_config)
    (session_id : string) (seen_names : gset pyval) (n : nat)
    (r r2 : CrawlResult) (rest : list item) :
  crawler n = Reply r →
  terminal_reply (Reply r) = false →
  crawler (S n) = Reply r2 →
  parse_extracted r2 = Some (ItemOther :: rest) →
  retry_loop is_complete_news is_duplicate_news crawler 3 page_number cfg
    session_id seen_names ([], false) n
  = (Raises AttributeError,
     [EvProbe (page_url (base_url cfg) page_number) session_id (Reply r);
      EvExtract (page_url (base_url cfg) page_number) (css_selector cfg)
        session_id (Reply r2)],
     S (S n)).
Proof.
  intros Hn Ht Hn2 Hparse. apply retry_loop_raises.
  rewrite fetch_unfold. cbv zeta. by rewrite Hn, Ht, Hn2, Hparse.
Qed.

Lemma first_item_not_dict_raises_witness :
  retry_loop is_complete_news_keys is_duplicate_news_exact crawler_stray 3 1
    moneycontrol_config "moneycontrol_session" ∅ ([], false) 0
  = (Raises AttributeError,
     [EvProbe (page_url (base_url moneycontrol_config) 1)
        "moneycontrol_session" page_without_marker;
      EvExtract (page_url (base_url moneycontrol_config) 1)
        (css_selector moneycontrol_config) "moneycontrol_session"
        (extraction [ItemOther; ItemDict (article "Rates held")])], 2).
Proof.
  apply (first_item_not_dict_raises is_complete_news_keys
           is_duplicate_news_exact crawler_stray 1 moneycontrol_config
           "moneycontrol_session" ∅ 0 _ _ [ItemDict (article "Rates held")]);
    reflexivity.
Defined.

(** X6.  An extraction result that is a single object is handled like the
    list with that one object, also when the object carries the error flag:
    the two fetches end with the same result. *)
Theorem single_object_is_one_element_batch
    (is_complete_news : pydict → list string → bool)
    (is_duplicate_news : pyval → gset pyval → bool)
    (crawler1 crawler2 : nat → reply) (page_number : nat)
    (base_url css_selector session_id : string) (keys : list string)
    (seen_names : gset pyval) (n : nat) (r1 r2 : CrawlResult) (d : pydict) :
  crawler1 n = crawler2 n →
  crawler1 (S n) = Reply r1 → crawler2 (S n) = Reply r2 →
  success r1 = success r2 →
  extracted_content r1 = Some (JDict d) →
  extracted_content r2 = Some (JList [ItemDict d]) →
  (fetch_and_process_page is_complete_news is_duplicate_news crawler1
     page_number base_url css_selector session_id keys seen_names n).1.1
  = (fetch_and_process_page is_complete_news is_duplicate_news crawler2
       page_number base_url css_selector session_id keys seen_names n).1.1.
Proof.
  intros Hn H1 H2 Hs Hc1 Hc2. rewrite !fetch_unfold. cbv zeta.
  rewrite <-Hn, H1, H2.
  destruct (crawler1 n) as [r|msg]; [|done].
  destruct (terminal_reply (Reply r)); [done|].
  unfold parse_extracted. rewrite <-Hs, Hc1, Hc2.
  destruct (success r1); [|done].
  destruct (truthy (dict_get d "error")) eqn:Herr; [|done].
  unfold process_extracted. cbn [process_news]. by rewrite Herr.
Qed.

Lemma single_object_is_one_element_batch_witness :
  (fetch_and_process_page is_complete_news_keys is_duplicate_news_exact
     crawler_object 1 "https://example.org" "div" "s" REQUIRED_KEYS ∅ 0).1.1
  = (fetch_and_process_page is_complete_news_keys is_duplicate_news_exact
       crawler_stale 1 "https://example.org" "div" "s" REQUIRED_KEYS ∅ 0).1.1.
Proof.
  apply (single_object_is_one_element_batch is_complete_news_keys
           is_duplicate_news_exact crawler_object crawler_stale 1
           "https://example.org" "div" "s" REQUIRED_KEYS ∅ 0
           {| success := true; cleaned_html := EmptyString;
              extracted_content := Some (JDict (article "Rates held")) |}
           {| success := true; cleaned_html := EmptyString;
              extracted_content :=
                Some (JList [ItemDict (article "Rates held")]) |}
           (article "Rates held")); reflexivity.
Defined.

(** X7.  A page fetch that returns never carries news together with the
    no-results flag; [seen_names] grows by exactly the titles of the returned
    batch, never loses a title, and the fetch has made one crawler call when
    the flag is set and two otherwise. *)
Theorem fetch_result_shape
    (is_complete_news : pydict → list string → bool)
    (is_duplicate_news : pyval → gset pyval → bool)
    (crawler : nat → reply) (page_number : nat)
    (base_url css_selector session_id : string) (keys : list string)
    (seen_names seen_names' : gset pyval) (n n' : nat)
    (news : list pydict) (no_results_found : bool) (tr : list event) :
  fetch_and_process_page is_complete_news is_duplicate_news crawler
    page_number base_url css_selector session_id keys seen_names n
    = (Returns (news, no_results_found, seen_names'), tr, n') →
  seen_names' = list_to_set (title_of <$> news) ∪ seen_names ∧
  seen_names ⊆ seen_names' ∧
  (no_results_found = true → news = [] ∧ n' = S n ∧ length tr = 1) ∧
  (no_results_found = false → n' = S (S n) ∧ length tr = 2).
Proof.
  intros Hrun.
  assert (seen_names' = list_to_set (title_of <$> news) ∪ seen_names) as Hs.
  { apply fetch_returns in Hrun
      as [(_ & -> & -> & _)|(_ & _ & _ & _ & [(-> & -> & _)|(items & _ & Hp)])].
    - clear. set_solver.
    - clear. set_solver.
    - by apply process_news_returns in Hp as (new & -> & -> & _). }
  split; [done|]. split; [rewrite Hs; clear; set_solver|].
  apply fetch_returns in Hrun
    as [(-> & -> & _ & -> & -> & _)|(-> & -> & -> & _)]; by split.
Qed.

Lemma fetch_result_shape_witness :
  ({[PStr "Rates held"]} : gset pyval)
    = list_to_set (title_of <$> [delete "error" (article "Rates held")]) ∪ ∅ ∧
  (∅ : gset pyval) ⊆ {[PStr "Rates held"]} ∧
  (false = true →
   [delete "error" (article "Rates held")] = [] ∧ 2 = 1 ∧
   length [EvProbe (page_url "https://example.org" 1) "s" page_without_marker;
           EvExtract (page_url "https://example.org" 1) "div" "s"
             (extraction [ItemDict (article "Rates held")])] = 1) ∧
  (false = false →
   2 = 2 ∧
   length [EvProbe (page_url "https://example.org" 1) "s" page_without_marker;
           EvExtract (page_url "https://example.org" 1) "div" "s"
             (extraction [ItemDict (article "Rates held")])] = 2).
Proof.
  apply (fetch_result_shape is_complete_news_keys is_duplicate_news_exact
           crawler_stale 1 "https://example.org" "div" "s" REQUIRED_KEYS ∅
           {[PStr "Rates held"]} 0 2
           [delete "error" (article "Rates held")] false
           [EvProbe (page_url "https://example.org" 1) "s" page_without_marker;
            EvExtract (page_url "https://example.org" 1) "div" "s"
              (extraction [ItemDict (article "Rates held")])]).
  by_eval.
Defined.

(** ** Strings *)

Lemma string_app_length (s t : string) :
  String.length (s +:+ t) = String.length s + String.length t.
Proof. induction s as [|a s IH]; simpl; [done|]. by rewrite IH. Qed.

Lemma string_app_inv_tail (s1 s2 t : string) : s1 +:+ t = s2 +:+ t → s1 = s2.
Proof.
  revert s2. induction s1 as [|a s1 IH]; intros [|b s2] Heq.
  - done.
  - apply (f_equal String.length) in Heq.
    rewrite !string_app_length in Heq. simpl in Heq. lia.
  - apply (f_equal String.length) in Heq.
    rewrite !string_app_length in Heq. simpl in Heq. lia.
  - injection Heq as -> Heq. f_equal. by apply IH.
Qed.


Lemma prefix_spec (s1 s2 : string) :
  String.prefix s1 s2 = true ↔ ∃ post, s2 = s1 +:+ post.
Proof.
  revert s1. induction s2 as [|b s2 IH]; intros [|a s1]; simpl.
  - split; [by exists EmptyString|done].
  - split; [done|]. by intros [post ?].
  - split; [by eexists|done].
  - destruct (Ascii.ascii_dec a b) as [->|Hne].
    + rewrite IH. split; intros [post Hp]; exists post; [by rewrite Hp|].
      by injection Hp.
    + split; [done|]. intros [post Hp]. by injection Hp as <- _.
Qed.

(** Python's [needle in hay]: the needle occurs somewhere in the string. *)
Lemma contains_spec (needle hay : string) :
  contains needle hay = true ↔ ∃ pre post, hay = pre +:+ needle +:+ post.
Proof.
  induction hay as [|c hay IH]; cbn [contains].
  - rewrite orb_false_r, prefix_spec. split.
    + intros [post Hp]. by exists EmptyString, post.
    + intros ([|c pre] & post & Hp); [by exists post|done].
  - rewrite orb_true_iff, prefix_spec, IH. split.
    + intros [[post Hp]|(pre & post & Hp)].
      * by exists EmptyString, post.
      * exists (String c pre), post. simpl. by rewrite Hp.
    + intros ([|c' pre] & post & Hp).
      * left. by exists post.
      * right. injection Hp as <- Hp. by exists pre, post.
Qed.

Lemma page_url_eq (base_url : string) (p q : nat) :
  page_url base_url p = page_url base_url q → p = q.
Proof.
  unfold page_url. intros Heq.
  apply (inj (String.app base_url)) in Heq.
  apply (inj (String.app "/page-")) in Heq.
  apply string_app_inv_tail in Heq. by apply (inj pretty) in Heq.
Qed.

(** X8.  Different page numbers give different page URLs, so the fetches of
    one page are never counted for another. *)
Theorem page_url_inj (base_url : string) (p q : nat) :
  p ≠ q →
  page_url base_url p ≠ page_url base_url q ∧
  ∀ session_id r,
    is_probe_of (page_url base_url q)
      (EvProbe (page_url base_url p) session_id r) = false.
Proof.
  intros Hne. split.
  - by intros ?%page_url_eq.
  - intros session_id r. simpl. apply bool_decide_eq_false.
    by intros ?%page_url_eq.
Qed.

Lemma page_url_inj_witness :
  page_url (base_url moneycontrol_config) 2
    ≠ page_url (base_url moneycontrol_config) 12 ∧
  ∀ session_id r,
    is_probe_of (page_url (base_url moneycontrol_config) 12)
      (EvProbe (page_url (base_url moneycontrol_config) 2) session_id r)
    = false.
Proof. apply (page_url_inj (base_url moneycontrol_config) 2 12). lia. Defined.

(** X9.  The terminal-condition probe answers [True] exactly when the crawl
    succeeded and the text No Results Found occurs somewhere in the cleaned
    HTML; it makes one crawler call, and a failed crawl is answered [False],
    not raised. *)
Theorem check_no_results_spec (crawler : nat → reply)
    (url session_id : string) (n : nat) :
  (check_no_results crawler url session_id n
     = (Returns true, [EvProbe url session_id (crawler n)], S n)
   ↔ ∃ r pre post,
       crawler n = Reply r ∧ success r = true ∧
       cleaned_html r = pre +:+ "No Results Found" +:+ post) ∧
  (∀ r, crawler n = Reply r → success r = false →
        check_no_results crawler url session_id n
          = (Returns false, [EvProbe url session_id (crawler n)], S n)) ∧
  (∀ o tr n', check_no_results crawler url session_id n = (o, tr, n') →
              tr = [EvProbe url session_id (crawler n)] ∧ n' = S n).
Proof.
  unfold check_no_results, arun, bind, ret.
  destruct (crawler n) as [r|msg] eqn:Hn; simpl.
  - pose proof (contains_spec "No Results Found" (cleaned_html r)) as Hc.
    destruct (success r) eqn:Hs;
      [destruct (contains "No Results Found" (cleaned_html r)) eqn:Hm|].
    + split_and!.
      * split; [|done]. intros _. destruct Hc as [(pre & post & ?) _]; [done|].
        by exists r, pre, post.
      * intros ? [= <-] ?. congruence.
      * by intros o tr n' [= <- <- <-].
    + split_and!.
      * split; [done|]. intros (r' & pre & post & [= <-] & _ & Hp).
        assert (false = true) as Hfalse; [|done].
        apply Hc. by exists pre, post.
      * intros ? [= <-] ?. congruence.
      * by intros o tr n' [= <- <- <-].
    + split_and!.
      * split; [done|]. intros (r' & pre & post & [= <-] & ? & _). congruence.
      * by intros ? [= <-] ?.
      * by intros o tr n' [= <- <- <-].
  - split_and!.
    + split; [done|]. by intros (r & ? & ? & ? & _).
    + done.
    + by intros o tr n' [= <- <- <-].
Qed.

Lemma check_no_results_spec_witness :
  check_no_results crawler_scenario "https://example.org/page-2/" "s" 2
    = (Returns true,
       [EvProbe "https://example.org/page-2/" "s" (crawler_scenario 2)], 3).
Proof.
  apply (check_no_results_spec crawler_scenario "https://example.org/page-2/"
           "s" 2).
  exists {| success := true; cleaned_html := "<p>No Results Found</p>";
            extracted_content := None |}, "<p>", "</p>".
  split_and!; reflexivity.
Defined.

(** ** The session of a paginated source *)

Lemma count_events_app p tr1 tr2 :
  count_events p (tr1 ++ tr2) = count_events p tr1 + count_events p tr2.
Proof. unfold count_events. by rewrite List.filter_app, length_app. Qed.

Lemma count_events_nil p : count_events p [] = 0.
Proof. done. Qed.

Lemma count_events_cons p e tr :
  count_events p (e :: tr) = (if p e then 1 else 0) + count_events p tr.
Proof. unfold count_events. simpl. by destruct (p e). Qed.

Lemma count_events_zero p tr :
  Forall (λ e, p e = false) tr → count_events p tr = 0.
Proof.
  induction 1 as [|e tr He _ IH]; [done|].
  by rewrite count_events_cons, He, IH.
Qed.

Lemma session_event_mono name cfg environ lo lo' e :
  lo' ≤ lo → lo ≤ 21 →
  session_event name cfg environ lo e → session_event name cfg environ lo' e.
Proof.
  intros Hle Hlo. destruct e; simpl; try done.
  - intros [? (p & ? & ?)]. split; [done|]. exists p. split; [lia|done].
  - intros (? & ? & p & ? & ?). split_and!; [done..|]. exists p. split; [lia|done].
Qed.

Section SessionBounds.

Variable is_complete_news : pydict → list string → bool.
Variable is_duplicate_news : pyval → gset pyval → bool.
Variable crawler : nat → reply.
Variable environ : gmap string string.

Local Abbreviation attempt p cfg sid :=
  (fetch_and_process_page is_complete_news is_duplicate_news crawler
     p (base_url cfg) (css_selector cfg) sid REQUIRED_KEYS).
Local Abbreviation retry :=
  (retry_loop is_complete_news is_duplicate_news crawler).
Local Abbreviation pages :=
  (crawl_pages is_complete_news is_duplicate_news crawler).
Local Abbreviation source :=
  (crawl_scraper_source is_complete_news is_duplicate_news crawler environ).

Lemma attempt_calls p cfg sid seen n o t1 n1 :
  attempt p cfg sid seen n = (o, t1, n1) → n < n1 ≤ n + 2.
Proof. intros [_ [[_ ->]|(_ & -> & _)]]%fetch_trace; lia. Qed.

Lemma attempt_labelled name p cfg seen n o t1 n1 :
  attempt p cfg (name +:+ "_session") seen n = (o, t1, n1) →
  Forall (session_event name cfg environ p) t1.
Proof.
  intros [-> | ->]%attempt_shape; repeat constructor; simpl;
    try (exists p; split; [lia|done]); done.
Qed.

Lemma retry_loop_calls k p cfg sid seen last n o tr n' :
  retry k p cfg sid seen last n = (o, tr, n') → n ≤ n' ≤ n + 2 * k.
Proof.
  revert seen last n o tr n'. induction k as [|k IH]; intros seen last n o tr n'.
  { intros [= <- <- <-]. lia. }
  destruct (attempt p cfg sid seen n) as [[[[[r1 f1] s1]|e|] t1] n1] eqn:Hatt.
  - pose proof Hatt as ?%attempt_calls.
    rewrite (retry_loop_step _ _ _ _ _ _ _ _ _ _ _ _ _ _ _ Hatt).
    destruct (negb (is_nil r1) || f1); [intros [= <- <- <-]; lia|].
    destruct (retry k p cfg sid s1 (r1, f1) n1) as [[o2 t2] n2] eqn:Hrec.
    intros [= <- <- <-]. apply IH in Hrec. lia.
  - pose proof Hatt as ?%attempt_calls.
    rewrite (retry_loop_raises _ _ _ _ _ _ _ _ _ _ _ _ _ Hatt).
    intros [= <- <- <-]. lia.
  - by apply fetch_trace in Hatt as [? _].
Qed.

Lemma retry_loop_labelled name k p cfg seen last n o tr n' :
  retry k p cfg (name +:+ "_session") seen last n = (o, tr, n') →
  Forall (session_event name cfg environ p) tr.
Proof.
  revert seen last n o tr n'. induction k as [|k IH]; intros seen last n o tr n'.
  { intros [= <- <- <-]. constructor. }
  destruct (attempt p cfg (name +:+ "_session") seen n)
    as [[[[[r1 f1] s1]|e|] t1] n1] eqn:Hatt.
  - pose proof Hatt as ?%attempt_labelled.
    rewrite (retry_loop_step _ _ _ _ _ _ _ _ _ _ _ _ _ _ _ Hatt).
    destruct (negb (is_nil r1) || f1); [by intros [= <- <- <-]|].
    destruct (retry k p cfg (name +:+ "_session") s1 (r1, f1) n1)
      as [[o2 t2] n2] eqn:Hrec.
    intros [= <- <- <-]. apply IH in Hrec.
    apply Forall_app. split; [done|]. constructor; [by left|done].
  - pose proof Hatt as ?%attempt_labelled.
    rewrite (retry_loop_raises _ _ _ _ _ _ _ _ _ _ _ _ _ Hatt).
    by intros [= <- <- <-].
  - by apply fetch_trace in Hatt as [? _].
Qed.

(** The fetch attempts of a retry loop are all for its own page. *)
Lemma retry_loop_other_page k p q cfg sid seen last n o tr n' :
  q ≠ p →
  retry k p cfg sid seen last n = (o, tr, n') →
  fetch_attempts (page_url (base_url cfg) q) tr = 0.
Proof.
  intros Hne (_ & _ & _ & Hev)%retry_loop_trace.
  apply count_events_zero. eapply Forall_impl; [exact Hev|].
  intros [u s r| | | | |]; simpl; try done.
  unfold page_event. simpl. rewrite !orb_false_r.
  intros ->%bool_decide_eq_true. apply bool_decide_eq_false.
  intros ?%page_url_eq. done.
Qed.

Lemma crawl_pages_bounds fuel name cfg p all_news seen n o tr n' :
  pages fuel cfg (name +:+ "_session")
    (default "news-events" (environ !! "KAFKA_TOPIC")) p all_news seen n
    = (o, tr, n') →
  Forall (session_event name cfg environ p) tr ∧
  n ≤ n' ≤ n + 6 * S (21 - p) ∧
  count_events is_kafka tr ≤ S (21 - p) ∧
  count_events is_csv tr = 0 ∧
  ∀ q, fetch_attempts (page_url (base_url cfg) q) tr ≤ 3.
Proof.
  revert p all_news seen n o tr n'.
  induction fuel as [|fuel IH]; intros p all_news seen n o tr n'.
  { intros [= <- <- <-]. split_and!; [constructor|lia|lia|cbv; lia|done|].
    intros q. cbv. lia. }
  destruct (retry 3 p cfg (name +:+ "_session") seen ([], false) n)
    as [[[[[news flag] s1]|e|] t1] n1] eqn:Hr.
  - pose proof Hr as Hlab%retry_loop_labelled.
    pose proof Hr as Hcalls%retry_loop_calls.
    pose proof Hr as (_ & Hatt & _ & Hev)%retry_loop_trace.
    assert (count_events is_kafka t1 = 0 ∧ count_events is_csv t1 = 0)
      as [Hk1 Hc1].
    { split; apply count_events_zero; (eapply Forall_impl; [exact Hev|]);
        by intros []. }
    assert (∀ q, fetch_attempts (page_url (base_url cfg) q) t1 ≤ 3) as Hq1.
    { intros q. destruct (decide (q = p)) as [->|Hne]; [done|].
      rewrite (retry_loop_other_page _ _ _ _ _ _ _ _ _ _ _ Hne Hr). lia. }
    rewrite (crawl_pages_step _ _ _ _ _ _ _ _ _ _ _ _ _ _ _ _ Hr).
    destruct flag; [intros [= <- <- <-]; split_and!; [done|lia|lia|lia|done|done]|].
    destruct (is_nil news) eqn:Hnil;
      [intros [= <- <- <-]; split_and!; [done|lia|lia|lia|done|done]|].
    assert (news ≠ []) as Hnews by (by destruct news).
    destruct (20 <? p) eqn:Hp.
    { intros [= <- <- <-].
      rewrite !count_events_app, !count_events_cons, Hk1, Hc1.
      rewrite !count_events_nil.
      split_and!; [|lia|lia|simpl; lia|simpl; lia|].
      - apply Forall_app. split; [done|]. by repeat constructor.
      - intros q. unfold fetch_attempts. rewrite count_events_app.
        specialize (Hq1 q). unfold fetch_attempts in Hq1.
        rewrite count_events_cons, count_events_nil. simpl. lia. }
    apply Nat.ltb_ge in Hp.
    destruct (pages fuel cfg (name +:+ "_session")
                (default "news-events" (environ !! "KAFKA_TOPIC")) (p + 1)
                (all_news ++ news) s1 n1) as [[o2 t2] n2] eqn:Hrec.
    intros [= <- <- <-].
    pose proof Hrec as (Hlab2 & Hcalls2 & Hk2 & Hc2 & Hq2)%IH.
    rewrite !count_events_app, !count_events_cons, Hk1, Hc1, Hc2.
    replace (21 - (p + 1)) with (20 - p) in * by lia.
    replace (21 - p) with (S (20 - p)) by lia.
    split_and!; [|lia|lia|simpl; lia|simpl; lia|].
    + apply Forall_app. split; [done|].
      constructor; [done|]. constructor; [by right|].
      eapply Forall_impl; [exact Hlab2|]. intros e.
      apply session_event_mono; lia.
    + intros q. unfold fetch_attempts. rewrite count_events_app, !count_events_cons.
      simpl.
      destruct (decide (q = p)) as [->|Hne].
      * assert (fetch_attempts (page_url (base_url cfg) p) t2 = 0) as Hzero.
        { apply count_events_zero. eapply Forall_impl; [exact Hlab2|].
          intros [u s r| | | | |]; simpl; try done.
          intros [_ (p' & Hp' & ->)]. apply bool_decide_eq_false.
          intros ?%page_url_eq. lia. }
        unfold fetch_attempts in Hzero, Hatt. rewrite Hzero. lia.
      * pose proof (retry_loop_other_page _ _ _ _ _ _ _ _ _ _ _ Hne Hr) as Hz.
        specialize (Hq2 q). unfold fetch_attempts in Hq2, Hz. lia.
  - pose proof Hr as Hlab%retry_loop_labelled.
    pose proof Hr as Hcalls%retry_loop_calls.
    pose proof Hr as (_ & Hatt & _ & Hev)%retry_loop_trace.
    rewrite (crawl_pages_raises _ _ _ _ _ _ _ _ _ _ _ _ _ _ Hr).
    intros [= <- <- <-].
    assert (count_events is_kafka t1 = 0 ∧ count_events is_csv t1 = 0)
      as [Hk1 Hc1].
    { split; apply count_events_zero; (eapply Forall_impl; [exact Hev|]);
        by intros []. }
    split_and!; [done|lia|lia|lia|done|].
    intros q. destruct (decide (q = p)) as [->|Hne]; [done|].
    rewrite (retry_loop_other_page _ _ _ _ _ _ _ _ _ _ _ Hne Hr). lia.
  - by apply retry_loop_trace in Hr as [? _].
Qed.

End SessionBounds.

(** X10.  Every event of the session of a paginated source, for every
    crawler: crawler calls carry the session identifier [<name>_session], the
    source's selector and the URL of one of the pages 1 to 21; the session
    sleeps 5 or 2 seconds; a publish goes to the topic of [KAFKA_TOPIC]
    (default [news-events]) and is never empty; the snapshot goes to
    [<name>_news.csv] and is never empty; no API request is made. *)
Theorem session_events_are_labelled
    (is_complete_news : pydict → list string → bool)
    (is_duplicate_news : pyval → gset pyval → bool)
    (crawler : nat → reply) (environ : gmap string string)
    (name : string) (cfg : source_config) (n n' : nat)
    (o : outcome (list pydict)) (tr : list event) :
  crawl_scraper_source is_complete_news is_duplicate_news crawler environ
    name cfg n = (o, tr, n') →
  Forall (session_event name cfg environ 1) tr.
Proof.
  destruct (falsy_env (environ !! gemini_key_env cfg)) eqn:Hkey.
  { rewrite crawl_scraper_source_skip by done. intros [= <- <- <-].
    constructor. }
  intros (oc & trc & Hp & Hcase)%crawl_scraper_source_run; [|done].
  apply crawl_pages_bounds in Hp as (Hlab & _).
  destruct Hcase as [(all_news & -> & -> & ->)|(e & -> & -> & ->)]; [|done].
  apply Forall_app. split; [done|].
  destruct all_news; repeat constructor. done.
Qed.

Lemma session_events_are_labelled_witness :
  Forall (session_event "moneycontrol" moneycontrol_config example_environ 1)
    scenario_trace.
Proof.
  apply (session_events_are_labelled is_complete_news_keys
           is_duplicate_news_exact crawler_scenario example_environ
           "moneycontrol" moneycontrol_config 0 3 (Returns scenario_news)).
  by_eval.
Defined.

(** X11.  The size of a session, for every crawler: at most 126 crawler
    calls, at most 3 fetch attempts of any page and none of a page beyond 21
    (or of page 0), at most 21 publishes and at most one snapshot. *)
Theorem session_is_bounded
    (is_complete_news : pydict → list string → bool)
    (is_duplicate_news : pyval → gset pyval → bool)
    (crawler : nat → reply) (environ : gmap string string)
    (name : string) (cfg : source_config) (n n' : nat)
    (o : outcome (list pydict)) (tr : list event) :
  crawl_scraper_source is_complete_news is_duplicate_news crawler environ
    name cfg n = (o, tr, n') →
  n ≤ n' ≤ n + 126 ∧
  (∀ q, fetch_attempts (page_url (base_url cfg) q) tr ≤ 3) ∧
  (∀ q, q = 0 ∨ 21 < q →
        fetch_attempts (page_url (base_url cfg) q) tr = 0) ∧
  count_events is_kafka tr ≤ 21 ∧
  count_events is_csv tr ≤ 1.
Proof.
  destruct (falsy_env (environ !! gemini_key_env cfg)) eqn:Hkey.
  { rewrite crawl_scraper_source_skip by done. intros [= <- <- <-].
    split_and!; [lia|lia|intros; cbv; lia|done|cbv; lia|cbv; lia]. }
  intros (oc & trc & Hp & Hcase)%crawl_scraper_source_run; [|done].
  apply crawl_pages_bounds in Hp as (Hlab & Hcalls & Hk & Hc & Hq).
  assert (∀ q, q = 0 ∨ 21 < q →
            fetch_attempts (page_url (base_url cfg) q) trc = 0) as Hout.
  { intros q Hrange. apply count_events_zero.
    eapply Forall_impl; [exact Hlab|].
    intros [u s r| | | | |]; simpl; try done.
    intros [_ (p & Hp & ->)]. apply bool_decide_eq_false.
    intros ?%page_url_eq. lia. }
  assert (∀ q tail, Forall (λ e, is_csv e = true) tail →
            fetch_attempts (page_url (base_url cfg) q) (trc ++ tail)
            = fetch_attempts (page_url (base_url cfg) q) trc) as Htail.
  { intros q tail Htail. unfold fetch_attempts.
    rewrite count_events_app, (count_events_zero _ tail); [lia|].
    eapply Forall_impl; [exact Htail|]. by intros []. }
  destruct Hcase as [(all_news & -> & -> & ->)|(e & -> & -> & ->)].
  - set (tail := if is_nil all_news then []
                 else [EvCsv all_news (name +:+ "_news.csv")]).
    assert (Forall (λ e, is_csv e = true) tail) as Hcsv.
    { subst tail. destruct all_news; by repeat constructor. }
    assert (count_events is_csv tail ≤ 1) as Hone.
    { subst tail. destruct all_news; cbv; lia. }
    rewrite !count_events_app, Hc.
    split_and!; [lia|simpl in Hcalls; lia| | | |].
    + intros q. by rewrite Htail.
    + intros q Hrange. rewrite Htail by done. by apply Hout.
    + rewrite (count_events_zero is_kafka tail); [simpl in Hk; lia|].
      eapply Forall_impl; [exact Hcsv|]. by intros [].
    + lia.
  - split_and!; [lia|simpl in Hcalls; lia|done|done|simpl in Hk; lia|lia].
Qed.

Lemma session_is_bounded_witness :
  0 ≤ 3 ≤ 0 + 126 ∧
  (∀ q, fetch_attempts (page_url (base_url moneycontrol_config) q)
          scenario_trace ≤ 3) ∧
  (∀ q, q = 0 ∨ 21 < q →
        fetch_attempts (page_url (base_url moneycontrol_config) q)
          scenario_trace = 0) ∧
  count_events is_kafka scenario_trace ≤ 21 ∧
  count_events is_csv scenario_trace ≤ 1.
Proof.
  apply (session_is_bounded is_complete_news_keys is_duplicate_news_exact
           crawler_scenario example_environ "moneycontrol"
           moneycontrol_config 0 3 (Returns scenario_news)).
  by_eval.
Defined.

(** X12.  A session that ends with an exception writes no snapshot, whatever
    it had published before. *)
Theorem crash_loses_snapshot
    (is_complete_news : pydict → list string → bool)
    (is_duplicate_news : pyval → gset pyval → bool)
    (crawler : nat → reply) (environ : gmap string string)
    (name : string) (cfg : source_config) (n n' : nat)
    (e : exn) (tr : list event) :
  crawl_scraper_source is_complete_news is_duplicate_news crawler environ
    name cfg n = (Raises e, tr, n') →
  count_events is_csv tr = 0 ∧ snapshot tr = [] ∧
  Forall (checked is_complete_news REQUIRED_KEYS) (forwarded tr).
Proof.
  intros Hrun.
  destruct (falsy_env (environ !! gemini_key_env cfg)) eqn:Hkey.
  { by rewrite crawl_scraper_source_skip in Hrun. }
  pose proof Hrun as (Hck & _ & Hsn)%crawl_scraper_source_sink.
  apply crawl_scraper_source_run in Hrun
    as (oc & trc & Hp & [(? & _ & [=] & _)|(e' & _ & _ & ->)]); [|done].
  apply crawl_pages_bounds in Hp as (_ & _ & _ & Hc & _).
  split_and!; [done|by eapply Hsn|done].
Qed.

Lemma crash_loses_snapshot_witness :
  count_events is_csv crash_trace = 0 ∧ snapshot crash_trace = [] ∧
  Forall (checked is_complete_news_keys REQUIRED_KEYS) (forwarded crash_trace).
Proof.
  apply (crash_loses_snapshot is_complete_news_keys is_duplicate_news_exact
           crawler_crash example_environ "moneycontrol" moneycontrol_config
           0 3 (CrawlerError "browser closed")).
  by_eval.
Defined.

(** ** The one-shot source *)

Section OneShotSink.

Variable http : string → http_reply.
Variable environ : gmap string string.

Lemma crawl_api_source_answer name cfg n api_key :
  environ !! "NEWSDATA_API_KEY" = Some api_key → api_key ≠ EmptyString →
  falsy_env (environ !! gemini_key_env cfg) = false →
  crawl_api_source http environ name cfg n
    = (Returns (newsdata_record <$> api_results (http api_key)),
       EvApiGet api_key (http api_key)
       :: (if is_nil (api_results (http api_key)) then []
           else [EvKafka (newsdata_record <$> api_results (http api_key))
                   (default "news-events" (environ !! "KAFKA_TOPIC"));
                 EvCsv (newsdata_record <$> api_results (http api_key))
                   (name +:+ "_news.csv")]),
       n).
Proof.
  intros Hkey Hne Hgem. unfold crawl_api_source.
  rewrite Hkey, Hgem. cbn [falsy_env default].
  destruct (String.eqb api_key EmptyString) eqn:Heq.
  { by apply String.eqb_eq in Heq. }
  assert (fetch_newsdata_api http api_key n
          = (Returns (api_results (http api_key)),
             [EvApiGet api_key (http api_key)], n)) as Hraw.
  { unfold fetch_newsdata_api, api_results, bind, emit, ret.
    destruct (http api_key) as [|status results]; [done|].
    by destruct (bool_decide _). }
  rewrite (bind_returns _ _ _ _ _ _ Hraw).
  rewrite process_newsdata_with_gemini_map.
  unfold bind, ret, send_news_to_kafka, save_news_to_csv, emit.
  by destruct (api_results (http api_key)).
Qed.

Lemma crawl_api_source_cases name cfg n :
  ∃ news,
    (crawl_api_source http environ name cfg n = (Returns [], [], n) ∧ news = []
     ∨ crawl_api_source http environ name cfg n
       = (Returns news,
          EvApiGet (default EmptyString (environ !! "NEWSDATA_API_KEY"))
            (http (default EmptyString (environ !! "NEWSDATA_API_KEY")))
          :: (if is_nil news then []
              else [EvKafka news (default "news-events" (environ !! "KAFKA_TOPIC"));
                    EvCsv news (name +:+ "_news.csv")]),
          n)).
Proof.
  destruct (falsy_env (environ !! "NEWSDATA_API_KEY")) eqn:H1.
  { exists []. left. by rewrite crawl_api_source_skip by auto. }
  destruct (falsy_env (environ !! gemini_key_env cfg)) eqn:H2.
  { exists []. left. by rewrite crawl_api_source_skip by auto. }
  destruct (crawl_api_source_run http environ name cfg n H1 H2) as [raw Hrun].
  exists (newsdata_record <$> raw). by right.
Qed.

End OneShotSink.

Section Totals.

Variable is_complete_news : pydict → list string → bool.
Variable is_duplicate_news : pyval → gset pyval → bool.
Variable crawlers : string → nat → reply.
Variable http : string → http_reply.
Variable environ : gmap string string.

Local Abbreviation work :=
  (unit_of_work is_complete_news is_duplicate_news crawlers http environ).
Local Abbreviation main' :=
  (main is_complete_news is_duplicate_news crawlers http environ).

(** What a unit of work counts is what it wrote to its snapshot. *)
Lemma unit_of_work_count src o tr :
  work src = Some (o, tr) →
  completed_count (Some (o, tr)) = length (snapshot tr) ∧
  completed_count (Some (o, tr)) ≤ length (forwarded tr).
Proof.
  unfold unit_of_work, make_task.
  destruct (String.eqb (type_ src.2) "scraper").
  { simpl.
    destruct (crawl_scraper_source _ _ _ _ _ _ 0) as [[o' tr'] n'] eqn:Hrun.
    intros [= <- <-].
    pose proof Hrun as ?%crawl_scraper_source_total.
    apply crawl_scraper_source_sink in Hrun as (_ & Hret & Hraise).
    destruct o' as [news|e|]; [| |done]; simpl.
    - destruct (Hret _ eq_refl) as [-> ->]. done.
    - rewrite (Hraise _ eq_refl). simpl. split; [done|lia]. }
  destruct (String.eqb (type_ src.2) "api"); [|done]. simpl.
  destruct (crawl_api_source_cases http environ src.1 src.2 0)
    as [news [[-> ->]| ->]]; intros [= <- <-]; [done|].
  destruct news as [|item news]; [done|].
  unfold snapshot, forwarded. simpl. by rewrite app_nil_r.
Qed.

Lemma main_app l1 l2 :
  lines (main' (l1 ++ l2)) = lines (main' l1) ++ lines (main' l2) ∧
  total_news (main' (l1 ++ l2)) = total_news (main' l1) + total_news (main' l2) ∧
  traces (main' (l1 ++ l2)) = traces (main' l1) ++ traces (main' l2).
Proof.
  destruct (main_spec is_complete_news is_duplicate_news crawlers http environ
              (l1 ++ l2)) as (-> & -> & ->).
  destruct (main_spec is_complete_news is_duplicate_news crawlers http environ
              l1) as (-> & -> & ->).
  destruct (main_spec is_complete_news is_duplicate_news crawlers http environ
              l2) as (-> & -> & ->).
  rewrite !omap_app, fmap_app, sum_list_with_app. done.
Qed.

Lemma summary_eq (s1 s2 : summary) :
  lines s1 = lines s2 → total_news s1 = total_news s2 →
  traces s1 = traces s2 → s1 = s2.
Proof. destruct s1, s2; simpl; by intros -> -> ->. Qed.

End Totals.

(** X13.  The one-shot source, for every endpoint and environment: it ends
    normally, makes no crawler call and at most one request, and the list it
    returns is exactly what it published and exactly what it wrote to its
    snapshot. *)
Theorem api_source_sink (http : string → http_reply)
    (environ : gmap string string) (name : string) (cfg : source_config)
    (n n' : nat) (o : outcome (list pydict)) (tr : list event) :
  crawl_api_source http environ name cfg n = (o, tr, n') →
  ∃ news, o = Returns news ∧ n' = n ∧
          forwarded tr = news ∧ snapshot tr = news ∧
          count_events is_api_get tr ≤ 1 ∧
          Forall (λ e, api_event e = true) tr.
Proof.
  destruct (crawl_api_source_cases http environ name cfg n)
    as [news [[-> ->]| ->]];
    intros [= <- <- <-]; eexists; (split; [done|]).
  - split_and!; [done|done|done|cbv; lia|constructor].
  - destruct news as [|item news]; cbn [is_nil].
    + split_and!; [done|done|done|cbv; lia|by repeat constructor].
    + split_and!; [done| | |cbv; lia|by repeat constructor].
      * unfold forwarded. simpl. by rewrite app_nil_r.
      * unfold snapshot. simpl. by rewrite app_nil_r.
Qed.

Lemma api_source_sink_witness :
  ∃ news, Returns [bare_record] = Returns news ∧ 0 = 0 ∧
    forwarded [EvApiGet "nd-key" (http_bare "nd-key");
               EvKafka [bare_record] "news-events";
               EvCsv [bare_record] "newsdata_news.csv"] = news ∧
    snapshot [EvApiGet "nd-key" (http_bare "nd-key");
              EvKafka [bare_record] "news-events";
              EvCsv [bare_record] "newsdata_news.csv"] = news ∧
    count_events is_api_get
      [EvApiGet "nd-key" (http_bare "nd-key");
       EvKafka [bare_record] "news-events";
       EvCsv [bare_record] "newsdata_news.csv"] ≤ 1 ∧
    Forall (λ e, api_event e = true)
      [EvApiGet "nd-key" (http_bare "nd-key");
       EvKafka [bare_record] "news-events";
       EvCsv [bare_record] "newsdata_news.csv"].
Proof.
  apply (api_source_sink http_bare example_environ "newsdata" newsdata_config
           0 0).
  by_eval.
Defined.

(** X14.  With both credentials set, a request that fails, an answer whose
    status is not [success], and an answer without results or with none all
    give the same run: the empty list after the one request, nothing
    published, nothing written, no exception. *)
Theorem api_failure_is_silent (http : string → http_reply)
    (environ : gmap string string) (name : string) (cfg : source_config)
    (n : nat) (api_key : string) :
  environ !! "NEWSDATA_API_KEY" = Some api_key → api_key ≠ EmptyString →
  falsy_env (environ !! gemini_key_env cfg) = false →
  http api_key = HttpFails
  ∨ (∃ status results,
       http api_key = HttpJson status results ∧
       (status ≠ Some "success" ∨ results = None ∨ results = Some [])) →
  crawl_api_source http environ name cfg n
    = (Returns [], [EvApiGet api_key (http api_key)], n).
Proof.
  intros Hkey Hne Hgem Hhttp.
  rewrite (crawl_api_source_answer _ _ _ _ _ _ Hkey Hne Hgem).
  assert (api_results (http api_key) = []) as ->; [|done].
  destruct Hhttp as [->|(status & results & -> & Hcase)]; [done|].
  simpl. destruct (bool_decide (status = Some "success")) eqn:Hs; [|done].
  apply bool_decide_eq_true in Hs.
  destruct Hcase as [?|[->| ->]]; done.
Qed.

Lemma api_failure_is_silent_witness :
  crawl_api_source http_down example_environ "newsdata" newsdata_config 0
    = (Returns [], [EvApiGet "nd-key" (http_down "nd-key")], 0).
Proof.
  apply (api_failure_is_silent http_down example_environ "newsdata"
           newsdata_config 0 "nd-key").
  - reflexivity.
  - discriminate.
  - reflexivity.
  - left. reflexivity.
Defined.

(** X15.  A successful answer with items is published whole: one record per
    item, in order, with no completeness check and no deduplication, sent to
    the topic and then written to the snapshot. *)
Theorem api_batch_is_unfiltered (http : string → http_reply)
    (environ : gmap string string) (name : string) (cfg : source_config)
    (n : nat) (api_key : string) (raw_results : list pydict) :
  environ !! "NEWSDATA_API_KEY" = Some api_key → api_key ≠ EmptyString →
  falsy_env (environ !! gemini_key_env cfg) = false →
  http api_key = HttpJson (Some "success") (Some raw_results) →
  raw_results ≠ [] →
  crawl_api_source http environ name cfg n
    = (Returns (newsdata_record <$> raw_results),
       [EvApiGet api_key (http api_key);
        EvKafka (newsdata_record <$> raw_results)
          (default "news-events" (environ !! "KAFKA_TOPIC"));
        EvCsv (newsdata_record <$> raw_results) (name +:+ "_news.csv")],
       n) ∧
  length (newsdata_record <$> raw_results) = length raw_results.
Proof.
  intros Hkey Hne Hgem Hhttp Hraw. split; [|by rewrite length_fmap].
  rewrite (crawl_api_source_answer _ _ _ _ _ _ Hkey Hne Hgem).
  rewrite Hhttp. cbn [api_results].
  rewrite bool_decide_eq_true_2 by done. cbn [default].
  by destruct raw_results.
Qed.

Lemma api_batch_is_unfiltered_witness :
  crawl_api_source http_twice example_environ "newsdata" newsdata_config 0
    = (Returns (newsdata_record <$> [bare_item; bare_item]),
       [EvApiGet "nd-key" (http_twice "nd-key");
        EvKafka (newsdata_record <$> [bare_item; bare_item])
          (default "news-events" (example_environ !! "KAFKA_TOPIC"));
        EvCsv (newsdata_record <$> [bare_item; bare_item])
          ("newsdata" +:+ "_news.csv")],
       0) ∧
  length (newsdata_record <$> [bare_item; bare_item])
    = length [bare_item; bare_item].
Proof.
  apply (api_batch_is_unfiltered http_twice example_environ "newsdata"
           newsdata_config 0 "nd-key" [bare_item; bare_item]).
  - reflexivity.
  - discriminate.
  - reflexivity.
  - reflexivity.
  - discriminate.
Defined.

(** ** The orchestrator *)

(** X16.  The total of the summary is the number of records written to the
    snapshots of the run, and at most the number of records published: a
    source that failed counts nothing and has written no snapshot. *)
Theorem total_is_snapshot_size
    (is_complete_news : pydict → list string → bool)
    (is_duplicate_news : pyval → gset pyval → bool)
    (crawlers : string → nat → reply) (http : string → http_reply)
    (environ : gmap string string)
    (sources : list (string * source_config)) :
  total_news (main is_complete_news is_duplicate_news crawlers http environ
                sources)
    = sum_list ((λ t, length (snapshot t.2)) <$>
                  traces (main is_complete_news is_duplicate_news crawlers
                            http environ sources)) ∧
  total_news (main is_complete_news is_duplicate_news crawlers http environ
                sources)
    ≤ sum_list ((λ t, length (forwarded t.2)) <$>
                  traces (main is_complete_news is_duplicate_news crawlers
                            http environ sources)).
Proof.
  destruct (main_spec is_complete_news is_duplicate_news crawlers http environ
              sources) as (_ & -> & ->).
  induction sources as [|src sources [IH1 IH2]]; [done|].
  cbn [fmap list_fmap omap list_omap sum_list sum_list_with].
  destruct (unit_of_work _ _ _ _ _ src) as [[o tr]|] eqn:Hwork;
    cbn [fmap option_fmap option_map list_fmap sum_list sum_list_with snd].
  - apply unit_of_work_count in Hwork as [Hs Hf].
    change (sum_list_with id ?l) with (sum_list l) in *.
    simpl in *. lia.
  - simpl in IH1, IH2 |- *. lia.
Qed.

(** X17.  The summary of a run is put together source by source: the lines,
    the total and the traces of a list of sources are those of its parts. *)
Theorem main_is_compositional
    (is_complete_news : pydict → list string → bool)
    (is_duplicate_news : pyval → gset pyval → bool)
    (crawlers : string → nat → reply) (http : string → http_reply)
    (environ : gmap string string)
    (l1 l2 : list (string * source_config)) :
  lines (main is_complete_news is_duplicate_news crawlers http environ
           (l1 ++ l2))
    = lines (main is_complete_news is_duplicate_news crawlers http environ l1)
      ++ lines (main is_complete_news is_duplicate_news crawlers http environ
                  l2) ∧
  total_news (main is_complete_news is_duplicate_news crawlers http environ
                (l1 ++ l2))
    = total_news (main is_complete_news is_duplicate_news crawlers http
                    environ l1)
      + total_news (main is_complete_news is_duplicate_news crawlers http
                      environ l2) ∧
  traces (main is_complete_news is_duplicate_news crawlers http environ
            (l1 ++ l2))
    = traces (main is_complete_news is_duplicate_news crawlers http environ l1)
      ++ traces (main is_complete_news is_duplicate_news crawlers http environ
                   l2) ∧
  length (lines (main is_complete_news is_duplicate_news crawlers http environ
                   l1))
    = length (traces (main is_complete_news is_duplicate_news crawlers http
                        environ l1)) ∧
  length (lines (main is_complete_news is_duplicate_news crawlers http environ
                   l1)) ≤ length l1.
Proof.
  destruct (main_app is_complete_news is_duplicate_news crawlers http environ
              l1 l2) as (-> & -> & ->).
  split_and!; [done..| |].
  - destruct (main_spec is_complete_news is_duplicate_news crawlers http
                environ l1) as (-> & _ & ->).
    induction l1 as [|src l1 IH]; [done|].
    cbn [omap list_omap].
    pose proof (unit_of_work_total is_complete_news is_duplicate_news crawlers
                  http environ src) as Htot.
    destruct (unit_of_work _ _ _ _ _ src) as [[o tr]|]; [|done].
    specialize (Htot _ _ eq_refl).
    destruct o; [| |done]; simpl; by rewrite IH.
  - destruct (main_spec is_complete_news is_duplicate_news crawlers http
                environ l1) as (-> & _ & _).
    induction l1 as [|src l1 IH]; [done|].
    cbn [omap list_omap]. destruct (line_of _ _); simpl; lia.
Qed.

(** X18.  A configuration entry whose type is neither [scraper] nor [api]
    gets no task: the summary is the one of the run without that entry, with
    no line, no count and no trace for it. *)
Theorem unknown_type_is_ignored
    (is_complete_news : pydict → list string → bool)
    (is_duplicate_news : pyval → gset pyval → bool)
    (crawlers : string → nat → reply) (http : string → http_reply)
    (environ : gmap string string)
    (l1 l2 : list (string * source_config))
    (src : string * source_config) :
  type_ src.2 ≠ "scraper" → type_ src.2 ≠ "api" →
  main is_complete_news is_duplicate_news crawlers http environ
    (l1 ++ src :: l2)
  = main is_complete_news is_duplicate_news crawlers http environ (l1 ++ l2).
Proof.
  intros Hs Ha.
  assert (unit_of_work is_complete_news is_duplicate_news crawlers http
            environ src = None) as Hwork.
  { unfold unit_of_work, make_task.
    destruct (String.eqb (type_ src.2) "scraper") eqn:E1;
      [by apply String.eqb_eq in E1|].
    destruct (String.eqb (type_ src.2) "api") eqn:E2;
      [by apply String.eqb_eq in E2|]. done. }
  apply summary_eq.
  - destruct (main_spec is_complete_news is_duplicate_news crawlers http
                environ (l1 ++ src :: l2)) as (-> & _ & _).
    destruct (main_spec is_complete_news is_duplicate_news crawlers http
                environ (l1 ++ l2)) as (-> & _ & _).
    rewrite !omap_app. cbn [omap list_omap]. by rewrite Hwork.
  - destruct (main_spec is_complete_news is_duplicate_news crawlers http
                environ (l1 ++ src :: l2)) as (_ & -> & _).
    destruct (main_spec is_complete_news is_duplicate_news crawlers http
                environ (l1 ++ l2)) as (_ & -> & _).
    rewrite !fmap_app, !sum_list_with_app. cbn [fmap list_fmap].
    by rewrite Hwork.
  - destruct (main_spec is_complete_news is_duplicate_news crawlers http
                environ (l1 ++ src :: l2)) as (_ & _ & ->).
    destruct (main_spec is_complete_news is_duplicate_news crawlers http
                environ (l1 ++ l2)) as (_ & _ & ->).
    rewrite !omap_app. cbn [omap list_omap]. by rewrite Hwork.
Qed.

Lemma unknown_type_is_ignored_witness :
  main is_complete_news_keys is_duplicate_news_exact (λ _, crawler_scenario)
    http_bare example_environ
    ([("moneycontrol", moneycontrol_config)] ++ ("feed", rss_config)
       :: [("newsdata", newsdata_config)])
  = main is_complete_news_keys is_duplicate_news_exact (λ _, crawler_scenario)
      http_bare example_environ
      ([("moneycontrol", moneycontrol_config)]
         ++ [("newsdata", newsdata_config)]).
Proof.
  apply (unknown_type_is_ignored is_complete_news_keys is_duplicate_news_exact
           (λ _, crawler_scenario) http_bare example_environ
           [("moneycontrol", moneycontrol_config)]
           [("newsdata", newsdata_config)] ("feed", rss_config));
    discriminate.
Defined.

(** X19.  Whatever model name a source is configured with, known or not,
    the extraction schema of its strategy asks for exactly the five required
    keys, and the strategy carries the source's own API key. *)
Theorem schema_matches_required_keys (model_name api_key : string) :
  schema (get_llm_strategy_for_source model_name api_key) ≡ₚ REQUIRED_KEYS ∧
  api_token (get_llm_strategy_for_source model_name api_key) = api_key.
Proof.
  assert (schema (get_llm_strategy_for_source model_name api_key)
          = ["title"; "description"; "publishtime"; "url"; "provider"]) as ->.
  { unfold get_llm_strategy_for_source. cbn [schema].
    assert (default News (model_map !! model_name) ≠ DetailedNews) as Hne.
    { unfold model_map.
      destruct (decide (model_name = "mcnews")) as [->|?]; [done|].
      destruct (decide (model_name = "thehindu")) as [->|?]; [done|].
      destruct (decide (model_name = "indianexpress")) as [->|?]; [done|].
      destruct (decide (model_name = "newsdata")) as [->|?]; [done|].
      by rewrite !lookup_insert_ne, lookup_singleton_ne by done. }
    by destruct (default News (model_map !! model_name)). }
  split; [|done].
  unfold REQUIRED_KEYS. do 2 f_equiv. apply Permutation_swap.
Qed.

(** ** Waiting time and report lines *)

Lemma slept_app tr1 tr2 : slept (tr1 ++ tr2) = slept tr1 + slept tr2.
Proof. unfold slept. by rewrite fmap_app, sum_list_with_app. Qed.

Section SleepBudget.

Variable is_complete_news : pydict → list string → bool.
Variable is_duplicate_news : pyval → gset pyval → bool.
Variable crawler : nat → reply.
Variable environ : gmap string string.

Local Abbreviation attempt p cfg sid :=
  (fetch_and_process_page is_complete_news is_duplicate_news crawler
     p (base_url cfg) (css_selector cfg) sid REQUIRED_KEYS).
Local Abbreviation retry :=
  (retry_loop is_complete_news is_duplicate_news crawler).
Local Abbreviation pages :=
  (crawl_pages is_complete_news is_duplicate_news crawler).

Lemma attempt_slept p cfg sid seen n o t1 n1 :
  attempt p cfg sid seen n = (o, t1, n1) → slept t1 = 0.
Proof. by intros [-> | ->]%attempt_shape. Qed.

(** A retry loop sleeps five seconds after each failed attempt, and not
    after the attempt that brought the batch it returns. *)
Lemma retry_loop_slept k p cfg sid seen last n o tr n' :
  retry k p cfg sid seen last n = (o, tr, n') →
  slept tr ≤ 5 * k ∧
  (∀ news flag s, o = Returns (news, flag, s) → is_nil last.1 = true →
                  is_nil news = false → slept tr + 5 ≤ 5 * k).
Proof.
  revert seen last n o tr n'. induction k as [|k IH]; intros seen last n o tr n'.
  { intros [= <- <- <-]. split; [done|].
    intros news flag s [= Hl] Hnil Hnews. destruct last as [l f].
    simpl in *. congruence. }
  destruct (attempt p cfg sid seen n) as [[[[[r1 f1] s1]|e|] t1] n1] eqn:Hatt.
  - pose proof Hatt as Hz%attempt_slept.
    rewrite (retry_loop_step _ _ _ _ _ _ _ _ _ _ _ _ _ _ _ Hatt).
    destruct (negb (is_nil r1) || f1) eqn:Hgood.
    { intros [= <- <- <-]. rewrite Hz. split; [lia|]. intros. lia. }
    apply orb_false_iff in Hgood as [Hr1%negb_false_iff _].
    destruct (retry k p cfg sid s1 (r1, f1) n1) as [[o2 t2] n2] eqn:Hrec.
    intros [= <- <- <-]. apply IH in Hrec as [Hle Hok].
    rewrite !slept_app, Hz.
    change (slept (EvSleep 5 :: t2)) with (5 + slept t2).
    split; [lia|]. intros news flag s -> _ Hnews.
    specialize (Hok _ _ _ eq_refl Hr1 Hnews). lia.
  - pose proof Hatt as Hz%attempt_slept.
    rewrite (retry_loop_raises _ _ _ _ _ _ _ _ _ _ _ _ _ Hatt).
    intros [= <- <- <-]. rewrite Hz. split; [lia|done].
  - by apply fetch_trace in Hatt as [? _].
Qed.

Lemma crawl_pages_slept fuel cfg sid topic p all_news seen n o tr n' :
  pages fuel cfg sid topic p all_news seen n = (o, tr, n') →
  slept tr ≤ 12 * (21 - p) + 15.
Proof.
  revert p all_news seen n o tr n'.
  induction fuel as [|fuel IH]; intros p all_news seen n o tr n'.
  { intros [= <- <- <-]. cbv. lia. }
  destruct (retry 3 p cfg sid seen ([], false) n)
    as [[[[[news flag] s1]|e|] t1] n1] eqn:Hr.
  - pose proof Hr as [Hle Hok]%retry_loop_slept.
    rewrite (crawl_pages_step _ _ _ _ _ _ _ _ _ _ _ _ _ _ _ _ Hr).
    destruct flag; [intros [= <- <- <-]; lia|].
    destruct (is_nil news) eqn:Hnil; [intros [= <- <- <-]; lia|].
    specialize (Hok _ _ _ eq_refl eq_refl Hnil).
    destruct (20 <? p) eqn:Hp.
    { intros [= <- <- <-]. rewrite slept_app.
      change (slept [EvKafka news topic]) with 0. lia. }
    apply Nat.ltb_ge in Hp.
    destruct (pages fuel cfg sid topic (p + 1) (all_news ++ news) s1 n1)
      as [[o2 t2] n2] eqn:Hrec.
    intros [= <- <- <-]. apply IH in Hrec.
    rewrite slept_app.
    change (slept (EvKafka news topic :: EvSleep 2 :: t2)) with (2 + slept t2).
    replace (21 - (p + 1)) with (20 - p) in Hrec by lia.
    replace (21 - p) with (S (20 - p)) by lia. lia.
  - pose proof Hr as [Hle _]%retry_loop_slept.
    rewrite (crawl_pages_raises _ _ _ _ _ _ _ _ _ _ _ _ _ _ Hr).
    intros [= <- <- <-]. lia.
  - by apply retry_loop_trace in Hr as [? _].
Qed.

End SleepBudget.

(** X20.  A session of a paginated source spends at most 255 seconds in its
    own waits, for every crawler: at most ten seconds of retries and two
    seconds of pause for each of 20 pages, and at most fifteen seconds on the
    last page it looks at. *)
Theorem session_sleep_budget
    (is_complete_news : pydict → list string → bool)
    (is_duplicate_news : pyval → gset pyval → bool)
    (crawler : nat → reply) (environ : gmap string string)
    (name : string) (cfg : source_config) (n n' : nat)
    (o : outcome (list pydict)) (tr : list event) :
  crawl_scraper_source is_complete_news is_duplicate_news crawler environ
    name cfg n = (o, tr, n') →
  slept tr ≤ 255.
Proof.
  destruct (falsy_env (environ !! gemini_key_env cfg)) eqn:Hkey.
  { rewrite crawl_scraper_source_skip by done. intros [= <- <- <-].
    cbv. lia. }
  intros (oc & trc & Hp & Hcase)%crawl_scraper_source_run; [|done].
  apply crawl_pages_slept in Hp. simpl in Hp.
  destruct Hcase as [(all_news & -> & -> & ->)|(e & -> & -> & ->)]; [|done].
  rewrite slept_app.
  replace (slept (if is_nil all_news then []
                  else [EvCsv all_news (name +:+ "_news.csv")])) with 0
    by (by destruct all_news).
  lia.
Qed.

Lemma session_sleep_budget_witness : slept scenario_trace ≤ 255.
Proof.
  apply (session_sleep_budget is_complete_news_keys is_duplicate_news_exact
           crawler_scenario example_environ "moneycontrol"
           moneycontrol_config 0 3 (Returns scenario_news)).
  by_eval.
Defined.

(** X21.  When every configured source is a scraper or an API source, the
    summary has one line and one trace per source, in the order of the
    configuration, whatever the sources did. *)
Theorem one_line_per_source
    (is_complete_news : pydict → list string → bool)
    (is_duplicate_news : pyval → gset pyval → bool)
    (crawlers : string → nat → reply) (http : string → http_reply)
    (environ : gmap string string)
    (sources : list (string * source_config)) :
  Forall (λ src, type_ src.2 = "scraper" ∨ type_ src.2 = "api") sources →
  line_source <$> lines (main is_complete_news is_duplicate_news crawlers http
                           environ sources) = sources.*1 ∧
  (traces (main is_complete_news is_duplicate_news crawlers http environ
             sources)).*1 = sources.*1.
Proof.
  intros Hty.
  destruct (main_spec is_complete_news is_duplicate_news crawlers http environ
              sources) as (-> & _ & ->).
  induction Hty as [|src sources Hsrc _ [IH1 IH2]]; [done|].
  cbn [omap list_omap fmap list_fmap].
  pose proof (unit_of_work_total is_complete_news is_duplicate_news crawlers
                http environ src) as Htot.
  assert (is_Some (unit_of_work is_complete_news is_duplicate_news crawlers
                     http environ src)) as [[o tr] Hwork].
  { unfold unit_of_work, make_task. destruct Hsrc as [-> | ->]; by eexists. }
  rewrite Hwork in Htot |- *. specialize (Htot _ _ eq_refl).
  destruct o as [news|e|]; [| |done];
    (split; simpl; f_equal; first [exact IH1 | exact IH2]).
Qed.

Lemma one_line_per_source_witness :
  line_source <$> lines (main is_complete_news_keys is_duplicate_news_exact
                           crawlers_one_down http_bare example_environ
                           SOURCES) = SOURCES.*1 ∧
  (traces (main is_complete_news_keys is_duplicate_news_exact
             crawlers_one_down http_bare example_environ SOURCES)).*1
    = SOURCES.*1.
Proof.
  apply (one_line_per_source is_complete_news_keys is_duplicate_news_exact
           crawlers_one_down http_bare example_environ SOURCES).
  repeat first
    [ apply Forall_nil_2
    | apply Forall_cons_2;
      [first [left; reflexivity | right; reflexivity]|] ].
Defined.
